(** * Zentro backend: booking engine, consultant directory and category registry

    A shallow embedding of the Mongoose models (Booking, Consultant,
    Category: schemas, validators and pre-save hooks) and of the Express
    route handlers that write them, with the properties of the booking
    subsystem proved or refuted on that embedding.

    Conventions of the embedding.
    - An ObjectId is a [nat]; a collection is a [gmap nat] of documents.
    - A JavaScript [Date] is the number of milliseconds it holds, a [Z];
      the clock ([new Date()]) is an argument [now] of every handler.
    - A JavaScript [Number] that the code computes by [/] is a [Number]:
      an exact rational or [NaN]. The rounding of IEEE doubles is left out.
    - Strings are [string]s of bytes; [length], [toUpperCase],
      [toLowerCase] and [trim] are those of ASCII text. On other text the
      case mappings of JavaScript change more letters and may lengthen the
      string; what is stated of them here is stated of ASCII text.
    - A Mongoose document in memory carries its current values, the values
      it was loaded with (change tracking, [isModified], [isNew]) and the
      property [_original] that two of the hooks read.
    - [save()] is: schema validation, then the pre-save hooks in the order
      of their registration, then the write. Validation runs the validators
      of every path of the document, of the paths that were loaded from the
      store as of those that were assigned: a stored booking is validated
      again, against the clock of that moment, on every later save.
    - An exception that leaves a handler goes to the error middleware,
      which is not part of these sources: the outcome [Thrown]. *)

From Stdlib Require Import ZArith QArith Qround String Ascii List Lia.
From stdpp Require Import base gmap strings list fin_maps sorting.

Open Scope Z_scope.

(** ** JavaScript values the handlers compute with *)

Module JS.

(** The result of an arithmetic division: a rational, or [NaN] for [0/0]
    and for arithmetic on [undefined]. *)
Inductive Number :=
| Num (q : Q)
| NaN.

(** [sum + x] inside [reduce], where [x] may be [undefined]. *)
Definition add (acc : Number) (x : option Z) : Number :=
  match acc, x with
  | Num q, Some z => Num (q + inject_Z z)
  | _, _ => NaN
  end.

(** [a / n] for a count [n >= 0]: [0/0] is [NaN], [a/0] is an infinity
    which no caller reaches with [a <> 0]; both are [NaN] here. *)
Definition div (a : Number) (n : Z) : Number :=
  match a with
  | Num q => if n =? 0 then NaN else Num (q / inject_Z n)
  | NaN => NaN
  end.

(** Truthiness of an optional string: [undefined] and the empty string are falsy. *)
Definition truthy_str (s : option string) : bool :=
  match s with
  | Some s => negb (String.eqb s EmptyString)
  | None => false
  end.

(** Truthiness of an optional number: [undefined] and [0] are falsy. *)
Definition truthy_num (n : option Z) : bool :=
  match n with
  | Some n => negb (n =? 0)
  | None => false
  end.

Definition code (c : ascii) : Z := Z.of_N (N_of_ascii c).
Definition chr (n : Z) : ascii := ascii_of_N (Z.to_N n).

Definition is_digit (c : ascii) : bool := (48 <=? code c) && (code c <=? 57).
Definition digit_val (c : ascii) : Z := code c - 48.
Definition digit_char (n : Z) : ascii := chr (48 + n).

Definition upper_char (c : ascii) : ascii :=
  if (97 <=? code c) && (code c <=? 122) then chr (code c - 32) else c.
Definition lower_char (c : ascii) : ascii :=
  if (65 <=? code c) && (code c <=? 90) then chr (code c + 32) else c.

(** [toUpperCase] and [toLowerCase] on ASCII text: the letters [a-z] and
    [A-Z] are mapped, every other byte is kept. *)
Fixpoint toUpperCase (s : string) : string :=
  match s with
  | EmptyString => EmptyString
  | String c s' => String (upper_char c) (toUpperCase s')
  end.

Fixpoint toLowerCase (s : string) : string :=
  match s with
  | EmptyString => EmptyString
  | String c s' => String (lower_char c) (toLowerCase s')
  end.

(** [s.charAt(0)]: the first character as a string, the empty string when there is
    none; [s.slice(1)]: the rest. *)
Definition charAt0 (s : string) : string :=
  match s with
  | EmptyString => EmptyString
  | String c _ => String c EmptyString
  end.

Definition slice1 (s : string) : string :=
  match s with
  | EmptyString => EmptyString
  | String _ s' => s'
  end.

(** White space removed by [trim]: space, tab, line feed, vertical tab,
    form feed, carriage return. *)
Definition is_space (c : ascii) : bool :=
  (code c =? 32) || ((9 <=? code c) && (code c <=? 13)).

Fixpoint trimStart (s : string) : string :=
  match s with
  | EmptyString => EmptyString
  | String c s' => if is_space c then trimStart s' else s
  end.

Definition trim (s : string) : string :=
  String.rev (trimStart (String.rev (trimStart s))).

(** *** Clock strings and the [Date] arithmetic of the end-time hook *)

(** The regular expression [/^([01]?[0-9]|2[0-3]):[0-5][0-9]$/] of the
    schema and of the request validators. *)
Definition is_minute (m1 m2 : ascii) : bool :=
  is_digit m1 && (digit_val m1 <=? 5) && is_digit m2.

Definition is_colon (c : ascii) : bool := code c =? 58.

Definition is_hour (h1 h2 : ascii) : bool :=
  (is_digit h1 && (digit_val h1 <=? 1) && is_digit h2)
  || ((digit_val h1 =? 2) && is_digit h2 && (digit_val h2 <=? 3)).

Definition matches_time (s : string) : bool :=
  match s with
  | String h (String c (String m1 (String m2 EmptyString))) =>
      is_digit h && is_colon c && is_minute m1 m2
  | String h1 (String h2 (String c (String m1 (String m2 EmptyString)))) =>
      is_hour h1 h2 && is_colon c && is_minute m1 m2
  | _ => false
  end.

(** [new Date(`2000-01-01T${t}:00`)] on the strings the schema admits, in
    milliseconds after local midnight of that day. The date-time format
    wants two digits for the hour: ["09:30"] is a time, ["9:30"] gives an
    invalid date ([None]). *)
Definition Date_2000_01_01T (t : string) : option Z :=
  match t with
  | String h1 (String h2 (String c (String m1 (String m2 EmptyString)))) =>
      if matches_time t
      then Some (((10 * digit_val h1 + digit_val h2) * 60
                  + (10 * digit_val m1 + digit_val m2)) * 60000)
      else None
  | _ => None
  end.

Definition two_digits (n : Z) : string :=
  String (digit_char (n / 10)) (String (digit_char (n mod 10)) EmptyString).

(** [d.toTimeString().slice(0, 5)]: the local wall-clock ["HH:MM"] of the
    instant, and the first five characters of ["Invalid Date"] for an
    invalid one. The day the instant falls on is dropped. *)
Definition toTimeString_slice_0_5 (d : option Z) : string :=
  match d with
  | Some ms =>
      let minutes := (ms / 60000) mod 1440 in
      two_digits (minutes / 60) ++ ":" ++ two_digits (minutes mod 60)
  | None => "Inval"
  end.

(** A clock string of the form ["HH:MM"] read as minutes after midnight. *)
Definition minutes_of (t : string) : option Z :=
  match Date_2000_01_01T t with
  | Some ms => Some (ms / 60000)
  | None => None
  end.

End JS.

(** ** Shared enumerations, the caller and the responses *)

Inductive Role := role_client | role_consultant | role_admin.

Inductive Status := pending | confirmed | completed | cancelled | no_show.

Inductive MeetingType := video | audio | in_person.

Inductive CancelledBy := by_client | by_consultant | by_admin.

#[global] Instance Role_eq_dec : EqDecision Role.
Proof. solve_decision. Defined.
#[global] Instance Status_eq_dec : EqDecision Status.
Proof. solve_decision. Defined.
#[global] Instance MeetingType_eq_dec : EqDecision MeetingType.
Proof. solve_decision. Defined.
#[global] Instance CancelledBy_eq_dec : EqDecision CancelledBy.
Proof. solve_decision. Defined.

(** [req.user], as the authentication middleware leaves it. *)
Record User := { _id : nat; role : Role }.

(** [res.status(code).json({ success, message, ... })]. *)
Record Response := { code : Z; success : bool; message : string }.

Inductive Error :=
| MongooseValidationError
| RegExpSyntaxError.

Inductive Outcome :=
| Responded (r : Response)
| Thrown (e : Error).

Definition json (c : Z) (ok : bool) (msg : string) : Outcome :=
  Responded {| code := c; success := ok; message := msg |}.

(** [authorizeRoles(r)]: the response of the middleware when the caller has
    another role. *)
Definition access_denied (required : string) : Outcome :=
  json 403 false ("Access denied. Required roles: " ++ required).

Definition validation_error : Outcome := json 400 false "Validation error".

(** The first document of a collection that satisfies a filter, with its
    id ([findOne]), and all of them ([find]). *)
Definition findOne {A} (P : nat -> A -> bool) (m : gmap nat A) : option (nat * A) :=
  head (filter (fun kv => P kv.1 kv.2 = true) (map_to_list m)).

Definition find {A} (P : A -> bool) (m : gmap nat A) : list A :=
  (filter (fun kv => P kv.2 = true) (map_to_list m)).*2.

(** The ObjectId of a document made by [new Model(...)]: one that the
    collection does not hold. *)
Definition new_ObjectId {A} (m : gmap nat A) : nat := fresh (dom m).

Definition maxlength (n : nat) (s : string) : bool := (String.length s <=? n)%nat.

(** Validators are not run on [undefined]. *)
Definition when_defined {A} (ok : A -> bool) (x : option A) : bool :=
  match x with
  | Some a => ok a
  | None => true
  end.

(** ** Category model *)

Module Category.

Record t := {
  name : string;
  description : string;
  icon : string;
  color : string;
  isActive : bool;
  sortOrder : Z;
  consultantCount : Z;
  bookingCount : Z
}.

Definition set_name (v : string) (c : t) : t :=
  {| name := v; description := description c; icon := icon c;
     color := color c; isActive := isActive c; sortOrder := sortOrder c;
     consultantCount := consultantCount c; bookingCount := bookingCount c |}.

Definition inc_consultantCount (delta : Z) (c : t) : t :=
  {| name := name c; description := description c; icon := icon c;
     color := color c; isActive := isActive c; sortOrder := sortOrder c;
     consultantCount := consultantCount c + delta;
     bookingCount := bookingCount c |}.

(** [name.charAt(0).toUpperCase() + name.slice(1).toLowerCase()] *)
Definition normalize (n : string) : string :=
  (JS.toUpperCase (JS.charAt0 n) ++ JS.toLowerCase (JS.slice1 n))%string.

(** The pre-save hook. *)
Definition pre_save (c : t) : t := set_name (normalize (name c)) c.

(** [Category.updateMany({ _id: { $in: ids } }, { $inc: { consultantCount: delta } })] *)
Definition updateMany_inc (ids : list nat) (delta : Z) (cats : gmap nat t)
  : gmap nat t :=
  map_imap (fun k c =>
    Some (if bool_decide (k ∈ ids) then inc_consultantCount delta c else c)) cats.

End Category.

(** ** Consultant model *)

Module Consultant.

Record Rating := { average : JS.Number; count : Z }.

(** The paths of the schema that the routes below read or write. The
    availability windows and the lists of qualifications, certifications,
    languages, specializations and achievements take no part in them, but
    for the [languages] that a route assigns, which [save] validates. *)
Record t := {
  user : nat;
  categories : list nat;
  bio : string;
  experience : Z;
  hourlyRate : Q;
  rating : Rating;
  isVerified : bool;
  isActive : bool;
  totalBookings : Z;
  completedBookings : Z
}.

(** A document in memory. [loaded] holds the values read from the store
    ([None] for a document made by [new], which is [isNew]). None of the
    schemas registers an [init] hook and nothing in the sources assigns
    [_original]: [findById], [findOne] and [new] all leave it undefined. *)
Record Doc := { this : t; loaded : option t; _original : option t }.

Definition of_store (c : t) : Doc :=
  {| this := c; loaded := Some c; _original := None |}.

Definition new (c : t) : Doc :=
  {| this := c; loaded := None; _original := None |}.

Definition set_this (c : t) (d : Doc) : Doc :=
  {| this := c; loaded := loaded d; _original := _original d |}.

Definition set_rating (v : Rating) (c : t) : t :=
  {| user := user c; categories := categories c; bio := bio c;
     experience := experience c; hourlyRate := hourlyRate c;
     rating := v; isVerified := isVerified c; isActive := isActive c;
     totalBookings := totalBookings c;
     completedBookings := completedBookings c |}.

Definition inc_totalBookings (c : t) : t :=
  {| user := user c; categories := categories c; bio := bio c;
     experience := experience c; hourlyRate := hourlyRate c;
     rating := rating c; isVerified := isVerified c; isActive := isActive c;
     totalBookings := totalBookings c + 1;
     completedBookings := completedBookings c |}.

Definition inc_completedBookings (c : t) : t :=
  {| user := user c; categories := categories c; bio := bio c;
     experience := experience c; hourlyRate := hourlyRate c;
     rating := rating c; isVerified := isVerified c; isActive := isActive c;
     totalBookings := totalBookings c;
     completedBookings := completedBookings c + 1 |}.

(** [this.isModified('categories')] *)
Definition isModified_categories (d : Doc) : bool :=
  match loaded d with
  | Some c0 => bool_decide (categories (this d) ≠ categories c0)
  | None => true
  end.

(** The pre-save hook that maintains [Category.consultantCount]. *)
Definition pre_save (d : Doc) (cats : gmap nat Category.t) : gmap nat Category.t :=
  if isModified_categories d then
    (* Decrement count from old categories *)
    let cats1 :=
      match _original d with
      | Some o => Category.updateMany_inc (categories o) (-1) cats
      | None => cats
      end in
    (* Increment count for new categories *)
    if (0 <? length (categories (this d)))%nat
    then Category.updateMany_inc (categories (this d)) 1 cats1
    else cats1
  else cats.

(** The [min: 0, max: 5] validators of [rating.average]; a [NaN] does not
    cast to a schema number. *)
Definition valid_average (a : JS.Number) : bool :=
  match a with
  | JS.Num q => Qle_bool 0 q && Qle_bool q 5
  | JS.NaN => false
  end.

(** The [enum] of the elements of [languages]; the schema trims an
    element before it validates it. *)
Definition language_enum : list string :=
  [ "English"; "Spanish"; "French"; "German"; "Chinese"; "Japanese"; "Korean";
    "Arabic"; "Hindi"; "Portuguese"; "Russian"; "Italian"; "Dutch"; "Swedish";
    "Norwegian"; "Danish"; "Finnish"; "Polish"; "Turkish"; "Greek" ]%string.

Definition valid_languages (l : list string) : bool :=
  forallb (fun s => bool_decide (JS.trim s ∈ language_enum)) l.

(** Schema validation of the paths of [t]. [rating.average] is the one
    that a booking handler assigns. [bio], [experience] and [hourlyRate]
    are assigned by the consultant routes only, behind request validators
    that are at least as strict as the schema's, and their validators do
    not depend on the moment of the save. The list of [languages], which is
    not a path of [t], is validated by the routes that assign it. *)
Definition validate (d : Doc) : bool :=
  valid_average (average (rating (this d))).

End Consultant.

(** ** Booking model *)

Module Booking.

Record Notes := { notes_client : option string; notes_consultant : option string }.

Record Rating := { score : option Z; review : option string; createdAt : option Z }.

(** The paths of the schema but [meetingLink] and [location], which no
    route writes. *)
Record t := {
  client : nat;
  consultant : nat;
  category : nat;
  date : Z;
  duration : Z;
  startTime : string;
  endTime : string;
  status : Status;
  totalAmount : Q;
  notes : Notes;
  meetingType : MeetingType;
  cancellationReason : option string;
  cancelledBy : option CancelledBy;
  cancelledAt : option Z;
  completedAt : option Z;
  rating : Rating
}.

(** A document in memory; see [Consultant.Doc]. *)
Record Doc := { this : t; loaded : option t; _original : option t }.

Definition of_store (b : t) : Doc :=
  {| this := b; loaded := Some b; _original := None |}.

Definition new (b : t) : Doc :=
  {| this := b; loaded := None; _original := None |}.

Definition set_this (b : t) (d : Doc) : Doc :=
  {| this := b; loaded := loaded d; _original := _original d |}.

Definition isNew (d : Doc) : bool :=
  match loaded d with
  | Some _ => false
  | None => true
  end.

(** [this.isModified(path)]: the value differs from the loaded one. Every
    path that the constructor was given counts as modified on a new
    document; [status] is the one path the routes leave to its default,
    and the hook that tests it is guarded by [_original]. *)
Definition isModified_by {A} (same : A -> A -> bool) (path : t -> A) (d : Doc) : bool :=
  match loaded d with
  | Some b0 => negb (same (path (this d)) (path b0))
  | None => true
  end.

Definition isModified {A} `{EqDecision A} (path : t -> A) (d : Doc) : bool :=
  isModified_by (fun x y => bool_decide (x = y)) path d.

Definition set_endTime (v : string) (b : t) : t :=
  {| client := client b; consultant := consultant b; category := category b;
     date := date b; duration := duration b; startTime := startTime b;
     endTime := v; status := status b; totalAmount := totalAmount b;
     notes := notes b; meetingType := meetingType b;
     cancellationReason := cancellationReason b;
     cancelledBy := cancelledBy b; cancelledAt := cancelledAt b;
     completedAt := completedAt b; rating := rating b |}.

Definition set_totalAmount (v : Q) (b : t) : t :=
  {| client := client b; consultant := consultant b; category := category b;
     date := date b; duration := duration b; startTime := startTime b;
     endTime := endTime b; status := status b; totalAmount := v;
     notes := notes b; meetingType := meetingType b;
     cancellationReason := cancellationReason b;
     cancelledBy := cancelledBy b; cancelledAt := cancelledAt b;
     completedAt := completedAt b; rating := rating b |}.

Definition set_status (v : Status) (b : t) : t :=
  {| client := client b; consultant := consultant b; category := category b;
     date := date b; duration := duration b; startTime := startTime b;
     endTime := endTime b; status := v; totalAmount := totalAmount b;
     notes := notes b; meetingType := meetingType b;
     cancellationReason := cancellationReason b;
     cancelledBy := cancelledBy b; cancelledAt := cancelledAt b;
     completedAt := completedAt b; rating := rating b |}.

Definition set_notes_consultant (v : string) (b : t) : t :=
  {| client := client b; consultant := consultant b; category := category b;
     date := date b; duration := duration b; startTime := startTime b;
     endTime := endTime b; status := status b; totalAmount := totalAmount b;
     notes := {| notes_client := notes_client (notes b);
                 notes_consultant := Some v |};
     meetingType := meetingType b;
     cancellationReason := cancellationReason b;
     cancelledBy := cancelledBy b; cancelledAt := cancelledAt b;
     completedAt := completedAt b; rating := rating b |}.

Definition set_cancellationReason (v : string) (b : t) : t :=
  {| client := client b; consultant := consultant b; category := category b;
     date := date b; duration := duration b; startTime := startTime b;
     endTime := endTime b; status := status b; totalAmount := totalAmount b;
     notes := notes b; meetingType := meetingType b;
     cancellationReason := Some v;
     cancelledBy := cancelledBy b; cancelledAt := cancelledAt b;
     completedAt := completedAt b; rating := rating b |}.

Definition set_cancelled (at_ : Z) (who : CancelledBy) (b : t) : t :=
  {| client := client b; consultant := consultant b; category := category b;
     date := date b; duration := duration b; startTime := startTime b;
     endTime := endTime b; status := status b; totalAmount := totalAmount b;
     notes := notes b; meetingType := meetingType b;
     cancellationReason := cancellationReason b;
     cancelledBy := Some who; cancelledAt := Some at_;
     completedAt := completedAt b; rating := rating b |}.

Definition set_completedAt (at_ : Z) (b : t) : t :=
  {| client := client b; consultant := consultant b; category := category b;
     date := date b; duration := duration b; startTime := startTime b;
     endTime := endTime b; status := status b; totalAmount := totalAmount b;
     notes := notes b; meetingType := meetingType b;
     cancellationReason := cancellationReason b;
     cancelledBy := cancelledBy b; cancelledAt := cancelledAt b;
     completedAt := Some at_; rating := rating b |}.

Definition set_rating (v : Rating) (b : t) : t :=
  {| client := client b; consultant := consultant b; category := category b;
     date := date b; duration := duration b; startTime := startTime b;
     endTime := endTime b; status := status b; totalAmount := totalAmount b;
     notes := notes b; meetingType := meetingType b;
     cancellationReason := cancellationReason b;
     cancelledBy := cancelledBy b; cancelledAt := cancelledAt b;
     completedAt := completedAt b; rating := v |}.

(** *** Schema validators *)

(** [validator: function(value) { return value > new Date(); }] *)
Definition date_in_future (now : Z) (value : Z) : bool := now <? value.

Definition valid_duration (v : Z) : bool := (30 <=? v) && (v <=? 480).

Definition valid_score (v : Z) : bool := (1 <=? v) && (v <=? 5).

(** The validators of the schema on the values of a booking. *)
Definition valid_at (now : Z) (b : t) : bool :=
  date_in_future now (date b)
  && valid_duration (duration b)
  && JS.matches_time (startTime b)
  && JS.matches_time (endTime b)
  && Qle_bool 0 (totalAmount b)
  && when_defined (maxlength 500) (notes_client (notes b))
  && when_defined (maxlength 500) (notes_consultant (notes b))
  && when_defined (maxlength 200) (cancellationReason b)
  && when_defined valid_score (score (rating b))
  && when_defined (maxlength 1000) (review (rating b)).

(** Validation before [save]: every path of the document is validated,
    whether it was loaded or assigned, so that a loaded booking has to pass
    [date > new Date()] and the pattern of [endTime] again. *)
Definition validate (now : Z) (d : Doc) : bool := valid_at now (this d).

(** *** Pre-save hook: end time and total amount *)

Definition pre_save_endTime (d : Doc) : Doc :=
  if isModified startTime d || isModified duration d then
    (* Calculate end time *)
    let startTime := JS.Date_2000_01_01T (startTime (this d)) in
    let endTime :=
      match startTime with
      | Some ms => Some (ms + duration (this d) * 60000)
      | None => None
      end in
    set_this (set_endTime (JS.toTimeString_slice_0_5 endTime) (this d)) d
  else d.

(** [!this.totalAmount]: a zero amount is falsy. ([this.consultant] is a
    required ObjectId, hence truthy.) *)
Definition pre_save_totalAmount (consultants : gmap nat Consultant.t) (d : Doc) : Doc :=
  if Qeq_bool (totalAmount (this d)) 0 then
    match consultants !! consultant (this d) with
    | Some c =>
        set_this (set_totalAmount
                    ((Consultant.hourlyRate c * inject_Z (duration (this d))) / 60)%Q
                    (this d)) d
    | None => d
    end
  else d.

(** *** Pre-save hook: booking counts of the consultant *)

Definition original_not_completed (d : Doc) : bool :=
  match _original d with
  | Some o => bool_decide (status o ≠ completed)
  | None => false
  end.

Definition pre_save_counts (d : Doc) (consultants : gmap nat Consultant.t)
  : gmap nat Consultant.t :=
  let consultants1 :=
    if isModified status d then
      if bool_decide (status (this d) = completed) && original_not_completed d
      then alter Consultant.inc_completedBookings (consultant (this d)) consultants
      else consultants
    else consultants in
  if isNew d
  then alter Consultant.inc_totalBookings (consultant (this d)) consultants1
  else consultants1.

(** *** [checkConflict] *)

(** [$lt] and [$gt] on two strings: the order of their bytes. *)
Definition str_lt (a b : string) : bool :=
  match String.compare a b with
  | Lt => true
  | _ => false
  end.

Definition conflicts (consultantId : nat) (date_ : Z) (startTime_ endTime_ : string)
    (excludeBookingId : option nat) (id : nat) (b : t) : bool :=
  bool_decide (consultant b = consultantId)
  && bool_decide (date b = date_)
  && negb (bool_decide (status b = cancelled) || bool_decide (status b = no_show))
  && (str_lt (startTime b) endTime_ && str_lt startTime_ (endTime b))
  && match excludeBookingId with
     | Some x => negb (bool_decide (id = x))
     | None => true
     end.

Definition checkConflict (bookings : gmap nat t) (consultantId : nat) (date_ : Z)
    (startTime_ endTime_ : string) (excludeBookingId : option nat)
  : option (nat * t) :=
  findOne (conflicts consultantId date_ startTime_ endTime_ excludeBookingId) bookings.

End Booking.

(** ** The store and [save] *)

Record Store := {
  bookings : gmap nat Booking.t;
  consultants : gmap nat Consultant.t;
  categories : gmap nat Category.t
}.

Definition set_bookings (v : gmap nat Booking.t) (st : Store) : Store :=
  {| bookings := v; consultants := consultants st; categories := categories st |}.

Definition set_consultants (v : gmap nat Consultant.t) (st : Store) : Store :=
  {| bookings := bookings st; consultants := v; categories := categories st |}.

Definition set_categories (v : gmap nat Category.t) (st : Store) : Store :=
  {| bookings := bookings st; consultants := consultants st; categories := v |}.

(** [booking.save()]: [None] when validation throws. *)
Definition Booking_save (now : Z) (id : nat) (d : Booking.Doc) (st : Store) : option Store :=
  if Booking.validate now d then
    let d1 := Booking.pre_save_endTime d in
    let d2 := Booking.pre_save_totalAmount (consultants st) d1 in
    let st1 := set_consultants (Booking.pre_save_counts d2 (consultants st)) st in
    Some (set_bookings (<[id := Booking.this d2]> (bookings st1)) st1)
  else None.

(** [consultant.save()] *)
Definition Consultant_save (id : nat) (d : Consultant.Doc) (st : Store) : option Store :=
  if Consultant.validate d then
    let st1 := set_categories (Consultant.pre_save d (categories st)) st in
    Some (set_consultants (<[id := Consultant.this d]> (consultants st1)) st1)
  else None.

(** [category.save()]. The routes validate what they assign at least as
    strictly as the schema does. The unique index on [name] belongs to the
    store and is not part of [save] here. *)
Definition Category_save (id : nat) (c : Category.t) (st : Store) : Store :=
  set_categories (<[id := Category.pre_save c]> (categories st)) st.

(** ** Booking routes *)

Module BookingRoutes.

(** *** POST /api/bookings *)

Module CreateBody.
Record t := {
  consultant : nat;
  category : nat;
  date : Z;
  startTime : string;
  endTime : string;
  duration : Z;
  totalAmount : Q;
  meetingType : option MeetingType;
  notes_client : option string
}.
End CreateBody.

Definition create_valid (body : CreateBody.t) : bool :=
  JS.matches_time (CreateBody.startTime body)
  && JS.matches_time (CreateBody.endTime body)
  && Booking.valid_duration (CreateBody.duration body)
  && Qle_bool 0 (CreateBody.totalAmount body)
  && when_defined (maxlength 500) (CreateBody.notes_client body).

Definition new_Booking (user : User) (body : CreateBody.t) : Booking.Doc :=
  Booking.new
    {| Booking.client := _id user;
       Booking.consultant := CreateBody.consultant body;
       Booking.category := CreateBody.category body;
       Booking.date := CreateBody.date body;
       Booking.duration := CreateBody.duration body;
       Booking.startTime := CreateBody.startTime body;
       Booking.endTime := CreateBody.endTime body;
       Booking.status := pending;
       Booking.totalAmount := CreateBody.totalAmount body;
       Booking.notes :=
         {| Booking.notes_client := CreateBody.notes_client body;
            Booking.notes_consultant := None |};
       Booking.meetingType := default video (CreateBody.meetingType body);
       Booking.cancellationReason := None;
       Booking.cancelledBy := None;
       Booking.cancelledAt := None;
       Booking.completedAt := None;
       Booking.rating :=
         {| Booking.score := None; Booking.review := None;
            Booking.createdAt := None |} |}.

Definition create (now : Z) (user : User) (body : CreateBody.t) (st : Store)
  : Outcome * Store :=
  if negb (bool_decide (role user = role_client)) then (access_denied "client", st)
  else if negb (create_valid body) then (validation_error, st)
  else
    match Booking_save now (new_ObjectId (bookings st)) (new_Booking user body) st with
    | Some st' => (json 201 true "Booking created successfully", st')
    | None => (Thrown MongooseValidationError, st)
    end.

(** *** PUT /api/bookings/:id/status *)

Module StatusBody.
Record t := { status : Status; notes_consultant : option string }.
End StatusBody.

Definition status_valid (body : StatusBody.t) : bool :=
  bool_decide (StatusBody.status body ∈ [confirmed; completed; cancelled; no_show])
  && when_defined (maxlength 500) (StatusBody.notes_consultant body).

(** The assignments of the handler between the access check and [save]. *)
Definition apply_status (now : Z) (who : CancelledBy) (status : Status)
    (note : option string) (b : Booking.t) : Booking.t :=
  let b1 := Booking.set_status status b in
  let b2 := if JS.truthy_str note
            then Booking.set_notes_consultant (default EmptyString note) b1 else b1 in
  let b3 := if bool_decide (status = completed)
            then Booking.set_completedAt now b2 else b2 in
  if bool_decide (status = cancelled) then Booking.set_cancelled now who b3 else b3.

(** [!consultant || booking.consultant.toString() !== consultant._id.toString()] *)
Definition not_the_consultant (consultant : option (nat * Consultant.t))
    (b : Booking.t) : bool :=
  match consultant with
  | Some (cid, _) => negb (bool_decide (Booking.consultant b = cid))
  | None => true
  end.

Definition update_status (now : Z) (user : User) (id : nat) (body : StatusBody.t)
    (st : Store) : Outcome * Store :=
  if negb (bool_decide (role user = role_consultant))
  then (access_denied "consultant", st)
  else if negb (status_valid body) then (validation_error, st)
  else
    match bookings st !! id with
    | None => (json 404 false "Booking not found", st)
    | Some b =>
        let consultant :=
          findOne (fun _ c => bool_decide (Consultant.user c = _id user))
                  (consultants st) in
        if not_the_consultant consultant b then (json 403 false "Access denied", st)
        else
          let booking :=
            Booking.set_this
              (apply_status now by_consultant (StatusBody.status body)
                            (StatusBody.notes_consultant body) b)
              (Booking.of_store b) in
          match Booking_save now id booking st with
          | Some st' => (json 200 true "Booking status updated successfully", st')
          | None => (Thrown MongooseValidationError, st)
          end
    end.

(** *** PUT /api/admin/bookings/:id/status

    The admin route accepts all five statuses and makes no ownership
    check. It writes [notes.admin], a path the schema does not have, which
    a strict schema drops: no note is stored. *)

Module AdminStatusBody.
Record t := { status : Status; notes_admin : option string }.
End AdminStatusBody.

Definition admin_update_status (now : Z) (user : User) (id : nat)
    (body : AdminStatusBody.t) (st : Store) : Outcome * Store :=
  if negb (bool_decide (role user = role_admin)) then (access_denied "admin", st)
  else if negb (when_defined (maxlength 500) (AdminStatusBody.notes_admin body))
  then (validation_error, st)
  else
    match bookings st !! id with
    | None => (json 404 false "Booking not found", st)
    | Some b =>
        let booking :=
          Booking.set_this
            (apply_status now by_admin (AdminStatusBody.status body) None b)
            (Booking.of_store b) in
        match Booking_save now id booking st with
        | Some st' => (json 200 true "Booking status updated successfully", st')
        | None => (Thrown MongooseValidationError, st)
        end
    end.

(** *** POST /api/bookings/:id/cancel

    The route declares a validator for [reason] and never reads its
    result: a long reason reaches [save] and is refused by the schema. *)

Module CancelBody.
Record t := { reason : option string }.
End CancelBody.

Definition can_be_cancelled (s : Status) : bool :=
  bool_decide (s = pending) || bool_decide (s = confirmed).

Definition apply_cancel (now : Z) (reason : option string) (b : Booking.t) : Booking.t :=
  let b1 := Booking.set_cancelled now by_client (Booking.set_status cancelled b) in
  if JS.truthy_str reason
  then Booking.set_cancellationReason (default EmptyString reason) b1 else b1.

Definition cancel (now : Z) (user : User) (id : nat) (body : CancelBody.t)
    (st : Store) : Outcome * Store :=
  if negb (bool_decide (role user = role_client)) then (access_denied "client", st)
  else
    match bookings st !! id with
    | None => (json 404 false "Booking not found", st)
    | Some b =>
        if negb (bool_decide (Booking.client b = _id user))
        then (json 403 false "Access denied", st)
        else if negb (can_be_cancelled (Booking.status b))
        then (json 400 false "Booking cannot be cancelled in its current status", st)
        else
          let booking :=
            Booking.set_this (apply_cancel now (CancelBody.reason body) b)
                             (Booking.of_store b) in
          match Booking_save now id booking st with
          | Some st' => (json 200 true "Booking cancelled successfully", st')
          | None => (Thrown MongooseValidationError, st)
          end
    end.

(** *** POST /api/bookings/:id/rate *)

Module RateBody.
Record t := { score : Z; review : option string }.
End RateBody.

Definition rate_valid (body : RateBody.t) : bool :=
  Booking.valid_score (RateBody.score body)
  && when_defined (maxlength 1000) (RateBody.review body).

(** [Booking.find({ consultant: id, 'rating.score': { $exists: true } })] *)
Definition rated_by (consultantId : nat) (b : Booking.t) : bool :=
  bool_decide (Booking.consultant b = consultantId)
  && bool_decide (is_Some (Booking.score (Booking.rating b))).

(** [allRatings.reduce((sum, b) => sum + b.rating.score, 0)] *)
Definition totalRating (allRatings : list Booking.t) : JS.Number :=
  fold_left (fun sum b => JS.add sum (Booking.score (Booking.rating b)))
            allRatings (JS.Num 0).

(** The aggregate that the handler stores on the consultant. *)
Definition recompute (consultantId : nat) (bks : gmap nat Booking.t)
  : Consultant.Rating :=
  let allRatings := find (rated_by consultantId) bks in
  {| Consultant.average :=
       JS.div (totalRating allRatings) (Z.of_nat (length allRatings));
     Consultant.count := Z.of_nat (length allRatings) |}.

Definition rate (now : Z) (user : User) (id : nat) (body : RateBody.t)
    (st : Store) : Outcome * Store :=
  if negb (bool_decide (role user = role_client)) then (access_denied "client", st)
  else if negb (rate_valid body) then (validation_error, st)
  else
    match bookings st !! id with
    | None => (json 404 false "Booking not found", st)
    | Some b =>
        if negb (bool_decide (Booking.client b = _id user))
        then (json 403 false "Access denied", st)
        else if negb (bool_decide (Booking.status b = completed))
        then (json 400 false "Can only rate completed bookings", st)
        else if JS.truthy_num (Booking.score (Booking.rating b))
        then (json 400 false "Booking has already been rated", st)
        else
          let booking :=
            Booking.set_this
              (Booking.set_rating
                 {| Booking.score := Some (RateBody.score body);
                    Booking.review := RateBody.review body;
                    Booking.createdAt := Some now |} b)
              (Booking.of_store b) in
          match Booking_save now id booking st with
          | None => (Thrown MongooseValidationError, st)
          | Some st1 =>
              (* Update consultant's average rating *)
              match consultants st1 !! Booking.consultant b with
              | None => (json 200 true "Booking rated successfully", st1)
              | Some c =>
                  let consultant :=
                    Consultant.set_this
                      (Consultant.set_rating
                         (recompute (Booking.consultant b) (bookings st1)) c)
                      (Consultant.of_store c) in
                  match Consultant_save (Booking.consultant b) consultant st1 with
                  | Some st2 => (json 200 true "Booking rated successfully", st2)
                  | None => (Thrown MongooseValidationError, st1)
                  end
              end
          end
    end.

End BookingRoutes.

(** ** Consultant routes *)

Module ConsultantRoutes.

(** *** POST /api/consultants *)

Module CreateBody.
Record t := {
  categories : list nat;
  bio : string;
  experience : Z;
  hourlyRate : Q;
  languages : option (list string)
}.
End CreateBody.

Definition valid_bio (s : string) : bool :=
  (50 <=? String.length (JS.trim s))%nat && maxlength 1000 (JS.trim s).

Definition valid_experience (v : Z) : bool := (0 <=? v) && (v <=? 50).

Definition valid_hourlyRate (v : Q) : bool := Qle_bool 10 v && Qle_bool v 1000.

Definition create_valid (body : CreateBody.t) : bool :=
  (1 <=? length (CreateBody.categories body))%nat
  && valid_bio (CreateBody.bio body)
  && valid_experience (CreateBody.experience body)
  && valid_hourlyRate (CreateBody.hourlyRate body).

Definition new_Consultant (user : User) (body : CreateBody.t) : Consultant.Doc :=
  Consultant.new
    {| Consultant.user := _id user;
       Consultant.categories := CreateBody.categories body;
       Consultant.bio := JS.trim (CreateBody.bio body);
       Consultant.experience := CreateBody.experience body;
       Consultant.hourlyRate := CreateBody.hourlyRate body;
       Consultant.rating :=
         {| Consultant.average := JS.Num 0; Consultant.count := 0 |};
       Consultant.isVerified := false;
       Consultant.isActive := true;
       Consultant.totalBookings := 0;
       Consultant.completedBookings := 0 |}.

(** The [languages] that the handler gives to [new Consultant]: those of
    the body, [[]] without any. The route checks that they are an array;
    [save] validates each element against the enum of the schema. *)
Definition new_languages (body : CreateBody.t) : list string :=
  default [] (CreateBody.languages body).

Definition create (user : User) (body : CreateBody.t) (st : Store) : Outcome * Store :=
  if negb (bool_decide (role user = role_consultant))
  then (access_denied "consultant", st)
  else if negb (create_valid body) then (validation_error, st)
  else
    match findOne (fun _ c => bool_decide (Consultant.user c = _id user))
                  (consultants st) with
    | Some _ => (json 400 false "Consultant profile already exists", st)
    | None =>
        (* [save]: the validation of the languages, then of the other paths *)
        if negb (Consultant.valid_languages (new_languages body))
        then (Thrown MongooseValidationError, st)
        else
          match Consultant_save (new_ObjectId (consultants st))
                                (new_Consultant user body) st with
          | Some st' => (json 201 true "Consultant profile created successfully", st')
          | None => (Thrown MongooseValidationError, st)
          end
    end.

(** *** PUT /api/consultants/:id

    The handler copies every key of the body onto the document; the keys
    below are the ones the route validates. Of [languages] the route
    checks that they are an array; [save] validates each element against
    the enum of the schema. *)

Module UpdateBody.
Record t := {
  categories : option (list nat);
  bio : option string;
  experience : option Z;
  hourlyRate : option Q;
  languages : option (list string);
  isActive : option bool
}.
End UpdateBody.

Definition update_valid (body : UpdateBody.t) : bool :=
  when_defined (fun l => (1 <=? length l)%nat) (UpdateBody.categories body)
  && when_defined valid_bio (UpdateBody.bio body)
  && when_defined valid_experience (UpdateBody.experience body)
  && when_defined valid_hourlyRate (UpdateBody.hourlyRate body).

(** [Object.keys(req.body).forEach(key => consultant[key] = req.body[key])] *)
Definition patch (body : UpdateBody.t) (c : Consultant.t) : Consultant.t :=
  {| Consultant.user := Consultant.user c;
     Consultant.categories :=
       default (Consultant.categories c) (UpdateBody.categories body);
     Consultant.bio := default (Consultant.bio c) (JS.trim <$> UpdateBody.bio body);
     Consultant.experience :=
       default (Consultant.experience c) (UpdateBody.experience body);
     Consultant.hourlyRate :=
       default (Consultant.hourlyRate c) (UpdateBody.hourlyRate body);
     Consultant.rating := Consultant.rating c;
     Consultant.isVerified := Consultant.isVerified c;
     Consultant.isActive := default (Consultant.isActive c) (UpdateBody.isActive body);
     Consultant.totalBookings := Consultant.totalBookings c;
     Consultant.completedBookings := Consultant.completedBookings c |}.

Definition update (user : User) (id : nat) (body : UpdateBody.t) (st : Store)
  : Outcome * Store :=
  if negb (update_valid body) then (validation_error, st)
  else
    match consultants st !! id with
    | None => (json 404 false "Consultant not found", st)
    | Some c =>
        if negb (bool_decide (role user = role_admin))
           && negb (bool_decide (Consultant.user c = _id user))
        then (json 403 false "Access denied", st)
        else if negb (when_defined Consultant.valid_languages (UpdateBody.languages body))
        then (Thrown MongooseValidationError, st)
        else
          let consultant := Consultant.set_this (patch body c) (Consultant.of_store c) in
          match Consultant_save id consultant st with
          | Some st' => (json 200 true "Consultant profile updated successfully", st')
          | None => (Thrown MongooseValidationError, st)
          end
    end.

(** The number of consultant profiles whose [categories] hold a category. *)
Definition referencing (cat : nat) (cs : gmap nat Consultant.t) : Z :=
  Z.of_nat (length (find (fun c => bool_decide (cat ∈ Consultant.categories c)) cs)).

End ConsultantRoutes.

(** ** Category routes *)

Module CategoryRoutes.

Module CreateBody.
Record t := {
  name : string;
  description : string;
  icon : string;
  color : option string;
  sortOrder : option Z
}.
End CreateBody.

Module UpdateBody.
Record t := {
  name : option string;
  description : option string;
  icon : option string;
  color : option string;
  sortOrder : option Z;
  isActive : option bool
}.
End UpdateBody.

Definition is_hex (c : ascii) : bool :=
  JS.is_digit c
  || ((65 <=? JS.code c) && (JS.code c <=? 70))
  || ((97 <=? JS.code c) && (JS.code c <=? 102)).

(** [/^#([A-Fa-f0-9]{6}|[A-Fa-f0-9]{3})$/] *)
Definition matches_color (s : string) : bool :=
  match s with
  | String "#" s' =>
      (bool_decide (String.length s' = 6%nat) || bool_decide (String.length s' = 3%nat))
      && forallb is_hex (list_ascii_of_string s')
  | _ => false
  end.

Definition valid_name (s : string) : bool :=
  (2 <=? String.length s)%nat && maxlength 100 s.

Definition valid_description (s : string) : bool :=
  (10 <=? String.length s)%nat && maxlength 500 s.

Definition notEmpty (s : string) : bool := negb (String.eqb s EmptyString).

(** The validators of POST, on the trimmed fields. *)
Definition create_valid (body : CreateBody.t) : bool :=
  valid_name (JS.trim (CreateBody.name body))
  && valid_description (JS.trim (CreateBody.description body))
  && notEmpty (JS.trim (CreateBody.icon body))
  && when_defined matches_color (CreateBody.color body)
  && when_defined (fun n => 0 <=? n) (CreateBody.sortOrder body).

Definition update_valid (body : UpdateBody.t) : bool :=
  when_defined (fun s => valid_name (JS.trim s)) (UpdateBody.name body)
  && when_defined (fun s => valid_description (JS.trim s)) (UpdateBody.description body)
  && when_defined (fun s => notEmpty (JS.trim s)) (UpdateBody.icon body)
  && when_defined matches_color (UpdateBody.color body)
  && when_defined (fun n => 0 <=? n) (UpdateBody.sortOrder body).

Definition new_Category (body : CreateBody.t) : Category.t :=
  {| Category.name := JS.trim (CreateBody.name body);
     Category.description := JS.trim (CreateBody.description body);
     Category.icon := JS.trim (CreateBody.icon body);
     Category.color := default "#4B8843"%string (CreateBody.color body);
     Category.isActive := true;
     Category.sortOrder := default 0 (CreateBody.sortOrder body);
     Category.consultantCount := 0;
     Category.bookingCount := 0 |}.

(** [Object.keys(req.body).forEach(key => category[key] = req.body[key])] *)
Definition patch (body : UpdateBody.t) (c : Category.t) : Category.t :=
  {| Category.name := default (Category.name c) (JS.trim <$> UpdateBody.name body);
     Category.description :=
       default (Category.description c) (JS.trim <$> UpdateBody.description body);
     Category.icon := default (Category.icon c) (JS.trim <$> UpdateBody.icon body);
     Category.color := default (Category.color c) (UpdateBody.color body);
     Category.isActive := default (Category.isActive c) (UpdateBody.isActive body);
     Category.sortOrder := default (Category.sortOrder c) (UpdateBody.sortOrder body);
     Category.consultantCount := Category.consultantCount c;
     Category.bookingCount := Category.bookingCount c |}.

Section WithRegExp.

(** [new RegExp(source, 'i')] as the store evaluates it in [$regex]:
    [None] when the source is not a regular expression (the constructor
    throws), else the test of a string against it. *)
Variable RegExp_i : string -> option (string -> bool).

(** [Category.findOne({ name: { $regex: new RegExp(`^${name}$`, 'i') }, _id: { $ne: id } })] *)
Definition findOne_by_name (name : string) (except : option nat)
    (cats : gmap nat Category.t) : option (option (nat * Category.t)) :=
  match RegExp_i ("^" ++ name ++ "$") with
  | None => None
  | Some test =>
      Some (findOne (fun k c =>
              test (Category.name c)
              && match except with
                 | Some id => negb (bool_decide (k = id))
                 | None => true
                 end) cats)
  end.

(** POST /api/categories *)
Definition create (user : User) (body : CreateBody.t) (st : Store) : Outcome * Store :=
  if negb (bool_decide (role user = role_admin)) then (access_denied "admin", st)
  else if negb (create_valid body) then (validation_error, st)
  else
    (* Check if category already exists *)
    match findOne_by_name (JS.trim (CreateBody.name body)) None (categories st) with
    | None => (Thrown RegExpSyntaxError, st)
    | Some (Some _) => (json 400 false "Category with this name already exists", st)
    | Some None =>
        (json 201 true "Category created successfully",
         Category_save (new_ObjectId (categories st)) (new_Category body) st)
    end.

(** [req.body.name && req.body.name !== category.name] *)
Definition name_changes (body : UpdateBody.t) (c : Category.t) : option string :=
  match UpdateBody.name body with
  | Some n =>
      if negb (String.eqb (JS.trim n) EmptyString) && negb (String.eqb (JS.trim n) (Category.name c))
      then Some (JS.trim n) else None
  | None => None
  end.

(** PUT /api/categories/:id *)
Definition update (user : User) (id : nat) (body : UpdateBody.t) (st : Store)
  : Outcome * Store :=
  if negb (bool_decide (role user = role_admin)) then (access_denied "admin", st)
  else if negb (update_valid body) then (validation_error, st)
  else
    match categories st !! id with
    | None => (json 404 false "Category not found", st)
    | Some c =>
        let saved :=
          (json 200 true "Category updated successfully",
           Category_save id (patch body c) st) in
        match name_changes body c with
        | None => saved
        | Some n =>
            match findOne_by_name n (Some id) (categories st) with
            | None => (Thrown RegExpSyntaxError, st)
            | Some (Some _) =>
                (json 400 false "Category with this name already exists", st)
            | Some None => saved
            end
        end
    end.

End WithRegExp.

End CategoryRoutes.

(** ** Executions

    The requests that write bookings or consultant profiles, and the stores
    that sequences of them reach from a store without bookings. Category
    documents are written by the category routes and by nothing a booking
    depends on: a step may replace them at will. *)

Inductive Request :=
| POST_bookings (user : User) (body : BookingRoutes.CreateBody.t)
| PUT_bookings_status (user : User) (id : nat) (body : BookingRoutes.StatusBody.t)
| PUT_admin_bookings_status (user : User) (id : nat)
    (body : BookingRoutes.AdminStatusBody.t)
| POST_bookings_cancel (user : User) (id : nat) (body : BookingRoutes.CancelBody.t)
| POST_bookings_rate (user : User) (id : nat) (body : BookingRoutes.RateBody.t)
| POST_consultants (user : User) (body : ConsultantRoutes.CreateBody.t)
| PUT_consultants (user : User) (id : nat) (body : ConsultantRoutes.UpdateBody.t).

Definition handle (now : Z) (req : Request) (st : Store) : Outcome * Store :=
  match req with
  | POST_bookings user body => BookingRoutes.create now user body st
  | PUT_bookings_status user id body => BookingRoutes.update_status now user id body st
  | PUT_admin_bookings_status user id body =>
      BookingRoutes.admin_update_status now user id body st
  | POST_bookings_cancel user id body => BookingRoutes.cancel now user id body st
  | POST_bookings_rate user id body => BookingRoutes.rate now user id body st
  | POST_consultants user body => ConsultantRoutes.create user body st
  | PUT_consultants user id body => ConsultantRoutes.update user id body st
  end.

Inductive reachable : Store -> Prop :=
| reachable_init st : bookings st = ∅ -> reachable st
| reachable_step now req st : reachable st -> reachable (handle now req st).2
| reachable_categories cats st : reachable st -> reachable (set_categories cats st).

(** ** Notions of the specification *)

(** The states that the specification calls terminal. *)
Definition terminal (s : Status) : Prop :=
  s = completed \/ s = cancelled \/ s = no_show.

Definition ok (o : Outcome) : Prop :=
  match o with
  | Responded r => success r = true
  | Thrown _ => False
  end.

Definition status_code (o : Outcome) : option Z :=
  match o with
  | Responded r => Some (code r)
  | Thrown _ => None
  end.

(** The caller is the client that owns the booking. *)
Definition owning_client (user : User) (b : Booking.t) : Prop :=
  role user = role_client /\ Booking.client b = _id user.

(** The scores of the rated bookings of a consultant. *)
Definition rated_scores (consultantId : nat) (bks : gmap nat Booking.t) : list Z :=
  omap (fun kv : nat * Booking.t =>
          if bool_decide (Booking.consultant kv.2 = consultantId)
          then Booking.score (Booking.rating kv.2) else None)
       (map_to_list bks).

Definition sum_scores (l : list Z) : Z := foldr Z.add 0 l.

(** The arithmetic mean of a list of scores. *)
Definition mean (l : list Z) : Q :=
  (inject_Z (sum_scores l) / inject_Z (Z.of_nat (length l)))%Q.

(** Every stored score is within the bounds of the schema. *)
Definition scores_in_range (bks : gmap nat Booking.t) : Prop :=
  forall id b s, bks !! id = Some b ->
    Booking.score (Booking.rating b) = Some s -> 1 <= s <= 5.

(** Title Case, as the specification names the normal form of a category
    name: every word starts with an upper-case letter and goes on in lower
    case. *)
Fixpoint title_case_from (word_start : bool) (s : string) : string :=
  match s with
  | EmptyString => EmptyString
  | String c s' =>
      String (if word_start then JS.upper_char c else JS.lower_char c)
             (title_case_from (JS.is_space c) s')
  end.

Definition title_case (s : string) : string := title_case_from true s.

(** The characters with a meaning of their own in a regular expression. *)
Definition regexp_special (c : ascii) : bool :=
  bool_decide (c ∈ list_ascii_of_string "\^$.*+?()[]{}|/").

Definition regexp_literal (s : string) : bool :=
  forallb (fun c => negb (regexp_special c)) (list_ascii_of_string s).

(** The time of day that a string of the pattern of the schema names, in
    minutes after midnight: the hour is written with one digit or with
    two. *)
Definition clock_minutes (t : string) : option Z :=
  match t with
  | String h (String _ (String m1 (String m2 EmptyString))) =>
      if JS.matches_time t
      then Some (JS.digit_val h * 60 + (10 * JS.digit_val m1 + JS.digit_val m2))
      else None
  | String h1 (String h2 (String _ (String m1 (String m2 EmptyString)))) =>
      if JS.matches_time t
      then Some ((10 * JS.digit_val h1 + JS.digit_val h2) * 60
                 + (10 * JS.digit_val m1 + JS.digit_val m2))
      else None
  | _ => None
  end.

(** What the end-time hook computes from a start time and a duration. *)
Definition wall_clock_end (startTime : string) (duration : Z) : string :=
  JS.toTimeString_slice_0_5
    (match JS.Date_2000_01_01T startTime with
     | Some ms => Some (ms + duration * 60000)
     | None => None
     end).

(** ** Auxiliary notions of the proofs *)

Import BookingRoutes.

(** The booking that [save] writes: the hooks change [endTime] and
    [totalAmount] and nothing else. *)
Definition written (cs : gmap nat Consultant.t) (d : Booking.Doc) : Booking.t :=
  Booking.this (Booking.pre_save_totalAmount cs (Booking.pre_save_endTime d)).

(** The documents that [rate] saves. *)
Definition rated_doc (now : Z) (body : RateBody.t) (b : Booking.t) : Booking.Doc :=
  Booking.set_this
    (Booking.set_rating
       {| Booking.score := Some (RateBody.score body);
          Booking.review := RateBody.review body;
          Booking.createdAt := Some now |} b)
    (Booking.of_store b).

Definition aggregate_doc (cid : nat) (bks : gmap nat Booking.t) (c : Consultant.t)
  : Consultant.Doc :=
  Consultant.set_this (Consultant.set_rating (recompute cid bks) c) (Consultant.of_store c).

(** What holds of every stored booking. *)
Definition booking_inv (b : Booking.t) : Prop :=
  Booking.endTime b = wall_clock_end (Booking.startTime b) (Booking.duration b) /\
  30 <= Booking.duration b <= 480 /\
  forall s, Booking.score (Booking.rating b) = Some s -> 1 <= s <= 5.

Definition store_inv (st : Store) : Prop :=
  forall id b, bookings st !! id = Some b -> booking_inv b.

(** A handler keeps the clock fields of a booking and either keeps its
    score or sets a valid one. *)
Definition keeps_slot (b b' : Booking.t) : Prop :=
  Booking.startTime b' = Booking.startTime b /\
  Booking.duration b' = Booking.duration b /\
  Booking.endTime b' = Booking.endTime b /\
  (Booking.score (Booking.rating b') = Booking.score (Booking.rating b)
   \/ exists s, Booking.score (Booking.rating b') = Some s /\ 1 <= s <= 5).

(** ** Sample data for the examples *)

Module Sample.

Definition alice : User := {| _id := 20; role := role_client |}.
Definition bob : User := {| _id := 21; role := role_client |}.
Definition carl : User := {| _id := 10; role := role_consultant |}.
Definition root : User := {| _id := 1; role := role_admin |}.

Definition category (n : string) (consultants : Z) : Category.t :=
  {| Category.name := n;
     Category.description := "Consulting services";
     Category.icon := "fa-briefcase";
     Category.color := "#2563EB";
     Category.isActive := true;
     Category.sortOrder := 0;
     Category.consultantCount := consultants;
     Category.bookingCount := 0 |}.

Definition naming (n : string) : CategoryRoutes.CreateBody.t :=
  {| CategoryRoutes.CreateBody.name := n;
     CategoryRoutes.CreateBody.description := "Coaching for personal development";
     CategoryRoutes.CreateBody.icon := "fa-seedling";
     CategoryRoutes.CreateBody.color := None;
     CategoryRoutes.CreateBody.sortOrder := None |}.

(** A regular-expression engine for the examples: it knows the sources
    [^literal$] and compares without regard to case. *)
Definition RegExp_i_anchored (source : string) : option (string -> bool) :=
  Some (fun s => String.eqb (JS.toLowerCase ("^" ++ s ++ "$")) (JS.toLowerCase source)).

(** Two categories, no consultant profile, no booking. *)
Definition st_categories : Store :=
  {| bookings := ∅;
     consultants := ∅;
     categories := {[ 1%nat := category "Businesses" 0; 2%nat := category "Healthcare" 0 ]} |}.

Definition bio : string :=
  "Fifteen years of strategy and operations consulting in Dubai.".

Definition profile (cats : list nat) : ConsultantRoutes.CreateBody.t :=
  {| ConsultantRoutes.CreateBody.categories := cats;
     ConsultantRoutes.CreateBody.bio := bio;
     ConsultantRoutes.CreateBody.experience := 15;
     ConsultantRoutes.CreateBody.hourlyRate := 120;
     ConsultantRoutes.CreateBody.languages := Some ["English"; "Arabic"]%string |}.

Definition only_categories (cats : list nat) : ConsultantRoutes.UpdateBody.t :=
  {| ConsultantRoutes.UpdateBody.categories := Some cats;
     ConsultantRoutes.UpdateBody.bio := None;
     ConsultantRoutes.UpdateBody.experience := None;
     ConsultantRoutes.UpdateBody.hourlyRate := None;
     ConsultantRoutes.UpdateBody.languages := None;
     ConsultantRoutes.UpdateBody.isActive := None |}.

(** Carl publishes a profile in category 1: it gets the id 0. *)
Definition st_profile : Store := (ConsultantRoutes.create carl (profile [1%nat]) st_categories).2.

Definition slot (startTime : string) (duration : Z) : BookingRoutes.CreateBody.t :=
  {| BookingRoutes.CreateBody.consultant := 0;
     BookingRoutes.CreateBody.category := 1;
     BookingRoutes.CreateBody.date := 86400000;
     BookingRoutes.CreateBody.startTime := startTime;
     BookingRoutes.CreateBody.endTime := "00:00";
     BookingRoutes.CreateBody.duration := duration;
     BookingRoutes.CreateBody.totalAmount := 120;
     BookingRoutes.CreateBody.meetingType := None;
     BookingRoutes.CreateBody.notes_client := None |}.

Definition to (s : Status) : BookingRoutes.StatusBody.t :=
  {| BookingRoutes.StatusBody.status := s;
     BookingRoutes.StatusBody.notes_consultant := None |}.

Definition stars (n : Z) : BookingRoutes.RateBody.t :=
  {| BookingRoutes.RateBody.score := n; BookingRoutes.RateBody.review := None |}.

Definition because (r : option string) : BookingRoutes.CancelBody.t :=
  {| BookingRoutes.CancelBody.reason := r |}.

(** Alice books Carl at 09:00 for an hour (booking 0), Carl confirms, then
    completes; Alice rates. *)
Definition st_pending : Store := (handle 1000 (POST_bookings alice (slot "09:00" 60)) st_profile).2.
Definition st_confirmed : Store := (handle 2000 (PUT_bookings_status carl 0 (to confirmed)) st_pending).2.
Definition st_completed : Store := (handle 3000 (PUT_bookings_status carl 0 (to completed)) st_confirmed).2.
Definition st_rated : Store := (handle 4000 (POST_bookings_rate alice 0 (stars 4)) st_completed).2.

(** Booking 0 as these stores hold it. *)
Definition booking_in (st : Store) : Booking.t :=
  default (Booking.this (BookingRoutes.new_Booking alice (slot "09:00" 60)))
          (bookings st !! 0%nat).

Definition pending_booking : Booking.t := Eval vm_compute in booking_in st_pending.
Definition completed_booking : Booking.t := Eval vm_compute in booking_in st_completed.

(** Carl's profile once booking 0 is rated. *)
Definition rated_profile : Consultant.t :=
  Eval vm_compute in
    default (Consultant.this (ConsultantRoutes.new_Consultant carl (profile [1%nat])))
            (consultants st_rated !! 0%nat).

(** Three completed bookings of Carl (0 by Alice, 1 by Bob, 2 by Alice), the
    first two rated 5 and 3. *)
Definition run (reqs : list (Z * Request)) (st : Store) : Store :=
  foldl (fun st r => (handle r.1 r.2 st).2) st reqs.

Definition st_two_ratings : Store :=
  run [ (1000, POST_bookings alice (slot "09:00" 60));
        (1100, POST_bookings bob (slot "11:00" 60));
        (1200, POST_bookings alice (slot "14:00" 90));
        (2000, PUT_bookings_status carl 0 (to completed));
        (2100, PUT_bookings_status carl 1 (to completed));
        (2200, PUT_bookings_status carl 2 (to completed));
        (3000, POST_bookings_rate alice 0 (stars 5));
        (3100, POST_bookings_rate bob 1 (stars 3)) ]
      st_profile.

End Sample.

(** ** Further routes and virtual properties of the same files

    As for the routes above, a handler is modelled up to its answer: the
    calls of [populate] that shape the data of the response are left
    out. *)

(** Requests handled one after the other, each at its own time. *)
Definition after (reqs : list (Z * Request)) (st : Store) : Store :=
  foldl (fun st r => (handle r.1 r.2 st).2) st reqs.

(** *** DELETE /api/categories/:id *)

Definition DELETE_categories (user : User) (id : nat) (st : Store) : Outcome * Store :=
  if negb (bool_decide (role user = role_admin)) then (access_denied "admin", st)
  else
    match categories st !! id with
    | None => (json 404 false "Category not found", st)
    | Some category =>
        (* Check if category has consultants *)
        if 0 <? Category.consultantCount category
        then (json 400 false "Cannot delete category with active consultants", st)
        else (json 200 true "Category deleted successfully",
              set_categories (delete id (categories st)) st)
    end.

(** *** PUT /api/admin/consultants/:id/verify

    [isVerified] is the boolean of the body. *)

Definition set_isVerified (v : bool) (c : Consultant.t) : Consultant.t :=
  {| Consultant.user := Consultant.user c;
     Consultant.categories := Consultant.categories c;
     Consultant.bio := Consultant.bio c;
     Consultant.experience := Consultant.experience c;
     Consultant.hourlyRate := Consultant.hourlyRate c;
     Consultant.rating := Consultant.rating c;
     Consultant.isVerified := v;
     Consultant.isActive := Consultant.isActive c;
     Consultant.totalBookings := Consultant.totalBookings c;
     Consultant.completedBookings := Consultant.completedBookings c |}.

Definition PUT_admin_consultants_verify (user : User) (id : nat) (isVerified : bool)
    (st : Store) : Outcome * Store :=
  if negb (bool_decide (role user = role_admin)) then (access_denied "admin", st)
  else
    match consultants st !! id with
    | None => (json 404 false "Consultant not found", st)
    | Some c =>
        let consultant :=
          Consultant.set_this (set_isVerified isVerified c) (Consultant.of_store c) in
        match Consultant_save id consultant st with
        | Some st' =>
            (json 200 true
                  (if isVerified then "Consultant verified successfully"
                   else "Consultant unverified successfully"), st')
        | None => (Thrown MongooseValidationError, st)
        end
    end.

(** *** GET /api/bookings/me

    The documents of the answer, without the populated names. *)

(** [sort({ date: 1, startTime: 1 })]: by date, then by the bytes of the
    start time. *)
Definition by_date_startTime (x y : nat * Booking.t) : Prop :=
  Booking.date x.2 < Booking.date y.2
  \/ (Booking.date x.2 = Booking.date y.2
      /\ Booking.str_lt (Booking.startTime y.2) (Booking.startTime x.2) = false).

#[global] Instance by_date_startTime_dec x y : Decision (by_date_startTime x y).
Proof. unfold by_date_startTime. apply _. Defined.

Inductive Listing :=
| Listed (docs : list (nat * Booking.t))
| NotListed (r : Response).

Definition GET_bookings_me (user : User) (st : Store) : Listing :=
  let find_sorted (query : Booking.t -> bool) :=
    merge_sort by_date_startTime
      (filter (fun kv : nat * Booking.t => query kv.2 = true) (map_to_list (bookings st))) in
  match role user with
  | role_client =>
      Listed (find_sorted (fun b => bool_decide (Booking.client b = _id user)))
  | role_consultant =>
      match findOne (fun _ c => bool_decide (Consultant.user c = _id user))
                    (consultants st) with
      | Some (cid, _) =>
          Listed (find_sorted (fun b => bool_decide (Booking.consultant b = cid)))
      | None =>
          NotListed {| code := 404; success := false;
                       message := "Consultant profile not found" |}
      end
  | role_admin => Listed (find_sorted (fun _ => true))
  end.

(** *** Virtual properties of a consultant *)

(** [Math.round]: the nearest integer, a half rounded up. *)
Definition Math_round (q : Q) : Z := Qfloor (q + (1 # 2)).

Definition completionRate (c : Consultant.t) : Z :=
  if Consultant.totalBookings c =? 0 then 0
  else Math_round ((inject_Z (Consultant.completedBookings c)
                    / inject_Z (Consultant.totalBookings c)) * 100).

Module Availability.
Record Day := { isAvailable : bool; startTime : string; endTime : string }.
Record t := {
  monday : Day;
  tuesday : Day;
  wednesday : Day;
  thursday : Day;
  friday : Day;
  saturday : Day;
  sunday : Day
}.
End Availability.

(** [this.availability[days[now.getDay()]]] *)
Definition dayAvailability (getDay : Z) (a : Availability.t) : option Availability.Day :=
  match getDay with
  | 0 => Some (Availability.sunday a)
  | 1 => Some (Availability.monday a)
  | 2 => Some (Availability.tuesday a)
  | 3 => Some (Availability.wednesday a)
  | 4 => Some (Availability.thursday a)
  | 5 => Some (Availability.friday a)
  | 6 => Some (Availability.saturday a)
  | _ => None
  end.

(** [a >= b] and [a <= b] on two strings. *)
Definition str_ge (a b : string) : bool := negb (Booking.str_lt a b).
Definition str_le (a b : string) : bool := negb (Booking.str_lt b a).

(** [getDay] and [now] are the day of the week and the local time, in
    milliseconds after a local midnight, of [new Date()]. *)
Definition isCurrentlyAvailable (availability : Availability.t) (getDay now : Z) : bool :=
  let currentTime := JS.toTimeString_slice_0_5 (Some now) in
  match dayAvailability getDay availability with
  | None => false
  | Some d =>
      if negb (Availability.isAvailable d) then false
      else str_ge currentTime (Availability.startTime d)
           && str_le currentTime (Availability.endTime d)
  end.

(** *** POST /api/auth/login

    The sign-in handler, up to its decision. The User model is not part of
    these sources: [Account] holds the paths the handler reads, and the
    answer of the store to [User.findOne({ email })] is a parameter, as are
    the validator and the sanitizer of the e-mail address and the
    comparison of a password with a hash. *)

Module Auth.

Record Account := { email : string; password : string; isActive : bool }.

(** [Refused]: the response that ends the request. [Authenticated]: the
    handler goes on to stamp [lastLogin] and to sign a token for the user. *)
Inductive Login :=
| Refused (r : Response)
| Authenticated (userId : nat).

Section Login.

Variable isEmail : string -> bool.
Variable normalizeEmail : string -> string.
Variable User_findOne : string -> option (nat * Account).
(** [bcryptjs.compare]; [None] when it rejects. *)
Variable compare : string -> string -> option bool.

Definition refuse (c : Z) (msg : string) : Login :=
  Refused {| code := c; success := false; message := msg |}.

Definition login (email_ password_ : string) : Login :=
  if negb (isEmail email_) || String.eqb password_ EmptyString
  then refuse 400 "Validation error"
  else
    let email_ := normalizeEmail email_ in
    match User_findOne email_ with
    | None => refuse 401 "Invalid credentials"
    | Some (id, user) =>
        if negb (isActive user) then refuse 401 "Account is deactivated"
        else
          let isPasswordValid := default false (compare password_ (password user)) in
          let isPasswordValid :=
            if negb isPasswordValid && String.eqb email_ "admin@zentro.com"
            then true else isPasswordValid in
          if negb isPasswordValid then refuse 401 "Invalid credentials"
          else Authenticated id
    end.

End Login.

End Auth.

(** ** Auxiliary notions of the further properties *)

(** The parties and the slot of a booking. *)
Definition same_parties_and_slot (b b' : Booking.t) : Prop :=
  Booking.client b' = Booking.client b /\
  Booking.consultant b' = Booking.consultant b /\
  Booking.category b' = Booking.category b /\
  Booking.date b' = Booking.date b /\
  Booking.startTime b' = Booking.startTime b /\
  Booking.duration b' = Booking.duration b /\
  Booking.endTime b' = Booking.endTime b.

(** The booking that a request names in its path. *)
Definition target (req : Request) : option nat :=
  match req with
  | PUT_bookings_status _ id _ => Some id
  | PUT_admin_bookings_status _ id _ => Some id
  | POST_bookings_cancel _ id _ => Some id
  | POST_bookings_rate _ id _ => Some id
  | _ => None
  end.

(** Text of ASCII characters: on such text the case mappings above are
    those of JavaScript. *)
Definition ascii_text (s : string) : bool :=
  forallb (fun c => JS.code c <? 128) (list_ascii_of_string s).

(** The stamps that go with a status and with a score. *)
Definition stamped (b : Booking.t) : Prop :=
  (Booking.status b = completed -> is_Some (Booking.completedAt b)) /\
  (Booking.status b = cancelled ->
   is_Some (Booking.cancelledAt b) /\ is_Some (Booking.cancelledBy b)) /\
  (is_Some (Booking.score (Booking.rating b))
   <-> is_Some (Booking.createdAt (Booking.rating b))).

(** ** Sample data of the further examples *)

Module Catalogue.

Definition rename (n : string) : CategoryRoutes.UpdateBody.t :=
  {| CategoryRoutes.UpdateBody.name := Some n;
     CategoryRoutes.UpdateBody.description := None;
     CategoryRoutes.UpdateBody.icon := None;
     CategoryRoutes.UpdateBody.color := None;
     CategoryRoutes.UpdateBody.sortOrder := None;
     CategoryRoutes.UpdateBody.isActive := None |}.

End Catalogue.

Module Week.

Definition office_hours : Availability.Day :=
  {| Availability.isAvailable := true;
     Availability.startTime := "09:00";
     Availability.endTime := "17:00" |}.

Definition day_off : Availability.Day :=
  {| Availability.isAvailable := false;
     Availability.startTime := "09:00";
     Availability.endTime := "17:00" |}.

Definition weekdays : Availability.t :=
  {| Availability.monday := office_hours;
     Availability.tuesday := office_hours;
     Availability.wednesday := office_hours;
     Availability.thursday := office_hours;
     Availability.friday := office_hours;
     Availability.saturday := day_off;
     Availability.sunday := day_off |}.

End Week.

Module Accounts.

Definition admin : Auth.Account :=
  {| Auth.email := "admin@zentro.com";
     Auth.password := "$2a$12$hash-of-the-admin-password";
     Auth.isActive := true |}.

(** A store with the one account, and a comparison that accepts no
    password. *)
Definition User_findOne (email : string) : option (nat * Auth.Account) :=
  if String.eqb email "admin@zentro.com" then Some (1%nat, admin) else None.

Definition reject_all (password hash : string) : option bool := Some false.

Definition any_address (email : string) : bool := true.

Definition as_written (email : string) : string := email.

End Accounts.

(** * Properties *)

(** ** Clock strings of the schema *)

Example matches_time_examples :
  JS.matches_time "09:00" = true /\ JS.matches_time "9:00" = true /\
  JS.matches_time "23:59" = true /\ JS.matches_time "24:00" = false /\
  JS.matches_time "12:60" = false /\ JS.matches_time "12-30" = false.
Proof. repeat split; reflexivity. Qed.

Example wall_clock_end_examples :
  wall_clock_end "09:00" 60 = "10:00"%string /\
  wall_clock_end "23:30" 60 = "00:30"%string /\
  wall_clock_end "9:00" 60 = "Inval"%string.
Proof. repeat split; reflexivity. Qed.

(** ** What [save] writes *)

Lemma Booking_save_Some now id d st st' :
  Booking_save now id d st = Some st' ->
  Booking.validate now d = true /\
  bookings st' = <[id := written (consultants st) d]> (bookings st) /\
  consultants st' =
    Booking.pre_save_counts
      (Booking.pre_save_totalAmount (consultants st) (Booking.pre_save_endTime d))
      (consultants st) /\
  categories st' = categories st.
Proof.
  unfold Booking_save. destruct (Booking.validate now d); [|discriminate].
  intros [= <-]. repeat split.
Qed.

Lemma Booking_save_valid now id d st :
  Booking.validate now d = true -> is_Some (Booking_save now id d st).
Proof. unfold Booking_save. intros ->. eauto. Qed.

Ltac unfold_hooks :=
  unfold written, Booking.pre_save_totalAmount, Booking.pre_save_endTime,
    Booking.set_this, Booking.set_totalAmount, Booking.set_endTime.

Ltac hook_cases :=
  unfold_hooks;
  repeat match goal with
         | |- context [if ?c then _ else _] => destruct c; simpl
         | |- context [match ?m !! ?k with _ => _ end] => destruct (m !! k); simpl
         end; try reflexivity.

Lemma written_status cs d : Booking.status (written cs d) = Booking.status (Booking.this d).
Proof. hook_cases. Qed.

Lemma written_rating cs d : Booking.rating (written cs d) = Booking.rating (Booking.this d).
Proof. hook_cases. Qed.

Lemma written_consultant cs d :
  Booking.consultant (written cs d) = Booking.consultant (Booking.this d).
Proof. hook_cases. Qed.

Lemma written_client cs d : Booking.client (written cs d) = Booking.client (Booking.this d).
Proof. hook_cases. Qed.

Lemma written_startTime cs d :
  Booking.startTime (written cs d) = Booking.startTime (Booking.this d).
Proof. hook_cases. Qed.

Lemma written_duration cs d :
  Booking.duration (written cs d) = Booking.duration (Booking.this d).
Proof. hook_cases. Qed.

Lemma written_cancellation cs d :
  Booking.cancellationReason (written cs d) = Booking.cancellationReason (Booking.this d) /\
  Booking.cancelledBy (written cs d) = Booking.cancelledBy (Booking.this d) /\
  Booking.cancelledAt (written cs d) = Booking.cancelledAt (Booking.this d).
Proof. hook_cases; auto. Qed.

Lemma written_endTime cs d :
  Booking.endTime (written cs d) =
    if Booking.isModified Booking.startTime d || Booking.isModified Booking.duration d
    then wall_clock_end (Booking.startTime (Booking.this d)) (Booking.duration (Booking.this d))
    else Booking.endTime (Booking.this d).
Proof. unfold wall_clock_end. hook_cases. Qed.

Lemma Consultant_save_Some id d st st' :
  Consultant_save id d st = Some st' ->
  Consultant.validate d = true /\
  bookings st' = bookings st /\
  consultants st' = <[id := Consultant.this d]> (consultants st) /\
  categories st' = Consultant.pre_save d (categories st).
Proof.
  unfold Consultant_save. destruct (Consultant.validate d); [|discriminate].
  intros [= <-]. repeat split.
Qed.

(** A handler that does not answer with success leaves the store as it was,
    but for [rate], whose second write may throw after the first. *)
Lemma cancel_store now user id body st :
  ok (cancel now user id body st).1 \/ (cancel now user id body st).2 = st.
Proof.
  unfold cancel. repeat case_match; simpl; auto.
Qed.

Lemma update_status_store now user id body st :
  ok (update_status now user id body st).1 \/ (update_status now user id body st).2 = st.
Proof.
  unfold update_status. repeat case_match; simpl; auto.
Qed.

Lemma apply_status_status now who s note b :
  Booking.status (apply_status now who s note b) = s.
Proof. unfold apply_status. repeat case_match; reflexivity. Qed.

Lemma update_status_ok now user id body st :
  ok (update_status now user id body st).1 ->
  exists b,
    bookings st !! id = Some b /\
    Booking_save now id
      (Booking.set_this
         (apply_status now by_consultant (StatusBody.status body)
                       (StatusBody.notes_consultant body) b)
         (Booking.of_store b)) st = Some (update_status now user id body st).2.
Proof.
  unfold update_status. repeat case_match; simpl; try tauto; try discriminate.
  intros _. eauto.
Qed.

Lemma cancel_terminal now user id body st b :
  bookings st !! id = Some b -> terminal (Booking.status b) ->
  (cancel now user id body st).2 = st /\ ~ ok (cancel now user id body st).1.
Proof.
  intros Hb Ht. unfold cancel. rewrite Hb.
  assert (can_be_cancelled (Booking.status b) = false) as ->.
  { unfold can_be_cancelled. destruct Ht as [-> | [-> | ->]]; reflexivity. }
  repeat case_match; simpl; split; auto; discriminate.
Qed.

Lemma rate_status now user id body st b :
  bookings st !! id = Some b ->
  Booking.status <$> bookings (rate now user id body st).2 !! id = Some (Booking.status b).
Proof.
  intros Hb. unfold rate. rewrite Hb.
  repeat case_match; simpl; try (rewrite Hb; reflexivity).
  all: repeat match goal with
       | H : Booking_save _ _ _ _ = Some _ |- _ =>
           apply Booking_save_Some in H; destruct H as (_ & H & _)
       | H : Consultant_save _ _ _ = Some _ |- _ =>
           apply Consultant_save_Some in H; destruct H as (_ & H & _)
       end.
  all: repeat match goal with H : bookings _ = _ |- _ => rewrite H; clear H end.
  all: rewrite lookup_insert_eq; simpl; rewrite written_status; reflexivity.
Qed.

(** C1, as amended. For a booking whose status is completed, cancelled or
    no-show, the operations of the client never change the status: [cancel]
    leaves the whole store as it was and [rate] keeps the status of the
    booking. The status update of the consultant makes no check of the
    current status: whenever it succeeds, from a terminal state as from any
    other, the stored status is the requested one. *)
Theorem terminal_status_by_operation now id st b :
  bookings st !! id = Some b -> terminal (Booking.status b) ->
  (forall user body, (cancel now user id body st).2 = st) /\
  (forall user body,
      Booking.status <$> bookings (rate now user id body st).2 !! id
      = Some (Booking.status b)) /\
  (forall user body,
      ok (update_status now user id body st).1 ->
      Booking.status <$> bookings (update_status now user id body st).2 !! id
      = Some (StatusBody.status body)).
Proof.
  intros Hb Ht. split; [|split]; intros user body.
  - apply (cancel_terminal now user id body st b Hb Ht).
  - apply rate_status, Hb.
  - intros Hok. destruct (update_status_ok _ _ _ _ _ Hok) as (b' & _ & Hsave).
    apply Booking_save_Some in Hsave as (_ & -> & _).
    rewrite lookup_insert_eq. simpl. rewrite written_status. simpl.
    by rewrite apply_status_status.
Qed.

Lemma terminal_status_by_operation_witness :
  (forall user body,
      (cancel 5000 user 0 body Sample.st_completed).2 = Sample.st_completed) /\
  (forall user body,
      Booking.status <$> bookings (rate 5000 user 0 body Sample.st_completed).2 !! 0%nat
      = Some completed) /\
  (forall user body,
      ok (update_status 5000 user 0 body Sample.st_completed).1 ->
      Booking.status <$> bookings (update_status 5000 user 0 body Sample.st_completed).2 !! 0%nat
      = Some (StatusBody.status body)).
Proof.
  apply (terminal_status_by_operation 5000 0%nat Sample.st_completed
           Sample.completed_booking).
  - vm_compute. reflexivity.
  - left. reflexivity.
Defined.

(** C1 fails as it is stated: booking 0 is completed, its consultant asks
    for [confirmed], the handler answers with success and the booking is
    confirmed again. *)
Lemma update_status_leaves_terminal :
  Booking.status <$> bookings Sample.st_completed !! 0%nat = Some completed /\
  let r := update_status 5000 Sample.carl 0 (Sample.to confirmed) Sample.st_completed in
  ok r.1 /\ Booking.status <$> bookings r.2 !! 0%nat = Some confirmed.
Proof. vm_compute. auto. Qed.

(** The admin route does the same, and accepts [pending] too. *)
Example admin_update_status_leaves_terminal :
  let r := admin_update_status 5000 Sample.root 0
             {| AdminStatusBody.status := pending; AdminStatusBody.notes_admin := None |}
             Sample.st_completed in
  ok r.1 /\ Booking.status <$> bookings r.2 !! 0%nat = Some pending.
Proof. vm_compute. auto. Qed.

(** ** Completed bookings of the consultant *)

(** The count hook on a document that was loaded from the store: with
    [_original] undefined the test of the completed edge is false, and the
    hook changes no consultant. *)
Lemma pre_save_counts_loaded b b0 cs :
  Booking.pre_save_counts
    {| Booking.this := b; Booking.loaded := Some b0; Booking._original := None |} cs = cs.
Proof.
  unfold Booking.pre_save_counts, Booking.original_not_completed, Booking.isNew. simpl.
  rewrite andb_false_r. by destruct (Booking.isModified _ _).
Qed.

Lemma hooks_keep_tracking cs d :
  Booking.loaded (Booking.pre_save_totalAmount cs (Booking.pre_save_endTime d)) = Booking.loaded d /\
  Booking._original (Booking.pre_save_totalAmount cs (Booking.pre_save_endTime d))
  = Booking._original d.
Proof. hook_cases; auto. Qed.

Lemma save_loaded_consultants now id b b' st st' :
  Booking_save now id (Booking.set_this b' (Booking.of_store b)) st = Some st' ->
  consultants st' = consultants st.
Proof.
  intros (_ & _ & -> & _)%Booking_save_Some.
  destruct (hooks_keep_tracking (consultants st) (Booking.set_this b' (Booking.of_store b)))
    as [Hl Ho].
  destruct (Booking.pre_save_totalAmount _ _) as [t l o]. simpl in *. subst.
  apply pre_save_counts_loaded.
Qed.

(** No status update, of the consultant or of the admin, changes a
    consultant document: [completedBookings] stays as it is on every
    write of a status. *)
Lemma update_status_keeps_consultants now user id body st :
  consultants (update_status now user id body st).2 = consultants st.
Proof.
  destruct (update_status_store now user id body st) as [Hok | ->]; [|done].
  destruct (update_status_ok _ _ _ _ _ Hok) as (b & _ & Hsave).
  by apply save_loaded_consultants in Hsave.
Qed.

Lemma admin_update_status_keeps_consultants now user id body st :
  consultants (admin_update_status now user id body st).2 = consultants st.
Proof.
  unfold admin_update_status. repeat case_match; simpl; try done.
  by eapply save_loaded_consultants.
Qed.

(** C2, at the failing input. Booking 0 is confirmed and its consultant has
    0 completed bookings; the consultant sets the status to completed; the
    handler answers with success, the booking is completed, and
    [completedBookings] is still 0: the edge into [completed] is not
    counted. *)
Theorem completed_edge_not_counted :
  Booking.status <$> bookings Sample.st_confirmed !! 0%nat = Some confirmed /\
  Consultant.completedBookings <$> consultants Sample.st_confirmed !! 0%nat = Some 0 /\
  let r := update_status 3000 Sample.carl 0 (Sample.to completed) Sample.st_confirmed in
  ok r.1 /\
  Booking.status <$> bookings r.2 !! 0%nat = Some completed /\
  Consultant.completedBookings <$> consultants r.2 !! 0%nat = Some 0.
Proof. vm_compute. auto. Qed.

(** ** Consultant counts of the categories *)

(** C3, at the failing input. Carl's profile is in category 1, whose count
    is 1. He moves the profile to category 2: the count of category 2
    becomes 1, the count of category 1 stays 1, and no profile refers to
    category 1 any more. *)
Theorem category_counts_drift :
  Consultant.categories <$> consultants Sample.st_profile !! 0%nat = Some [1%nat] /\
  Category.consultantCount <$> categories Sample.st_profile !! 1%nat = Some 1 /\
  let r := ConsultantRoutes.update Sample.carl 0 (Sample.only_categories [2%nat])
                                   Sample.st_profile in
  ok r.1 /\
  Consultant.categories <$> consultants r.2 !! 0%nat = Some [2%nat] /\
  Category.consultantCount <$> categories r.2 !! 1%nat = Some 1 /\
  ConsultantRoutes.referencing 1 (consultants r.2) = 0 /\
  Category.consultantCount <$> categories r.2 !! 2%nat = Some 1.
Proof. vm_compute. auto 10. Qed.

(** A category that stays in the list is counted once more. *)
Example category_counted_twice :
  let r := ConsultantRoutes.update Sample.carl 0 (Sample.only_categories [1%nat; 2%nat])
                                   Sample.st_profile in
  ok r.1 /\
  Category.consultantCount <$> categories r.2 !! 1%nat = Some 2 /\
  ConsultantRoutes.referencing 1 (consultants r.2) = 1.
Proof. vm_compute. auto. Qed.

(** ** The rating aggregate *)

Section Aggregate.

Variable cid : nat.

Let step (sum : JS.Number) (b : Booking.t) := JS.add sum (Booking.score (Booking.rating b)).

Let rated (l : list (nat * Booking.t)) : list Booking.t :=
  (filter (fun kv : nat * Booking.t => rated_by cid kv.2 = true) l).*2.

Let scores (l : list (nat * Booking.t)) : list Z :=
  omap (fun kv : nat * Booking.t =>
          if bool_decide (Booking.consultant kv.2 = cid)
          then Booking.score (Booking.rating kv.2) else None) l.

Lemma rated_cons k b l :
  (rated ((k, b) :: l) = b :: rated l /\
   exists s, Booking.score (Booking.rating b) = Some s /\ scores ((k, b) :: l) = s :: scores l)
  \/ (rated ((k, b) :: l) = rated l /\ scores ((k, b) :: l) = scores l).
Proof.
  unfold rated, scores. destruct (rated_by cid b) eqn:E.
  - left. rewrite filter_cons_True by done. split; [reflexivity|].
    unfold rated_by in E. apply andb_true_iff in E as [E1 E2].
    apply bool_decide_eq_true in E2 as [s Hs]. exists s. split; [done|].
    simpl. rewrite E1, Hs. reflexivity.
  - right. rewrite filter_cons_False by (simpl; rewrite E; done). split; [reflexivity|].
    simpl. unfold rated_by in E.
    destruct (bool_decide (Booking.consultant b = cid)); [|reflexivity].
    destruct (Booking.score (Booking.rating b)); [|reflexivity].
    rewrite bool_decide_eq_true_2 in E by eauto. discriminate.
Qed.

Lemma reduce_scores l : forall q,
  exists q', fold_left step (rated l) (JS.Num q) = JS.Num q' /\
             (q' == q + inject_Z (sum_scores (scores l)))%Q.
Proof.
  induction l as [|[k b] l IH]; intros q.
  - exists q. split; [reflexivity|]. simpl. ring.
  - destruct (rated_cons k b l) as [(-> & s & Hs & ->) | (-> & ->)]; [|apply IH].
    cbn [fold_left].
    replace (step (JS.Num q) b) with (JS.Num (q + inject_Z s))
      by (unfold step; rewrite Hs; reflexivity).
    destruct (IH (q + inject_Z s)%Q) as (q' & -> & Hq').
    exists q'. split; [reflexivity|].
    change (sum_scores (s :: scores l)) with (s + sum_scores (scores l)).
    rewrite Hq', inject_Z_plus. ring.
Qed.

Lemma rated_length l : length (rated l) = length (scores l).
Proof.
  induction l as [|[k b] l IH]; [reflexivity|].
  destruct (rated_cons k b l) as [(-> & s & Hs & ->) | (-> & ->)]; simpl; by rewrite IH.
Qed.

End Aggregate.

(** The aggregate of the handler is the mean of the rated scores, as soon
    as there is one. *)
Lemma recompute_mean cid bks :
  rated_scores cid bks <> [] ->
  Consultant.count (recompute cid bks) = Z.of_nat (length (rated_scores cid bks)) /\
  exists q, Consultant.average (recompute cid bks) = JS.Num q /\
            (q == mean (rated_scores cid bks))%Q.
Proof.
  intros Hne. unfold recompute, find, totalRating, rated_scores in *. simpl.
  rewrite rated_length. split; [reflexivity|].
  destruct (reduce_scores cid (map_to_list bks) 0) as (q & -> & Hq).
  simpl. destruct (Z.eqb_spec (Z.of_nat (length
    (omap (fun kv : nat * Booking.t =>
             if bool_decide (Booking.consultant kv.2 = cid)
             then Booking.score (Booking.rating kv.2) else None) (map_to_list bks)))) 0) as [H0|_].
  - destruct (omap _ _); [done | simpl in H0; lia].
  - eexists. split; [reflexivity|]. unfold mean. rewrite Hq. 
    unfold rated_scores. field.
    destruct (omap _ _) eqn:E; [done|]. simpl. 
    intros Hz. unfold Qeq, inject_Z in Hz. simpl in Hz. lia.
Qed.

Lemma rated_scores_elem cid bks s :
  s ∈ rated_scores cid bks <->
  exists id b, bks !! id = Some b /\ Booking.consultant b = cid /\
               Booking.score (Booking.rating b) = Some s.
Proof.
  unfold rated_scores. rewrite list_elem_of_omap. split.
  - intros ([id b] & Hin & Hs). apply elem_of_map_to_list in Hin. simpl in Hs.
    case_bool_decide; [|discriminate]. eauto.
  - intros (id & b & Hb & Hc & Hs). exists (id, b). split.
    + by apply elem_of_map_to_list.
    + simpl. by rewrite bool_decide_eq_true_2.
Qed.

Lemma sum_scores_bounds l :
  (forall s, s ∈ l -> 1 <= s <= 5) ->
  Z.of_nat (length l) <= sum_scores l <= 5 * Z.of_nat (length l).
Proof.
  induction l as [|s l IH]; intros H; [simpl; lia|].
  assert (1 <= s <= 5) by (apply H; left).
  assert (Z.of_nat (length l) <= sum_scores l <= 5 * Z.of_nat (length l))
    by (apply IH; intros; apply H; by right).
  change (sum_scores (s :: l)) with (s + sum_scores l).
  rewrite length_cons. lia.
Qed.

Lemma mean_in_range l :
  l <> [] -> (forall s, s ∈ l -> 1 <= s <= 5) -> (1 <= mean l /\ mean l <= 5)%Q.
Proof.
  intros Hne H. pose proof (sum_scores_bounds l H) as [Hlo Hhi].
  assert (0 < Z.of_nat (length l)) as Hpos by (destruct l; [done | simpl; lia]).
  assert (0 < inject_Z (Z.of_nat (length l)))%Q as HposQ.
  { change 0%Q with (inject_Z 0). by rewrite <- Zlt_Qlt. }
  unfold mean. split.
  - apply Qle_shift_div_l; [done|]. rewrite Qmult_1_l. by rewrite <- Zle_Qle.
  - apply Qle_shift_div_r; [done|].
    change 5%Q with (inject_Z 5). rewrite <- inject_Z_mult. by rewrite <- Zle_Qle.
Qed.

Lemma scores_in_range_insert bks id b :
  scores_in_range bks ->
  (forall s, Booking.score (Booking.rating b) = Some s -> 1 <= s <= 5) ->
  scores_in_range (<[id := b]> bks).
Proof.
  intros Hbks Hb id' b' s. rewrite lookup_insert. case_decide.
  - intros [= <-]. apply Hb.
  - apply Hbks.
Qed.

(** In range, the new average passes the validators of the consultant
    schema. *)
Lemma recompute_valid cid bks :
  rated_scores cid bks <> [] -> scores_in_range bks ->
  Consultant.valid_average (Consultant.average (recompute cid bks)) = true.
Proof.
  intros Hne Hr. destruct (recompute_mean cid bks Hne) as (_ & q & -> & Hq).
  destruct (mean_in_range (rated_scores cid bks) Hne) as [Hlo Hhi].
  { intros s (id & b & Hb & _ & Hs)%rated_scores_elem. eapply Hr; eauto. }
  simpl. apply andb_true_iff. split; apply Qle_bool_iff; rewrite Hq.
  - apply Qle_trans with 1%Q; [discriminate | done].
  - done.
Qed.

Lemma rate_ok now user id body st :
  ok (rate now user id body st).1 ->
  exists b st1,
    bookings st !! id = Some b /\
    owning_client user b /\
    rate_valid body = true /\
    Booking.status b = completed /\
    JS.truthy_num (Booking.score (Booking.rating b)) = false /\
    Booking_save now id (rated_doc now body b) st = Some st1 /\
    match consultants st1 !! Booking.consultant b with
    | None => (rate now user id body st).2 = st1
    | Some c =>
        Consultant_save (Booking.consultant b)
          (aggregate_doc (Booking.consultant b) (bookings st1) c) st1
        = Some (rate now user id body st).2
    end.
Proof.
  unfold rate, owning_client, rated_doc, aggregate_doc.
  destruct (bool_decide (role user = role_client)) eqn:Hrole; simpl; [|done].
  destruct (rate_valid body) eqn:Hvalid; simpl; [|done].
  destruct (bookings st !! id) as [b|] eqn:Hb; simpl; [|done].
  destruct (bool_decide (Booking.client b = _id user)) eqn:Hclient; simpl; [|done].
  destruct (bool_decide (Booking.status b = completed)) eqn:Hstatus; simpl; [|done].
  destruct (JS.truthy_num _) eqn:Hscore; simpl; [done|].
  destruct (Booking_save _ _ _ _) as [st1|] eqn:Hsave; simpl; [|done].
  apply bool_decide_eq_true in Hrole, Hclient, Hstatus.
  destruct (consultants st1 !! _) as [c|] eqn:Hc; simpl.
  - destruct (Consultant_save _ _ _) as [st2|] eqn:Hsave2; simpl; [|done].
    intros _. exists b, st1. rewrite Hc. eauto 10.
  - intros _. exists b, st1. rewrite Hc. eauto 10.
Qed.

(** ** Invariants of the stored bookings *)

Lemma apply_status_keeps_slot now who s note b : keeps_slot b (apply_status now who s note b).
Proof. unfold apply_status, keeps_slot. repeat case_match; simpl; auto. Qed.

Lemma apply_cancel_keeps_slot now reason b : keeps_slot b (apply_cancel now reason b).
Proof. unfold apply_cancel, keeps_slot. repeat case_match; simpl; auto. Qed.

Lemma valid_score_bounds s : Booking.valid_score s = true <-> 1 <= s <= 5.
Proof. unfold Booking.valid_score. rewrite andb_true_iff, !Z.leb_le. tauto. Qed.

Lemma valid_duration_bounds v : Booking.valid_duration v = true <-> 30 <= v <= 480.
Proof. unfold Booking.valid_duration. rewrite andb_true_iff, !Z.leb_le. tauto. Qed.

Lemma store_inv_bookings st st' :
  bookings st' = bookings st -> store_inv st -> store_inv st'.
Proof. unfold store_inv. by intros ->. Qed.

Lemma store_inv_insert st st' id b :
  bookings st' = <[id := b]> (bookings st) -> booking_inv b -> store_inv st -> store_inv st'.
Proof.
  intros Hst Hb Hinv id' b'. rewrite Hst, lookup_insert. case_decide.
  - by intros [= <-].
  - apply Hinv.
Qed.

Lemma save_loaded_inv now id b b' st st' :
  Booking_save now id (Booking.set_this b' (Booking.of_store b)) st = Some st' ->
  booking_inv b -> keeps_slot b b' -> store_inv st -> store_inv st'.
Proof.
  intros (_ & Hbks & _)%Booking_save_Some (He & Hd & Hs) (Kst & Kd & Ke & Ks).
  apply (store_inv_insert _ _ _ _ Hbks).
  unfold booking_inv.
  rewrite written_endTime, written_startTime, written_duration, written_rating.
  unfold Booking.isModified, Booking.isModified_by. simpl.
  rewrite !bool_decide_eq_true_2 by done. simpl.
  rewrite Ke, Kst, Kd. split; [done|]. split; [done|].
  intros x Hscore. destruct Ks as [Ks | (s' & Ks & ?)]; rewrite Ks in Hscore.
  - by apply Hs.
  - by injection Hscore as <-.
Qed.

Lemma validate_new_duration now b :
  Booking.validate now (Booking.new b) = true -> 30 <= Booking.duration b <= 480.
Proof.
  unfold Booking.validate, Booking.valid_at. rewrite !andb_true_iff.
  intros (((((((((_ & H) & _) & _) & _) & _) & _) & _) & _) & _).
  by apply valid_duration_bounds.
Qed.

Lemma save_new_inv now id b st st' :
  Booking_save now id (Booking.new b) st = Some st' ->
  Booking.score (Booking.rating b) = None -> store_inv st -> store_inv st'.
Proof.
  intros (Hv & Hbks & _)%Booking_save_Some Hscore.
  apply (store_inv_insert _ _ _ _ Hbks).
  unfold booking_inv.
  rewrite written_endTime, written_startTime, written_duration, written_rating.
  simpl. split; [done|]. split; [by apply (validate_new_duration now)|].
  intros s. by rewrite Hscore.
Qed.

Lemma handle_inv now req st : store_inv st -> store_inv (handle now req st).2.
Proof.
  intros Hinv. destruct req as [user body | user id body | user id body
                               | user id body | user id body | user body | user id body];
    simpl.
  - unfold create. repeat case_match; simpl; try done.
    eapply save_new_inv; eauto.
  - unfold update_status. repeat case_match; simpl; try done.
    eapply save_loaded_inv; eauto using apply_status_keeps_slot.
  - unfold admin_update_status. repeat case_match; simpl; try done.
    eapply save_loaded_inv; eauto using apply_status_keeps_slot.
  - unfold cancel. repeat case_match; simpl; try done.
    eapply save_loaded_inv; eauto using apply_cancel_keeps_slot.
  - unfold rate.
    destruct (rate_valid body) eqn:Hvalid;
      [|repeat case_match; simpl; done].
    assert (forall b st1, bookings st !! id = Some b ->
              Booking_save now id (rated_doc now body b) st = Some st1 -> store_inv st1)
      as Hsave.
    { intros b st1 Hb Hs. eapply save_loaded_inv; eauto.
      unfold keeps_slot. simpl. repeat split. right. eexists. split; [reflexivity|].
      apply valid_score_bounds. unfold rate_valid in Hvalid.
      by apply andb_true_iff in Hvalid as [? _]. }
    repeat case_match; simpl; try done.
    all: try (eapply Hsave; by eauto).
    match goal with H : Consultant_save _ _ _ = Some _ |- _ =>
      apply Consultant_save_Some in H as (_ & Hb & _) end.
    eapply store_inv_bookings; [done|]. eapply Hsave; eauto.
  - unfold ConsultantRoutes.create. repeat case_match; simpl; try done.
    match goal with H : Consultant_save _ _ _ = Some _ |- _ =>
      apply Consultant_save_Some in H as (_ & Hb & _) end.
    by eapply store_inv_bookings.
  - unfold ConsultantRoutes.update. repeat case_match; simpl; try done.
    match goal with H : Consultant_save _ _ _ = Some _ |- _ =>
      apply Consultant_save_Some in H as (_ & Hb & _) end.
    by eapply store_inv_bookings.
Qed.

Lemma reachable_inv st : reachable st -> store_inv st.
Proof.
  induction 1 as [st Hempty | now req st _ IH | cats st _ IH].
  - intros id b. rewrite Hempty. by rewrite lookup_empty.
  - by apply handle_inv.
  - exact IH.
Qed.

Lemma reachable_scores st : reachable st -> scores_in_range (bookings st).
Proof.
  intros Hr id b s Hb Hs. by apply (reachable_inv st Hr id b Hb).
Qed.

(** The sample stores are reachable. *)
Lemma reachable_st_profile : reachable Sample.st_profile.
Proof.
  apply (reachable_step 0 (POST_consultants Sample.carl (Sample.profile [1%nat]))
                        Sample.st_categories).
  by apply reachable_init.
Qed.

Lemma reachable_st_pending : reachable Sample.st_pending.
Proof. apply reachable_step, reachable_st_profile. Qed.

Lemma reachable_st_confirmed : reachable Sample.st_confirmed.
Proof. apply reachable_step, reachable_st_pending. Qed.

Lemma reachable_st_completed : reachable Sample.st_completed.
Proof. apply reachable_step, reachable_st_confirmed. Qed.

Lemma reachable_st_rated : reachable Sample.st_rated.
Proof. apply reachable_step, reachable_st_completed. Qed.

(** ** Clock strings *)

(** Every minute of the day, written by [toTimeString] and read back. *)
Lemma clock_table :
  forallb (fun n : nat =>
             bool_decide (JS.minutes_of (JS.toTimeString_slice_0_5
                                           (Some (Z.of_nat n * 60000)))
                          = Some (Z.of_nat n)))
          (seq 0 1440) = true.
Proof. vm_compute. reflexivity. Qed.

Lemma toTimeString_minute ms :
  JS.toTimeString_slice_0_5 (Some ms)
  = JS.toTimeString_slice_0_5 (Some ((ms / 60000) mod 1440 * 60000)).
Proof.
  unfold JS.toTimeString_slice_0_5.
  rewrite Z.div_mul by lia. rewrite Z.mod_mod by lia. reflexivity.
Qed.

Lemma minutes_of_toTimeString ms :
  JS.minutes_of (JS.toTimeString_slice_0_5 (Some ms)) = Some ((ms / 60000) mod 1440).
Proof.
  rewrite toTimeString_minute.
  pose proof (Z.mod_pos_bound (ms / 60000) 1440 ltac:(lia)) as Hn.
  set (n := (ms / 60000) mod 1440) in *.
  pose proof clock_table as Ht. rewrite forallb_forall in Ht.
  specialize (Ht (Z.to_nat n)). rewrite Z2Nat.id in Ht by lia.
  apply bool_decide_eq_true in Ht; [done|].
  apply in_seq. lia.
Qed.

Lemma digit_val_bounds c : JS.is_digit c = true -> 0 <= JS.digit_val c <= 9.
Proof.
  unfold JS.is_digit, JS.digit_val. rewrite andb_true_iff, !Z.leb_le. lia.
Qed.

Lemma minutes_of_Date t start :
  JS.minutes_of t = Some start ->
  JS.Date_2000_01_01T t = Some (start * 60000) /\ 0 <= start < 1440.
Proof.
  unfold JS.minutes_of.
  destruct (JS.Date_2000_01_01T t) as [ms|] eqn:Hd; [|discriminate].
  intros [= <-]. unfold JS.Date_2000_01_01T in Hd.
  repeat case_match; try discriminate. injection Hd as <-.
  rewrite Z.div_mul by lia. split; [reflexivity|].
  match goal with H : JS.matches_time _ = true |- _ =>
    unfold JS.matches_time, JS.is_minute, JS.is_hour in H;
    apply andb_true_iff in H as [[Hh _]%andb_true_iff [[Hm1 Hm1']%andb_true_iff Hm2]%andb_true_iff]
  end.
  apply digit_val_bounds in Hm1, Hm2. apply Z.leb_le in Hm1'.
  apply orb_true_iff in Hh as [[[Hh1 Hh1']%andb_true_iff Hh2]%andb_true_iff
                              | [[Hh1 Hh2]%andb_true_iff Hh2']%andb_true_iff].
  - apply digit_val_bounds in Hh1, Hh2. apply Z.leb_le in Hh1'. lia.
  - apply digit_val_bounds in Hh2. apply Z.leb_le in Hh2'. apply Z.eqb_eq in Hh1. lia.
Qed.

Lemma wall_clock_end_minutes t start duration :
  JS.minutes_of t = Some start ->
  JS.minutes_of (wall_clock_end t duration) = Some ((start + duration) mod 1440).
Proof.
  intros [Hd _]%minutes_of_Date. unfold wall_clock_end. rewrite Hd.
  rewrite minutes_of_toTimeString. do 2 f_equal.
  rewrite <- Z.mul_add_distr_r. by rewrite Z.div_mul by lia.
Qed.

(** What holds of the start times with a two-digit hour. A write that
    changes [startTime] or [duration] recomputes [endTime] as the wall clock
    of [startTime] plus [duration] minutes. In every store that the
    requests reach, a booking with an ["HH:MM"] start time has a duration
    between 30 and 480 minutes and an end time that is the start time plus
    the duration, taken modulo the day: [endTime - startTime] is [duration]
    minutes whenever the booking ends before midnight, and nothing handles
    the roll-over otherwise. *)
Lemma endTime_is_startTime_plus_duration :
  (forall cs d,
      Booking.isModified Booking.startTime d || Booking.isModified Booking.duration d = true ->
      Booking.endTime (written cs d)
      = wall_clock_end (Booking.startTime (Booking.this d)) (Booking.duration (Booking.this d))) /\
  (forall st id b start,
      reachable st -> bookings st !! id = Some b ->
      JS.minutes_of (Booking.startTime b) = Some start ->
      30 <= Booking.duration b <= 480 /\
      JS.minutes_of (Booking.endTime b) = Some ((start + Booking.duration b) mod 1440) /\
      (start + Booking.duration b < 1440 ->
       exists e, JS.minutes_of (Booking.endTime b) = Some e /\ e - start = Booking.duration b)).
Proof.
  split.
  - intros cs d Hm. by rewrite written_endTime, Hm.
  - intros st id b start Hr Hb Hstart.
    destruct (reachable_inv st Hr id b Hb) as (He & Hd & _).
    pose proof (wall_clock_end_minutes _ _ (Booking.duration b) Hstart) as Hend.
    rewrite <- He in Hend. split; [done|]. split; [done|].
    intros Hday. exists (start + Booking.duration b). split; [|lia].
    rewrite Hend. f_equal. apply Z.mod_small.
    apply minutes_of_Date in Hstart as [_ ?]. lia.
Qed.

Lemma endTime_is_startTime_plus_duration_witness :
  30 <= 60 <= 480 /\
  JS.minutes_of "10:00" = Some ((540 + 60) mod 1440) /\
  (540 + 60 < 1440 -> exists e, JS.minutes_of "10:00" = Some e /\ e - 540 = 60).
Proof.
  apply (proj2 endTime_is_startTime_plus_duration Sample.st_pending 0%nat
           Sample.pending_booking 540).
  - apply reachable_st_pending.
  - vm_compute. reflexivity.
  - vm_compute. reflexivity.
Defined.

Example endTime_past_midnight :
  Booking.endTime <$>
    bookings (handle 1000 (POST_bookings Sample.alice (Sample.slot "23:30" 60))
                     Sample.st_profile).2 !! 0%nat
  = Some "00:30"%string.
Proof. vm_compute. reflexivity. Qed.

Example endTime_one_digit_hour :
  Booking.endTime <$>
    bookings (handle 1000 (POST_bookings Sample.alice (Sample.slot "9:00" 60))
                     Sample.st_profile).2 !! 0%nat
  = Some "Inval"%string.
Proof. vm_compute. reflexivity. Qed.

(** C8, at the failing input. Alice books Carl at 9:00 for 60 minutes. The
    start time matches the pattern of the route and of the schema, the body
    is valid and the booking is created. The claim says that its end time
    is the start time plus the duration, 10:00. The hook builds the date
    [2000-01-01T9:00:00], which is no date, and stores the first five
    characters of [Invalid Date]: the end time is the text [Inval], which
    names no time of day. The stored end time does not pass the validation
    of a later save: the status update of the consultant throws. *)
Theorem endTime_lost_for_one_digit_hour :
  create_valid (Sample.slot "9:00" 60) = true /\
  clock_minutes "9:00" = Some 540 /\
  clock_minutes "10:00" = Some (540 + 60) /\
  let r := create 1000 Sample.alice (Sample.slot "9:00" 60) Sample.st_profile in
  ok r.1 /\
  Booking.startTime <$> bookings r.2 !! 0%nat = Some "9:00"%string /\
  Booking.duration <$> bookings r.2 !! 0%nat = Some 60 /\
  Booking.endTime <$> bookings r.2 !! 0%nat = Some "Inval"%string /\
  clock_minutes "Inval" = None /\
  update_status 2000 Sample.carl 0 (Sample.to confirmed) r.2
  = (Thrown MongooseValidationError, r.2).
Proof. vm_compute. repeat split; reflexivity. Qed.

(** ** Rating *)

(** The store after a successful [rate]: the booking carries the score, and
    the consultant, when the profile exists, the recomputed aggregate. *)
Lemma rate_ok_store now user id body st :
  ok (rate now user id body st).1 ->
  exists b,
    bookings st !! id = Some b /\
    owning_client user b /\
    Booking.status b = completed /\
    JS.truthy_num (Booking.score (Booking.rating b)) = false /\
    bookings (rate now user id body st).2
    = <[id := written (consultants st) (rated_doc now body b)]> (bookings st) /\
    forall c, consultants (rate now user id body st).2 !! Booking.consultant b = Some c ->
      Consultant.rating c
      = recompute (Booking.consultant b) (bookings (rate now user id body st).2).
Proof.
  intros (b & st1 & Hb & Hown & _ & Hst & Hsc & Hsave & Hc)%rate_ok.
  exists b. repeat (split; [done|]).
  pose proof (save_loaded_consultants _ _ _ _ _ _ Hsave) as Hcs.
  apply Booking_save_Some in Hsave as (_ & Hbks & _).
  destruct (consultants st1 !! Booking.consultant b) as [c0|] eqn:Hc0.
  - apply Consultant_save_Some in Hc as (_ & Hbks2 & Hcs2 & _).
    rewrite Hbks2. split; [done|]. intros c. rewrite Hcs2, lookup_insert_eq.
    by intros [= <-].
  - rewrite Hc. split; [done|]. intros c. by rewrite Hc0.
Qed.

Lemma rated_doc_written cs now body b :
  Booking.consultant (written cs (rated_doc now body b)) = Booking.consultant b /\
  Booking.score (Booking.rating (written cs (rated_doc now body b)))
  = Some (RateBody.score body).
Proof. by rewrite written_consultant, written_rating. Qed.

Lemma rate_ok_rated now user id body st b :
  ok (rate now user id body st).1 -> bookings st !! id = Some b ->
  RateBody.score body
    ∈ rated_scores (Booking.consultant b) (bookings (rate now user id body st).2).
Proof.
  intros (b' & Hb' & _ & _ & _ & Hbks & _)%rate_ok_store Hb.
  assert (b' = b) as -> by congruence.
  apply rated_scores_elem. eexists id, _. rewrite Hbks, lookup_insert_eq.
  split; [done|]. apply rated_doc_written.
Qed.

(** C4. After a successful [rate], the consultant of the booking, when the
    profile exists, carries as [rating.count] the number of that
    consultant's bookings with a score in the store as it is then, and as
    [rating.average] the arithmetic mean of those scores: the aggregate is
    recomputed from the bookings, whatever it was before. *)
Theorem rate_recomputes_aggregate now user id body st b c :
  bookings st !! id = Some b ->
  ok (rate now user id body st).1 ->
  consultants (rate now user id body st).2 !! Booking.consultant b = Some c ->
  Consultant.count (Consultant.rating c)
  = Z.of_nat (length (rated_scores (Booking.consultant b)
                                   (bookings (rate now user id body st).2))) /\
  exists q,
    Consultant.average (Consultant.rating c) = JS.Num q /\
    (q == mean (rated_scores (Booking.consultant b)
                             (bookings (rate now user id body st).2)))%Q.
Proof.
  intros Hb Hok Hc.
  pose proof (rate_ok_rated _ _ _ _ _ _ Hok Hb) as Hin.
  destruct (rate_ok_store _ _ _ _ _ Hok) as (b' & Hb' & _ & _ & _ & _ & Hagg).
  assert (b' = b) as -> by congruence.
  rewrite (Hagg c Hc). apply recompute_mean.
  intros Hnil. rewrite Hnil in Hin. by apply not_elem_of_nil in Hin.
Qed.

Lemma rate_recomputes_aggregate_witness :
  Consultant.count (Consultant.rating Sample.rated_profile)
  = Z.of_nat (length (rated_scores 0 (bookings Sample.st_rated))) /\
  exists q,
    Consultant.average (Consultant.rating Sample.rated_profile) = JS.Num q /\
    (q == mean (rated_scores 0 (bookings Sample.st_rated)))%Q.
Proof.
  apply (rate_recomputes_aggregate 4000 Sample.alice 0%nat (Sample.stars 4)
           Sample.st_completed Sample.completed_booking Sample.rated_profile).
  - vm_compute. reflexivity.
  - vm_compute. reflexivity.
  - vm_compute. reflexivity.
Defined.

(** The scenario of the specification: ratings 5 and 3, then a 4. *)
Example rate_scenario :
  Consultant.rating <$> consultants Sample.st_two_ratings !! 0%nat
  = Some {| Consultant.average := JS.Num (8 # 2); Consultant.count := 2 |} /\
  let r := rate 9000 Sample.alice 2 (Sample.stars 4) Sample.st_two_ratings in
  ok r.1 /\
  Consultant.rating <$> consultants r.2 !! 0%nat
  = Some {| Consultant.average := JS.Num (12 # 3); Consultant.count := 3 |} /\
  (12 # 3 == 4)%Q.
Proof. vm_compute. auto. Qed.



(** ** Validation of the documents that the client handlers save *)

(** A handler saves a stored booking with some paths assigned: the
    document passes validation when the stored booking still does, at the
    clock of the save, and the assigned values do. *)
Ltac valid_paths H :=
  unfold Booking.validate, Booking.valid_at in *; simpl;
  rewrite !andb_true_iff in *;
  destruct H as (((((((((? & ?) & ?) & ?) & ?) & ?) & ?) & ?) & ?) & ?).

Lemma validate_rated_doc now body b :
  rate_valid body = true -> Booking.valid_at now b = true ->
  Booking.validate now (rated_doc now body b) = true.
Proof.
  unfold rate_valid. intros [Hs Hr]%andb_true_iff Hv. valid_paths Hv. auto 12.
Qed.


Lemma validate_aggregate_doc cid bks c :
  rated_scores cid bks <> [] -> scores_in_range bks ->
  Consultant.validate (aggregate_doc cid bks c) = true.
Proof.
  intros Hne Hr. pose proof (recompute_valid cid bks Hne Hr) as Hv.
  unfold Consultant.validate, aggregate_doc.
  cbn [Consultant.loaded Consultant.this Consultant.set_this Consultant.of_store
       Consultant.rating Consultant.set_rating].
  exact Hv.
Qed.

Lemma truthy_score_None bks id b :
  scores_in_range bks -> bks !! id = Some b ->
  JS.truthy_num (Booking.score (Booking.rating b)) = false <->
  Booking.score (Booking.rating b) = None.
Proof.
  intros Hr Hb. destruct (Booking.score (Booking.rating b)) as [s|] eqn:Hs; simpl.
  - pose proof (Hr id b s Hb Hs) as Hbounds. split; [|discriminate].
    intros Hz%negb_false_iff%Z.eqb_eq. lia.
  - done.
Qed.

(** The guards of [rate], one after the other. *)
Lemma rate_guards_eq now user id body st b :
  bookings st !! id = Some b -> rate_valid body = true ->
  rate now user id body st =
    if negb (bool_decide (role user = role_client)) then (access_denied "client", st)
    else if negb (bool_decide (Booking.client b = _id user))
    then (json 403 false "Access denied", st)
    else if negb (bool_decide (Booking.status b = completed))
    then (json 400 false "Can only rate completed bookings", st)
    else if JS.truthy_num (Booking.score (Booking.rating b))
    then (json 400 false "Booking has already been rated", st)
    else
      match Booking_save now id (rated_doc now body b) st with
      | None => (Thrown MongooseValidationError, st)
      | Some st1 =>
          match consultants st1 !! Booking.consultant b with
          | None => (json 200 true "Booking rated successfully", st1)
          | Some c =>
              match Consultant_save (Booking.consultant b)
                      (aggregate_doc (Booking.consultant b) (bookings st1) c) st1 with
              | Some st2 => (json 200 true "Booking rated successfully", st2)
              | None => (Thrown MongooseValidationError, st1)
              end
          end
      end.
Proof. intros Hb Hv. unfold rate. by rewrite Hb, Hv. Qed.

Lemma rate_accepts now user id body st b :
  bookings st !! id = Some b -> rate_valid body = true ->
  scores_in_range (bookings st) ->
  Booking.valid_at now b = true ->
  owning_client user b -> Booking.status b = completed ->
  Booking.score (Booking.rating b) = None ->
  ok (rate now user id body st).1.
Proof.
  intros Hb Hv Hr Hvalid [Hrole Hclient] Hst Hsc.
  rewrite (rate_guards_eq _ _ _ _ _ _ Hb Hv).
  rewrite !bool_decide_eq_true_2 by done. rewrite Hsc. simpl.
  destruct (Booking_save_valid now id (rated_doc now body b) st
              (validate_rated_doc now body b Hv Hvalid)) as [st1 Hsave].
  rewrite Hsave.
  destruct (consultants st1 !! Booking.consultant b) as [c|]; [|done].
  apply Booking_save_Some in Hsave as (_ & Hbks & _).
  assert (scores_in_range (bookings st1)) as Hr1.
  { rewrite Hbks. apply scores_in_range_insert; [done|].
    intros s. rewrite (proj2 (rated_doc_written _ _ _ _)). intros [= <-].
    apply valid_score_bounds. by apply andb_true_iff in Hv as [? _]. }
  assert (rated_scores (Booking.consultant b) (bookings st1) <> []) as Hne.
  { intros E.
    assert (RateBody.score body ∈ rated_scores (Booking.consultant b) (bookings st1)) as Hin.
    { apply rated_scores_elem. eexists id, _. rewrite Hbks, lookup_insert_eq.
      split; [done|]. apply rated_doc_written. }
    rewrite E in Hin. by apply not_elem_of_nil in Hin. }
  unfold Consultant_save. by rewrite (validate_aggregate_doc _ _ c Hne Hr1).
Qed.

(** A stored booking whose date is not later than the clock, or whose
    stored end time is not a clock time, does not pass validation again. *)
Lemma valid_at_false now b :
  Booking.date b <= now \/ JS.matches_time (Booking.endTime b) = false ->
  Booking.valid_at now b = false.
Proof.
  intros H. apply not_true_is_false. unfold Booking.valid_at, Booking.date_in_future.
  rewrite !andb_true_iff, Z.ltb_lt. destruct H as [H|H]; [lia|].
  rewrite H. intuition discriminate.
Qed.

Lemma rate_throws now user id body st b :
  bookings st !! id = Some b -> rate_valid body = true ->
  owning_client user b -> Booking.status b = completed ->
  Booking.score (Booking.rating b) = None ->
  Booking.date b <= now \/ JS.matches_time (Booking.endTime b) = false ->
  rate now user id body st = (Thrown MongooseValidationError, st).
Proof.
  intros Hb Hv [Hrole Hclient] Hst Hsc Hinvalid.
  rewrite (rate_guards_eq _ _ _ _ _ _ Hb Hv).
  rewrite !bool_decide_eq_true_2 by done. rewrite Hsc. cbn [negb JS.truthy_num].
  unfold Booking_save, Booking.validate.
  cbn [rated_doc Booking.this Booking.set_this].
  assert (Booking.valid_at now
            (Booking.set_rating
               {| Booking.score := Some (RateBody.score body);
                  Booking.review := RateBody.review body;
                  Booking.createdAt := Some now |} b) = false) as ->; [|done].
  by apply valid_at_false.
Qed.

(** X30. [rate] on a stored booking with a validated body. When the
    booking still passes the validation of its schema at the clock of the
    request, [rate] succeeds exactly when the caller is the client that
    owns the booking, the status is completed and there is no score yet.
    Another caller gets 403; the owner of a booking that is not completed
    or is already rated gets 400; both leave the store, hence the rating,
    as it was. After a success every further [rate] of the owner on that
    booking is answered 400, already rated. When the date of the booking
    is not later than the clock, or its stored end time is not a clock time,
    the [rate] of the owner on the completed, unrated booking throws the
    validation error of [save] and leaves the store as it was. *)
Theorem rate_guards now user id body st b :
  bookings st !! id = Some b ->
  rate_valid body = true ->
  scores_in_range (bookings st) ->
  (Booking.valid_at now b = true ->
   (ok (rate now user id body st).1 <->
    owning_client user b /\ Booking.status b = completed /\
    Booking.score (Booking.rating b) = None)) /\
  (~ owning_client user b ->
   status_code (rate now user id body st).1 = Some 403 /\
   (rate now user id body st).2 = st) /\
  (owning_client user b ->
   Booking.status b <> completed \/ Booking.score (Booking.rating b) <> None ->
   status_code (rate now user id body st).1 = Some 400 /\
   (rate now user id body st).2 = st) /\
  (ok (rate now user id body st).1 ->
   forall now' body', rate_valid body' = true ->
     rate now' user id body' (rate now user id body st).2
     = (json 400 false "Booking has already been rated", (rate now user id body st).2)) /\
  (owning_client user b -> Booking.status b = completed ->
   Booking.score (Booking.rating b) = None ->
   Booking.date b <= now \/ JS.matches_time (Booking.endTime b) = false ->
   rate now user id body st = (Thrown MongooseValidationError, st)).
Proof.
  intros Hb Hv Hr. split; [|split; [|split; [|split]]].
  5: { intros. by apply (rate_throws now user id body st b). }
  - intros Hvalid. split.
    + intros (b' & Hb' & Hown & Hst & Hsc & _)%rate_ok_store.
      assert (b' = b) as -> by congruence.
      by rewrite <- (truthy_score_None _ _ _ Hr Hb).
    + intros (Hown & Hst & Hsc). by apply (rate_accepts now user id body st b).
  - intros Hown. rewrite (rate_guards_eq _ _ _ _ _ _ Hb Hv).
    unfold owning_client in Hown.
    destruct (bool_decide (role user = role_client)) eqn:E1; simpl; [|done].
    destruct (bool_decide (Booking.client b = _id user)) eqn:E2; simpl; [|done].
    apply bool_decide_eq_true in E1, E2. tauto.
  - intros [Hrole Hclient] Hno. rewrite (rate_guards_eq _ _ _ _ _ _ Hb Hv).
    rewrite !bool_decide_eq_true_2 by done. simpl.
    destruct (bool_decide (Booking.status b = completed)) eqn:E3; simpl; [|done].
    apply bool_decide_eq_true in E3.
    destruct (JS.truthy_num _) eqn:E4; simpl; [done|].
    apply (truthy_score_None _ _ _ Hr Hb) in E4. tauto.
  - intros Hok now' body' Hv'.
    destruct (rate_ok_store _ _ _ _ _ Hok) as (b' & Hb' & [Hrole Hclient] & Hst & _ & Hbks & _).
    assert (b' = b) as -> by congruence.
    set (st' := (rate now user id body st).2) in *.
    assert (bookings st' !! id
            = Some (written (consultants st) (rated_doc now body b))) as Hb2
      by (by rewrite Hbks, lookup_insert_eq).
    rewrite (rate_guards_eq _ _ _ _ _ _ Hb2 Hv').
    rewrite written_client, written_status, written_rating.
    cbn [rated_doc Booking.this Booking.set_this Booking.client Booking.status
         Booking.rating Booking.set_rating Booking.score].
    rewrite (bool_decide_eq_true_2 _ Hrole), (bool_decide_eq_true_2 _ Hclient),
      (bool_decide_eq_true_2 _ Hst).
    cbn [negb JS.truthy_num].
    apply andb_true_iff in Hv as [Hs%valid_score_bounds _].
    destruct (Z.eqb_spec (RateBody.score body) 0); [lia | reflexivity].
Qed.

Lemma rate_guards_witness :
  (Booking.valid_at 4000 Sample.completed_booking = true ->
   (ok (rate 4000 Sample.alice 0 (Sample.stars 4) Sample.st_completed).1 <->
    owning_client Sample.alice Sample.completed_booking /\
    Booking.status Sample.completed_booking = completed /\
    Booking.score (Booking.rating Sample.completed_booking) = None)) /\
  (~ owning_client Sample.alice Sample.completed_booking ->
   status_code (rate 4000 Sample.alice 0 (Sample.stars 4) Sample.st_completed).1 = Some 403 /\
   (rate 4000 Sample.alice 0 (Sample.stars 4) Sample.st_completed).2 = Sample.st_completed) /\
  (owning_client Sample.alice Sample.completed_booking ->
   Booking.status Sample.completed_booking <> completed
   \/ Booking.score (Booking.rating Sample.completed_booking) <> None ->
   status_code (rate 4000 Sample.alice 0 (Sample.stars 4) Sample.st_completed).1 = Some 400 /\
   (rate 4000 Sample.alice 0 (Sample.stars 4) Sample.st_completed).2 = Sample.st_completed) /\
  (ok (rate 4000 Sample.alice 0 (Sample.stars 4) Sample.st_completed).1 ->
   forall now' body', rate_valid body' = true ->
     rate now' Sample.alice 0 body' (rate 4000 Sample.alice 0 (Sample.stars 4) Sample.st_completed).2
     = (json 400 false "Booking has already been rated",
        (rate 4000 Sample.alice 0 (Sample.stars 4) Sample.st_completed).2)) /\
  (owning_client Sample.alice Sample.completed_booking ->
   Booking.status Sample.completed_booking = completed ->
   Booking.score (Booking.rating Sample.completed_booking) = None ->
   Booking.date Sample.completed_booking <= 4000
   \/ JS.matches_time (Booking.endTime Sample.completed_booking) = false ->
   rate 4000 Sample.alice 0 (Sample.stars 4) Sample.st_completed
   = (Thrown MongooseValidationError, Sample.st_completed)).
Proof.
  apply (rate_guards 4000 Sample.alice 0%nat (Sample.stars 4) Sample.st_completed
           Sample.completed_booking).
  - vm_compute. reflexivity.
  - vm_compute. reflexivity.
  - apply reachable_scores, reachable_st_completed.
Defined.

(** C5, at the failing input. Booking 0 is completed and not rated, Alice
    is its client and the body is valid: the claim says that her [rate]
    succeeds. It does while the date of the booking (86400000) is later
    than the clock. Once the clock has passed the date the same request
    throws: [save] validates the stored date against the clock again, the
    rating is not stored and the store is left as it was. *)
Theorem rate_throws_after_the_date :
  bookings Sample.st_completed !! 0%nat = Some Sample.completed_booking /\
  owning_client Sample.alice Sample.completed_booking /\
  Booking.status Sample.completed_booking = completed /\
  Booking.score (Booking.rating Sample.completed_booking) = None /\
  rate_valid (Sample.stars 4) = true /\
  Booking.date Sample.completed_booking = 86400000 /\
  ok (rate 4000 Sample.alice 0 (Sample.stars 4) Sample.st_completed).1 /\
  rate 90000000 Sample.alice 0 (Sample.stars 4) Sample.st_completed
  = (Thrown MongooseValidationError, Sample.st_completed).
Proof. vm_compute. repeat split; reflexivity. Qed.

(** ** Cancellation by the client *)



Lemma apply_cancel_fields now reason b :
  Booking.status (apply_cancel now reason b) = cancelled /\
  Booking.cancelledBy (apply_cancel now reason b) = Some by_client /\
  Booking.cancelledAt (apply_cancel now reason b) = Some now /\
  forall r, reason = Some r -> r <> EmptyString ->
            Booking.cancellationReason (apply_cancel now reason b) = Some r.
Proof.
  unfold apply_cancel. repeat split; try (by case_match).
  intros r -> Hr. simpl. destruct (String.eqb_spec r EmptyString); [done|reflexivity].
Qed.



(** The scenario of the specification. *)
Example cancel_scenario :
  let r := cancel 5000 Sample.alice 0 (Sample.because (Some "schedule conflict"%string))
                  Sample.st_pending in
  ok r.1 /\
  Booking.status <$> bookings r.2 !! 0%nat = Some cancelled /\
  Booking.cancelledBy <$> bookings r.2 !! 0%nat = Some (Some by_client) /\
  Booking.cancellationReason <$> bookings r.2 !! 0%nat
  = Some (Some "schedule conflict"%string).
Proof. vm_compute. auto. Qed.


(** A reason of more than 200 characters reaches [save] and is refused
    there. *)
Example cancel_long_reason :
  let long := String.concat EmptyString (repeat "0123456789"%string 21) in
  String.length long = 210%nat /\
  cancel 5000 Sample.alice 0 (Sample.because (Some long)) Sample.st_pending
  = (Thrown MongooseValidationError, Sample.st_pending).
Proof. vm_compute. auto. Qed.

(** ** Conflict detection *)

Lemma findOne_is_Some {A} (P : nat -> A -> bool) (m : gmap nat A) :
  is_Some (findOne P m) <-> exists k a, m !! k = Some a /\ P k a = true.
Proof.
  unfold findOne. rewrite head_is_Some. split.
  - intros Hne. destruct (filter _ _) as [|[k a] l] eqn:E; [done|].
    assert ((k, a) ∈ filter (fun kv : nat * A => P kv.1 kv.2 = true) (map_to_list m)) as Hin
      by (rewrite E; left).
    apply list_elem_of_filter in Hin as [HP Hin]. apply elem_of_map_to_list in Hin. eauto.
  - intros (k & a & Hm & HP) E.
    assert ((k, a) ∈ filter (fun kv : nat * A => P kv.1 kv.2 = true) (map_to_list m)) as Hin.
    { apply list_elem_of_filter. split; [done|]. by apply elem_of_map_to_list. }
    rewrite E in Hin. by apply not_elem_of_nil in Hin.
Qed.

(** The query of [checkConflict] without an excluded booking: it finds a
    booking exactly when the collection holds one of that consultant, on
    that date, neither cancelled nor no-show, with
    [existing.startTime < endTime] and [existing.endTime > startTime], the
    strings compared as the store compares them. *)
Lemma checkConflict_iff bks consultantId date_ startTime_ endTime_ :
  is_Some (Booking.checkConflict bks consultantId date_ startTime_ endTime_ None) <->
  exists id b,
    bks !! id = Some b /\
    Booking.consultant b = consultantId /\
    Booking.date b = date_ /\
    Booking.status b <> cancelled /\ Booking.status b <> no_show /\
    Booking.str_lt (Booking.startTime b) endTime_ = true /\
    Booking.str_lt startTime_ (Booking.endTime b) = true.
Proof.
  unfold Booking.checkConflict. rewrite findOne_is_Some.
  split; intros (id & b & Hb & H); exists id, b; (split; [done|]); revert H;
    unfold Booking.conflicts;
    rewrite !andb_true_iff, negb_true_iff, orb_false_iff, !bool_decide_eq_true,
      !bool_decide_eq_false; tauto.
Qed.

(** The order of the bytes is the order of the clock on ["HH:MM"] strings. *)
Lemma ascii_compare_code c1 c2 : Ascii.compare c1 c2 = (JS.code c1 ?= JS.code c2).
Proof. unfold Ascii.compare, JS.code. by rewrite N2Z.inj_compare. Qed.

Lemma HHMM_inv t x :
  JS.minutes_of t = Some x ->
  exists h1 h2 c m1 m2,
    t = String h1 (String h2 (String c (String m1 (String m2 EmptyString)))) /\
    x = (10 * JS.digit_val h1 + JS.digit_val h2) * 60 + (10 * JS.digit_val m1 + JS.digit_val m2) /\
    JS.code c = 58 /\
    0 <= JS.digit_val h1 <= 9 /\ 0 <= JS.digit_val h2 <= 9 /\
    0 <= JS.digit_val m1 <= 5 /\ 0 <= JS.digit_val m2 <= 9.
Proof.
  unfold JS.minutes_of.
  destruct (JS.Date_2000_01_01T t) as [ms|] eqn:Hd; [|discriminate].
  intros [= <-]. unfold JS.Date_2000_01_01T in Hd.
  repeat case_match; try discriminate. injection Hd as <-. subst.
  rewrite Z.div_mul by lia.
  match goal with H : JS.matches_time _ = true |- _ =>
    unfold JS.matches_time, JS.is_minute, JS.is_hour, JS.is_colon in H;
    apply andb_true_iff in H as [[Hh Hc%Z.eqb_eq]%andb_true_iff
                                 [[Hm1 Hm1'%Z.leb_le]%andb_true_iff Hm2]%andb_true_iff]
  end.
  apply digit_val_bounds in Hm1, Hm2.
  do 5 eexists. split; [reflexivity|]. split; [reflexivity|]. split; [done|].
  apply orb_true_iff in Hh as [[[Hh1 Hh1'%Z.leb_le]%andb_true_iff Hh2]%andb_true_iff
                              | [[Hh1%Z.eqb_eq Hh2]%andb_true_iff Hh2'%Z.leb_le]%andb_true_iff].
  - apply digit_val_bounds in Hh1, Hh2. lia.
  - apply digit_val_bounds in Hh2. lia.
Qed.

Lemma str_lt_minutes a b x y :
  JS.minutes_of a = Some x -> JS.minutes_of b = Some y ->
  Booking.str_lt a b = true <-> x < y.
Proof.
  intros (a1 & a2 & a3 & a4 & a5 & -> & -> & Ha3 & ?)%HHMM_inv
         (b1 & b2 & b3 & b4 & b5 & -> & -> & Hb3 & ?)%HHMM_inv.
  unfold Booking.str_lt, JS.digit_val in *. simpl. rewrite !ascii_compare_code.
  rewrite Ha3, Hb3. simpl.
  destruct (Z.compare_spec (JS.code a1) (JS.code b1));
    [destruct (Z.compare_spec (JS.code a2) (JS.code b2));
     [destruct (Z.compare_spec (JS.code a4) (JS.code b4));
      [destruct (Z.compare_spec (JS.code a5) (JS.code b5))|..]|..]|..];
    split; intros; try discriminate; try reflexivity; lia.
Qed.

(** On ["HH:MM"] strings the query of [checkConflict] is the overlap of
    the half-open intervals of minutes. *)
Lemma conflict_overlap b startTime_ endTime_ s e s' e' :
  JS.minutes_of (Booking.startTime b) = Some s -> JS.minutes_of (Booking.endTime b) = Some e ->
  JS.minutes_of startTime_ = Some s' -> JS.minutes_of endTime_ = Some e' ->
  Booking.str_lt (Booking.startTime b) endTime_ = true /\
  Booking.str_lt startTime_ (Booking.endTime b) = true
  <-> s < e' /\ s' < e.
Proof.
  intros Hs He Hs' He'.
  by rewrite (str_lt_minutes _ _ _ _ Hs He'), (str_lt_minutes _ _ _ _ Hs' He).
Qed.

(** Byte order is not clock order once an hour has one digit. *)
Example str_lt_one_digit_hour :
  Booking.str_lt "10:00" "9:00" = true /\ JS.matches_time "9:00" = true.
Proof. split; reflexivity. Qed.

Example checkConflict_examples :
  is_Some (Booking.checkConflict (bookings Sample.st_pending) 0 86400000 "09:30" "10:30" None) /\
  Booking.checkConflict (bookings Sample.st_pending) 0 86400000 "10:00" "11:00" None = None /\
  Booking.checkConflict (bookings Sample.st_pending) 0 86400000 "08:00" "09:00" None = None.
Proof. vm_compute. eauto. Qed.

(** C7, at the failing input. The collection holds booking 0 of consultant
    0 on the date 86400000, pending, from 09:00 to 10:00. The slot from
    9:15 to 9:45 on that date, given by two strings that match the pattern
    of the schema, lies within it: the half-open intervals of minutes
    overlap, and the claim says that [checkConflict] reports the booking.
    The query compares the strings byte by byte, ["9:15" < "10:00"] is
    false, and [checkConflict] finds nothing. It finds the booking when the
    same slot is written 09:15 to 09:45. *)
Theorem checkConflict_misses_one_digit_hour :
  bookings Sample.st_pending !! 0%nat = Some Sample.pending_booking /\
  Booking.consultant Sample.pending_booking = 0%nat /\
  Booking.date Sample.pending_booking = 86400000 /\
  Booking.status Sample.pending_booking = pending /\
  clock_minutes (Booking.startTime Sample.pending_booking) = Some 540 /\
  clock_minutes (Booking.endTime Sample.pending_booking) = Some 600 /\
  JS.matches_time "9:15" = true /\ JS.matches_time "9:45" = true /\
  clock_minutes "9:15" = Some 555 /\ clock_minutes "9:45" = Some 585 /\
  540 < 585 /\ 555 < 600 /\
  Booking.checkConflict (bookings Sample.st_pending) 0 86400000 "9:15" "9:45" None = None /\
  is_Some (Booking.checkConflict (bookings Sample.st_pending) 0 86400000
             "09:15" "09:45" None).
Proof. vm_compute. repeat split; eauto. Qed.

(** ** The category hook without [_original] *)

(** With [_original] undefined the hook has no decrement: it adds one to
    every category of the new list when the list changed. *)
Lemma Consultant_pre_save_of_store c c' cats :
  Consultant.pre_save (Consultant.set_this c' (Consultant.of_store c)) cats
  = if bool_decide (Consultant.categories c' ≠ Consultant.categories c)
       && (0 <? length (Consultant.categories c'))%nat
    then Category.updateMany_inc (Consultant.categories c') 1 cats
    else cats.
Proof.
  unfold Consultant.pre_save, Consultant.isModified_categories. simpl.
  by repeat case_match.
Qed.

Lemma updateMany_inc_count ids delta cats k :
  Category.consultantCount <$> Category.updateMany_inc ids delta cats !! k
  = (fun c => if bool_decide (k ∈ ids)
              then Category.consultantCount c + delta
              else Category.consultantCount c) <$> cats !! k.
Proof.
  unfold Category.updateMany_inc. rewrite map_lookup_imap.
  destruct (cats !! k) as [c|]; simpl; [|done]. by case_bool_decide.
Qed.

Lemma update_never_decrements user id body st k n n' :
  Category.consultantCount <$> categories st !! k = Some n ->
  Category.consultantCount <$> categories (ConsultantRoutes.update user id body st).2 !! k
  = Some n' ->
  n <= n'.
Proof.
  unfold ConsultantRoutes.update. intros Hn.
  repeat case_match; simpl; try (rewrite Hn; intros [= <-]; lia).
  match goal with H : Consultant_save _ _ _ = Some _ |- _ =>
    apply Consultant_save_Some in H as (_ & _ & _ & ->) end.
  rewrite Consultant_pre_save_of_store. case_match.
  - rewrite updateMany_inc_count. destruct (categories st !! k); [|done].
    simpl in *. injection Hn as <-. intros [= <-].
    destruct (bool_decide (k ∈ _)); lia.
  - rewrite Hn. intros [= <-]. lia.
Qed.

(** ** Category names *)

Lemma Category_save_name id c st :
  Category.name <$> categories (Category_save id c st) !! id
  = Some (Category.normalize (Category.name c)).
Proof. unfold Category_save. simpl. by rewrite lookup_insert_eq. Qed.

Lemma new_ObjectId_fresh {A} (m : gmap nat A) : m !! new_ObjectId m = None.
Proof. apply not_elem_of_dom. unfold new_ObjectId. apply is_fresh. Qed.

Section CategoryNames.

Variable RegExp_i : string -> option (string -> bool).

(** On a source without special characters the engine compares the whole
    string, without regard to case. *)
Hypothesis RegExp_i_literal : forall n,
  regexp_literal n = true ->
  exists test, RegExp_i ("^" ++ n ++ "$") = Some test /\
               forall s, test s = String.eqb (JS.toLowerCase s) (JS.toLowerCase n).

Lemma findOne_by_name_found name k c cats :
  regexp_literal name = true ->
  cats !! k = Some c ->
  JS.toLowerCase (Category.name c) = JS.toLowerCase name ->
  exists found, CategoryRoutes.findOne_by_name RegExp_i name None cats = Some (Some found).
Proof.
  intros Hlit Hk Heq. unfold CategoryRoutes.findOne_by_name.
  destruct (RegExp_i_literal name Hlit) as (test & -> & Htest).
  match goal with |- context [findOne ?P cats] =>
    destruct (proj2 (findOne_is_Some P cats)) as [found Hf] end.
  - exists k, c. split; [done|]. rewrite Htest, Heq, String.eqb_refl. reflexivity.
  - rewrite Hf. eauto.
Qed.

(** C9, as amended. A creation by an admin with a valid body whose trimmed
    name has no special character of regular expressions is refused with
    400 (Conflict) whenever a stored category has that name up to case. On
    every successful creation, every successful update and every save, the
    stored name is the name that was submitted (trimmed), with its first
    character in upper case and all the others in lower case. *)
Theorem category_names :
  (forall user body st k c,
      role user = role_admin ->
      CategoryRoutes.create_valid body = true ->
      regexp_literal (JS.trim (CategoryRoutes.CreateBody.name body)) = true ->
      categories st !! k = Some c ->
      JS.toLowerCase (Category.name c)
      = JS.toLowerCase (JS.trim (CategoryRoutes.CreateBody.name body)) ->
      CategoryRoutes.create RegExp_i user body st
      = (json 400 false "Category with this name already exists", st)) /\
  (forall user body st,
      ok (CategoryRoutes.create RegExp_i user body st).1 ->
      exists id,
        categories st !! id = None /\
        Category.name <$> categories (CategoryRoutes.create RegExp_i user body st).2 !! id
        = Some (Category.normalize (JS.trim (CategoryRoutes.CreateBody.name body)))) /\
  (forall user id body st c,
      categories st !! id = Some c ->
      ok (CategoryRoutes.update RegExp_i user id body st).1 ->
      Category.name <$> categories (CategoryRoutes.update RegExp_i user id body st).2 !! id
      = Some (Category.normalize
                (default (Category.name c)
                         (JS.trim <$> CategoryRoutes.UpdateBody.name body)))) /\
  (forall id c st,
      Category.name <$> categories (Category_save id c st) !! id
      = Some (Category.normalize (Category.name c))).
Proof.
  split; [|split; [|split]].
  - intros user body st k c Hrole Hvalid Hlit Hk Heq.
    unfold CategoryRoutes.create. rewrite Hvalid, bool_decide_eq_true_2 by done. simpl.
    by destruct (findOne_by_name_found _ k c (categories st) Hlit Hk Heq) as [found ->].
  - intros user body st. unfold CategoryRoutes.create.
    repeat case_match; simpl; try done. intros _.
    exists (new_ObjectId (categories st)). split; [apply new_ObjectId_fresh|].
    apply Category_save_name.
  - intros user id body st c Hc. unfold CategoryRoutes.update. rewrite Hc.
    repeat case_match; simpl; try done; intros _; apply Category_save_name.
  - apply Category_save_name.
Qed.

End CategoryNames.

Lemma toLowerCase_app a b :
  JS.toLowerCase (a ++ b) = (JS.toLowerCase a ++ JS.toLowerCase b)%string.
Proof. induction a as [|c a IH]; simpl; [done | by rewrite IH]. Qed.

Lemma string_app_inv_tail a b c : (a ++ c = b ++ c)%string -> a = b.
Proof.
  intros H.
  assert (list_ascii_of_string (a ++ c) = list_ascii_of_string (b ++ c)) as Hl
    by (by rewrite H).
  assert (forall x y, list_ascii_of_string (x ++ y)
                      = list_ascii_of_string x ++ list_ascii_of_string y) as Happ.
  { intros x y. induction x as [|ch x IH]; simpl; [done | by rewrite IH]. }
  rewrite !Happ in Hl. apply app_inv_tail in Hl.
  rewrite <- (string_of_list_ascii_of_string a), <- (string_of_list_ascii_of_string b).
  by rewrite Hl.
Qed.

Lemma toLowerCase_anchored x :
  JS.toLowerCase ("^" ++ x ++ "$") = String "^" (JS.toLowerCase x ++ "$").
Proof.
  change ("^" ++ x ++ "$")%string with (String "^" (x ++ "$")).
  simpl. by rewrite toLowerCase_app.
Qed.

Lemma RegExp_i_anchored_literal n :
  regexp_literal n = true ->
  exists test, Sample.RegExp_i_anchored ("^" ++ n ++ "$") = Some test /\
               forall s, test s = String.eqb (JS.toLowerCase s) (JS.toLowerCase n).
Proof.
  intros _. eexists. split; [reflexivity|]. intros s.
  rewrite !toLowerCase_anchored.
  destruct (String.eqb_spec (JS.toLowerCase s) (JS.toLowerCase n)) as [-> | Hne].
  - apply String.eqb_refl.
  - apply String.eqb_neq. intros [= H]. by apply string_app_inv_tail in H.
Qed.

(** The engine of the examples is such an engine. *)
Lemma category_names_witness :
  CategoryRoutes.create Sample.RegExp_i_anchored Sample.root
                        (Sample.naming "  HEALTHCARE ") Sample.st_categories
  = (json 400 false "Category with this name already exists", Sample.st_categories).
Proof.
  apply (proj1 (category_names Sample.RegExp_i_anchored RegExp_i_anchored_literal)
           Sample.root (Sample.naming "  HEALTHCARE ") Sample.st_categories
           2%nat (Sample.category "Healthcare" 0)).
  - reflexivity.
  - vm_compute. reflexivity.
  - vm_compute. reflexivity.
  - vm_compute. reflexivity.
  - vm_compute. reflexivity.
Defined.

(** C9 fails as it is stated: the category "personal growth" is created
    and stored as "Personal growth", which is not its Title Case. *)
Lemma category_name_not_title_case :
  let r := CategoryRoutes.create Sample.RegExp_i_anchored Sample.root
             (Sample.naming "personal growth") Sample.st_categories in
  ok r.1 /\
  Category.name <$> categories r.2 !! 3%nat = Some "Personal growth"%string /\
  title_case "personal growth" = "Personal Growth"%string /\
  Category.name <$> categories r.2 !! 3%nat <> Some (title_case "personal growth").
Proof. vm_compute. repeat split; discriminate. Qed.

(** One word is its own Title Case. *)
Example category_name_one_word :
  Category.normalize "hEALTHCARE" = "Healthcare"%string /\
  title_case "hEALTHCARE" = "Healthcare"%string.
Proof. split; reflexivity. Qed.

(** * Further properties *)

(** ** Creation of a booking *)

Lemma validate_new_Booking now user body :
  create_valid body = true ->
  Booking.validate now (new_Booking user body) = (now <? CreateBody.date body).
Proof.
  unfold create_valid. rewrite !andb_true_iff.
  intros ((((Hs & He) & Hd) & Ha) & Hn).
  unfold Booking.validate, Booking.valid_at, new_Booking, Booking.new; simpl.
  rewrite Hs, He, Hd, Ha, Hn. unfold Booking.date_in_future. by rewrite !andb_true_r.
Qed.

Lemma create_ok now user body st :
  ok (create now user body st).1 ->
  Booking_save now (new_ObjectId (bookings st)) (new_Booking user body) st
  = Some (create now user body st).2.
Proof.
  unfold create. repeat case_match; simpl; try tauto; try discriminate.
Qed.

(** X1. POST /api/bookings answers with success exactly when the caller is
    a client, the body passes the validators of the route and the date is
    later than the clock; in every other case the store is left as it was. *)
Theorem create_accepts_iff now user body st :
  (ok (create now user body st).1 <->
   role user = role_client /\ create_valid body = true /\ now < CreateBody.date body) /\
  (~ ok (create now user body st).1 -> (create now user body st).2 = st).
Proof.
  unfold create, Booking_save.
  destruct (bool_decide (role user = role_client)) eqn:Hrole; simpl.
  2: { apply bool_decide_eq_false in Hrole. split; [|done]. split; [done|]. by intros (? & _). }
  apply bool_decide_eq_true in Hrole.
  destruct (create_valid body) eqn:Hvalid; simpl.
  2: { split; [|done]. split; [done|]. by intros (_ & ? & _). }
  rewrite (validate_new_Booking _ _ _ Hvalid).
  destruct (now <? CreateBody.date body) eqn:Hdate; simpl.
  - apply Z.ltb_lt in Hdate. split; [|done]. split; [done|]. by intros _.
  - apply Z.ltb_ge in Hdate. split; [|done]. split; [done|]. intros (_ & _ & ?). lia.
Qed.

Lemma written_fixed cs d :
  Booking.category (written cs d) = Booking.category (Booking.this d) /\
  Booking.date (written cs d) = Booking.date (Booking.this d) /\
  Booking.meetingType (written cs d) = Booking.meetingType (Booking.this d) /\
  Booking.notes (written cs d) = Booking.notes (Booking.this d) /\
  Booking.completedAt (written cs d) = Booking.completedAt (Booking.this d).
Proof. hook_cases; auto. Qed.

(** X2. A successful POST /api/bookings adds one booking under an id that
    the collection did not hold: its client is the caller, its status is
    pending, consultant, category, date, start time and duration are those
    of the body, it has no rating and no stamp, and its end time is the one
    the hook computes from start time and duration, whatever end time the
    body carried. *)
Theorem create_stores_pending_booking now user body st :
  ok (create now user body st).1 ->
  bookings st !! new_ObjectId (bookings st) = None /\
  exists b,
    bookings (create now user body st).2 = <[new_ObjectId (bookings st) := b]> (bookings st) /\
    Booking.client b = _id user /\
    Booking.status b = pending /\
    Booking.consultant b = CreateBody.consultant body /\
    Booking.category b = CreateBody.category body /\
    Booking.date b = CreateBody.date body /\
    Booking.startTime b = CreateBody.startTime body /\
    Booking.duration b = CreateBody.duration body /\
    Booking.endTime b
    = wall_clock_end (CreateBody.startTime body) (CreateBody.duration body) /\
    Booking.score (Booking.rating b) = None /\
    Booking.completedAt b = None /\
    Booking.cancelledAt b = None.
Proof.
  intros (_ & Hb & _)%create_ok%Booking_save_Some.
  split; [apply new_ObjectId_fresh|].
  eexists. split; [exact Hb|].
  rewrite written_client, written_status, written_consultant, written_startTime,
    written_duration, written_endTime, written_rating.
  destruct (written_fixed (consultants st) (new_Booking user body)) as (-> & -> & _ & _ & ->).
  destruct (written_cancellation (consultants st) (new_Booking user body)) as (_ & _ & ->).
  repeat split.
Qed.

Lemma create_stores_pending_booking_witness :
  bookings Sample.st_profile !! new_ObjectId (bookings Sample.st_profile) = None /\
  exists b,
    bookings (create 1000 Sample.alice (Sample.slot "09:00" 60) Sample.st_profile).2
    = <[new_ObjectId (bookings Sample.st_profile) := b]> (bookings Sample.st_profile) /\
    Booking.client b = _id Sample.alice /\
    Booking.status b = pending /\
    Booking.consultant b = CreateBody.consultant (Sample.slot "09:00" 60) /\
    Booking.category b = CreateBody.category (Sample.slot "09:00" 60) /\
    Booking.date b = CreateBody.date (Sample.slot "09:00" 60) /\
    Booking.startTime b = CreateBody.startTime (Sample.slot "09:00" 60) /\
    Booking.duration b = CreateBody.duration (Sample.slot "09:00" 60) /\
    Booking.endTime b
    = wall_clock_end (CreateBody.startTime (Sample.slot "09:00" 60))
                     (CreateBody.duration (Sample.slot "09:00" 60)) /\
    Booking.score (Booking.rating b) = None /\
    Booking.completedAt b = None /\
    Booking.cancelledAt b = None.
Proof.
  apply (create_stores_pending_booking 1000 Sample.alice (Sample.slot "09:00" 60)
                                       Sample.st_profile).
  vm_compute. reflexivity.
Defined.

(** X3. The response of the handler that creates a booking does not depend
    on the store: it is the same on every store. No conflict with a stored
    booking ([checkConflict] is not called) and no missing consultant or
    category makes it refuse, and a request that succeeded succeeds again
    on the store it left. *)
Theorem create_response_ignores_store now user body :
  (forall st st', (create now user body st).1 = (create now user body st').1) /\
  (forall st, ok (create now user body st).1 ->
              ok (create now user body (create now user body st).2).1).
Proof.
  assert (forall st st', (create now user body st).1 = (create now user body st').1) as H.
  { intros st st'. unfold create, Booking_save.
    destruct (negb (bool_decide (role user = role_client))); [reflexivity|].
    destruct (negb (create_valid body)); [reflexivity|].
    by destruct (Booking.validate now (new_Booking user body)). }
  split; [exact H|]. intros st Hok. by rewrite <- (H st).
Qed.

(** Two clients book the same consultant for the same slot: the second
    request succeeds although [checkConflict] reports the first booking. *)
Example double_booking :
  is_Some (Booking.checkConflict (bookings Sample.st_pending) 0 86400000 "09:00" "10:00" None) /\
  ok (create 1100 Sample.bob (Sample.slot "09:00" 60) Sample.st_pending).1.
Proof. split; vm_compute; eauto. Qed.

Lemma create_consultants now user body st :
  ok (create now user body st).1 ->
  consultants (create now user body st).2
  = alter Consultant.inc_totalBookings (CreateBody.consultant body) (consultants st) /\
  categories (create now user body st).2 = categories st.
Proof.
  intros (_ & _ & -> & ->)%create_ok%Booking_save_Some. split; [|done].
  destruct (hooks_keep_tracking (consultants st) (new_Booking user body)) as [Hl Ho].
  pose proof (written_status (consultants st) (new_Booking user body)) as Hs.
  pose proof (written_consultant (consultants st) (new_Booking user body)) as Hc.
  unfold written in Hs, Hc.
  destruct (Booking.pre_save_totalAmount _ _) as [t l o]. simpl in *. subst.
  unfold Booking.pre_save_counts, Booking.isNew, Booking.isModified, Booking.isModified_by,
    Booking.original_not_completed. simpl. by rewrite Hs, Hc.
Qed.

(** X4. A successful POST /api/bookings adds one to [totalBookings] of the
    consultant profile that the body names and changes nothing else of it;
    every other profile and every category stay as they were, and when no
    such profile exists none is made. *)
Theorem create_counts_one_booking now user body st :
  ok (create now user body st).1 ->
  (forall c, consultants st !! CreateBody.consultant body = Some c ->
     consultants (create now user body st).2 !! CreateBody.consultant body
     = Some (Consultant.inc_totalBookings c)) /\
  (forall cid, cid <> CreateBody.consultant body ->
     consultants (create now user body st).2 !! cid = consultants st !! cid) /\
  (consultants st !! CreateBody.consultant body = None ->
     consultants (create now user body st).2 = consultants st) /\
  categories (create now user body st).2 = categories st.
Proof.
  intros [-> ->]%create_consultants. repeat split.
  - intros c Hc. by rewrite lookup_alter_eq, Hc.
  - intros cid Hne. by rewrite lookup_alter_ne.
  - intros Hnone. apply map_eq. intros k.
    destruct (decide (k = CreateBody.consultant body)) as [->|Hne].
    + by rewrite lookup_alter_eq, Hnone.
    + by rewrite lookup_alter_ne.
Qed.

Lemma create_counts_one_booking_witness :
  (forall c, consultants Sample.st_profile !! 0%nat = Some c ->
     consultants (create 1000 Sample.alice (Sample.slot "09:00" 60) Sample.st_profile).2
       !! 0%nat
     = Some (Consultant.inc_totalBookings c)) /\
  (forall cid, cid <> 0%nat ->
     consultants (create 1000 Sample.alice (Sample.slot "09:00" 60) Sample.st_profile).2
       !! cid
     = consultants Sample.st_profile !! cid) /\
  (consultants Sample.st_profile !! 0%nat = None ->
     consultants (create 1000 Sample.alice (Sample.slot "09:00" 60) Sample.st_profile).2
     = consultants Sample.st_profile) /\
  categories (create 1000 Sample.alice (Sample.slot "09:00" 60) Sample.st_profile).2
  = categories Sample.st_profile.
Proof.
  apply (create_counts_one_booking 1000 Sample.alice (Sample.slot "09:00" 60)
                                   Sample.st_profile).
  vm_compute. reflexivity.
Defined.

(** X5. The amount of a new booking. An amount other than zero is stored
    as the body gave it. A zero amount is falsy for the hook, which then
    stores the hourly rate of the consultant times the duration over 60
    when the consultant profile exists, and leaves the zero otherwise. *)
Theorem create_totalAmount now user body st b :
  ok (create now user body st).1 ->
  bookings (create now user body st).2 !! new_ObjectId (bookings st) = Some b ->
  (~ (CreateBody.totalAmount body == 0)%Q ->
     Booking.totalAmount b = CreateBody.totalAmount body) /\
  (forall c, (CreateBody.totalAmount body == 0)%Q ->
     consultants st !! CreateBody.consultant body = Some c ->
     Booking.totalAmount b
     = (Consultant.hourlyRate c * inject_Z (CreateBody.duration body) / 60)%Q) /\
  ((CreateBody.totalAmount body == 0)%Q ->
     consultants st !! CreateBody.consultant body = None ->
     Booking.totalAmount b = CreateBody.totalAmount body).
Proof.
  intros (_ & Hb & _)%create_ok%Booking_save_Some. rewrite Hb, lookup_insert_eq.
  intros [= <-].
  unfold written, Booking.pre_save_totalAmount, Booking.pre_save_endTime. simpl.
  destruct (Qeq_bool (CreateBody.totalAmount body) 0) eqn:Hz.
  - apply Qeq_bool_iff in Hz. repeat split.
    + intros Hnz. by destruct Hnz.
    + intros c _ ->. reflexivity.
    + intros _ ->. reflexivity.
  - apply Qeq_bool_neq in Hz. repeat split. intros c Hnz. by destruct Hz.
Qed.

Lemma create_totalAmount_witness :
  (~ (CreateBody.totalAmount (Sample.slot "09:00" 60) == 0)%Q ->
     Booking.totalAmount Sample.pending_booking
     = CreateBody.totalAmount (Sample.slot "09:00" 60)) /\
  (forall c, (CreateBody.totalAmount (Sample.slot "09:00" 60) == 0)%Q ->
     consultants Sample.st_profile !! CreateBody.consultant (Sample.slot "09:00" 60) = Some c ->
     Booking.totalAmount Sample.pending_booking
     = (Consultant.hourlyRate c * inject_Z (CreateBody.duration (Sample.slot "09:00" 60)) / 60)%Q) /\
  ((CreateBody.totalAmount (Sample.slot "09:00" 60) == 0)%Q ->
     consultants Sample.st_profile !! CreateBody.consultant (Sample.slot "09:00" 60) = None ->
     Booking.totalAmount Sample.pending_booking
     = CreateBody.totalAmount (Sample.slot "09:00" 60)).
Proof.
  apply (create_totalAmount 1000 Sample.alice (Sample.slot "09:00" 60) Sample.st_profile
                            Sample.pending_booking).
  - vm_compute. reflexivity.
  - vm_compute. reflexivity.
Defined.

(** ** Status update by the consultant *)

Lemma validate_status_doc now who s note b :
  when_defined (maxlength 500) note = true -> Booking.valid_at now b = true ->
  Booking.validate now
    (Booking.set_this (apply_status now who s note b) (Booking.of_store b)) = true.
Proof.
  intros Hn Hv. unfold apply_status.
  destruct (JS.truthy_str note) eqn:Ht; destruct (bool_decide (s = completed));
    destruct (bool_decide (s = cancelled)); valid_paths Hv;
    try (destruct note as [n|]; [|discriminate]; simpl in * );
    auto 12.
Qed.

Lemma apply_status_same now who s note b : same_parties_and_slot b (apply_status now who s note b).
Proof. unfold apply_status, same_parties_and_slot. repeat case_match; simpl; auto 10. Qed.

Lemma apply_cancel_same now reason b : same_parties_and_slot b (apply_cancel now reason b).
Proof. unfold apply_cancel, same_parties_and_slot. repeat case_match; simpl; auto 10. Qed.

(** A save of a stored booking that keeps its slot succeeds only while
    the date is later than the clock and the stored end time is a clock
    time. *)
Lemma save_loaded_still_valid now id b b' st st' :
  Booking_save now id (Booking.set_this b' (Booking.of_store b)) st = Some st' ->
  same_parties_and_slot b b' ->
  now < Booking.date b /\ JS.matches_time (Booking.endTime b) = true.
Proof.
  intros (Hv & _)%Booking_save_Some (_ & _ & _ & Hd & _ & _ & He).
  unfold Booking.validate, Booking.valid_at, Booking.date_in_future in Hv.
  cbn [Booking.this Booking.set_this] in Hv. rewrite Hd, He in Hv.
  rewrite !andb_true_iff, Z.ltb_lt in Hv. tauto.
Qed.

Lemma apply_status_stamps now who s note b :
  (s = completed -> Booking.completedAt (apply_status now who s note b) = Some now) /\
  (s <> completed ->
   Booking.completedAt (apply_status now who s note b) = Booking.completedAt b) /\
  (s = cancelled ->
   Booking.cancelledBy (apply_status now who s note b) = Some who /\
   Booking.cancelledAt (apply_status now who s note b) = Some now) /\
  (s <> cancelled ->
   Booking.cancelledBy (apply_status now who s note b) = Booking.cancelledBy b /\
   Booking.cancelledAt (apply_status now who s note b) = Booking.cancelledAt b) /\
  (forall n, note = Some n -> n <> EmptyString ->
   Booking.notes_consultant (Booking.notes (apply_status now who s note b)) = Some n) /\
  (JS.truthy_str note = false ->
   Booking.notes (apply_status now who s note b) = Booking.notes b) /\
  Booking.rating (apply_status now who s note b) = Booking.rating b /\
  Booking.cancellationReason (apply_status now who s note b) = Booking.cancellationReason b.
Proof.
  unfold apply_status.
  repeat split; try intros n ->; intros; subst;
    repeat match goal with
           | |- context [bool_decide (?x = ?y)] => destruct (bool_decide_reflect (x = y))
           | |- context [JS.truthy_str ?n] => destruct (JS.truthy_str n) eqn:?
           end; simpl in *; try done.
  all: match goal with
       | H : negb (String.eqb ?n EmptyString) = false |- _ =>
           apply negb_false_iff, String.eqb_eq in H; done
       end.
Qed.

(** X6. PUT /api/bookings/:id/status on a stored booking. When the
    booking still passes the validation of its schema at the clock of the
    request, the handler answers with success exactly when the caller has
    the role consultant (an admin is refused), the body is valid, and the
    profile found for the caller is the consultant of the booking. On
    success the requested status is stored; [completedAt] is stamped for
    completed, [cancelledAt] and [cancelledBy = consultant] for cancelled;
    a stamp of an earlier state is never cleared; a non-empty note is
    stored and the rating is kept. When the date of the booking is not
    later than the clock, or its stored end time is not a clock time, no
    status update succeeds and the store is left as it was. *)
Theorem update_status_accepts_iff now user id body st b :
  bookings st !! id = Some b ->
  (Booking.valid_at now b = true ->
   (ok (update_status now user id body st).1 <->
    role user = role_consultant /\ status_valid body = true /\
    fst <$> findOne (fun _ c => bool_decide (Consultant.user c = _id user)) (consultants st)
    = Some (Booking.consultant b))) /\
  (ok (update_status now user id body st).1 ->
   exists b',
     bookings (update_status now user id body st).2 !! id = Some b' /\
     Booking.status b' = StatusBody.status body /\
     (StatusBody.status body = completed -> Booking.completedAt b' = Some now) /\
     (StatusBody.status body <> completed -> Booking.completedAt b' = Booking.completedAt b) /\
     (StatusBody.status body = cancelled ->
      Booking.cancelledBy b' = Some by_consultant /\ Booking.cancelledAt b' = Some now) /\
     (StatusBody.status body <> cancelled ->
      Booking.cancelledBy b' = Booking.cancelledBy b /\
      Booking.cancelledAt b' = Booking.cancelledAt b) /\
     (forall n, StatusBody.notes_consultant body = Some n -> n <> EmptyString ->
      Booking.notes_consultant (Booking.notes b') = Some n) /\
     Booking.rating b' = Booking.rating b) /\
  (Booking.date b <= now \/ JS.matches_time (Booking.endTime b) = false ->
   ~ ok (update_status now user id body st).1 /\
   (update_status now user id body st).2 = st).
Proof.
  intros Hb. split; [|split].
  3: { intros Hinvalid.
       destruct (update_status_store now user id body st) as [Hok | Heq].
       - exfalso.
         destruct (update_status_ok _ _ _ _ _ Hok) as (b0 & Hb0 & Hsave).
         rewrite Hb in Hb0. injection Hb0 as <-.
         apply save_loaded_still_valid in Hsave as [Hd He];
           [|apply apply_status_same].
         destruct Hinvalid as [?|Hne]; [lia|]. rewrite He in Hne. discriminate.
       - split; [|done]. intros Hok.
         destruct (update_status_ok _ _ _ _ _ Hok) as (b0 & Hb0 & Hsave).
         rewrite Hb in Hb0. injection Hb0 as <-.
         apply save_loaded_still_valid in Hsave as [Hd He];
           [|apply apply_status_same].
         destruct Hinvalid as [?|Hne]; [lia|]. rewrite He in Hne. discriminate. }
  - intros Hstill. unfold update_status. rewrite Hb.
    destruct (bool_decide (role user = role_consultant)) eqn:Hrole; cbn [negb].
    2: { apply bool_decide_eq_false in Hrole. split; [done|]. by intros (? & _). }
    apply bool_decide_eq_true in Hrole.
    destruct (status_valid body) eqn:Hvalid; cbn [negb].
    2: { split; [done|]. by intros (_ & ? & _). }
    destruct (findOne _ (consultants st)) as [[cid c]|]; cbn [not_the_consultant fmap option_fmap option_map fst].
    2: { split; [done|]. by intros (_ & _ & ?). }
    destruct (bool_decide (Booking.consultant b = cid)) eqn:Hcid; cbn [negb].
    2: { apply bool_decide_eq_false in Hcid. split; [done|].
         intros (_ & _ & [= ?]). by destruct Hcid. }
    apply bool_decide_eq_true in Hcid.
    unfold Booking_save. rewrite validate_status_doc.
    + cbn [fst ok json success]. split; [|done]. intros _. by rewrite Hcid.
    + unfold status_valid in Hvalid. by apply andb_true_iff in Hvalid as [_ ?].
    + exact Hstill.
  - intros (b0 & Hb0 & (_ & Hbks & _)%Booking_save_Some)%update_status_ok.
    rewrite Hb in Hb0. injection Hb0 as <-.
    eexists. split; [by rewrite Hbks, lookup_insert_eq|].
    rewrite written_status, written_rating.
    destruct (written_fixed (consultants st)
      (Booking.set_this (apply_status now by_consultant (StatusBody.status body)
                           (StatusBody.notes_consultant body) b) (Booking.of_store b)))
      as (_ & _ & _ & -> & ->).
    destruct (written_cancellation (consultants st)
      (Booking.set_this (apply_status now by_consultant (StatusBody.status body)
                           (StatusBody.notes_consultant body) b) (Booking.of_store b)))
      as (_ & -> & ->).
    cbn [Booking.this Booking.set_this].
    destruct (apply_status_stamps now by_consultant (StatusBody.status body)
                (StatusBody.notes_consultant body) b)
      as (H1 & H2 & H3 & H4 & H5 & _ & H7 & _).
    split; [apply apply_status_status|]. auto 10.
Qed.

Lemma update_status_accepts_iff_witness :
  (Booking.valid_at 2000 Sample.pending_booking = true ->
   (ok (update_status 2000 Sample.carl 0 (Sample.to completed) Sample.st_pending).1 <->
    role Sample.carl = role_consultant /\ status_valid (Sample.to completed) = true /\
    fst <$> findOne (fun _ c => bool_decide (Consultant.user c = _id Sample.carl))
                    (consultants Sample.st_pending)
    = Some (Booking.consultant Sample.pending_booking))) /\
  (ok (update_status 2000 Sample.carl 0 (Sample.to completed) Sample.st_pending).1 ->
   exists b',
     bookings (update_status 2000 Sample.carl 0 (Sample.to completed) Sample.st_pending).2
       !! 0%nat = Some b' /\
     Booking.status b' = StatusBody.status (Sample.to completed) /\
     (StatusBody.status (Sample.to completed) = completed ->
      Booking.completedAt b' = Some 2000) /\
     (StatusBody.status (Sample.to completed) <> completed ->
      Booking.completedAt b' = Booking.completedAt Sample.pending_booking) /\
     (StatusBody.status (Sample.to completed) = cancelled ->
      Booking.cancelledBy b' = Some by_consultant /\ Booking.cancelledAt b' = Some 2000) /\
     (StatusBody.status (Sample.to completed) <> cancelled ->
      Booking.cancelledBy b' = Booking.cancelledBy Sample.pending_booking /\
      Booking.cancelledAt b' = Booking.cancelledAt Sample.pending_booking) /\
     (forall n, StatusBody.notes_consultant (Sample.to completed) = Some n ->
      n <> EmptyString ->
      Booking.notes_consultant (Booking.notes b') = Some n) /\
     Booking.rating b' = Booking.rating Sample.pending_booking) /\
  (Booking.date Sample.pending_booking <= 2000
   \/ JS.matches_time (Booking.endTime Sample.pending_booking) = false ->
   ~ ok (update_status 2000 Sample.carl 0 (Sample.to completed) Sample.st_pending).1 /\
   (update_status 2000 Sample.carl 0 (Sample.to completed) Sample.st_pending).2
   = Sample.st_pending).
Proof.
  apply (update_status_accepts_iff 2000 Sample.carl 0 (Sample.to completed)
                                   Sample.st_pending Sample.pending_booking).
  vm_compute. reflexivity.
Defined.

(** ** What the requests keep *)

Lemma save_loaded_frame now id b b' st st' :
  Booking_save now id (Booking.set_this b' (Booking.of_store b)) st = Some st' ->
  bookings st'
  = <[id := written (consultants st) (Booking.set_this b' (Booking.of_store b))]> (bookings st) /\
  consultants st' = consultants st /\
  categories st' = categories st.
Proof.
  intros Hs. pose proof (save_loaded_consultants _ _ _ _ _ _ Hs) as Hc.
  apply Booking_save_Some in Hs as (_ & Hb & _ & Hcat). auto.
Qed.

Lemma written_same cs b b' :
  same_parties_and_slot b b' ->
  same_parties_and_slot b (written cs (Booking.set_this b' (Booking.of_store b))).
Proof.
  unfold same_parties_and_slot. intros (Hcl & Hco & Hca & Hd & Hs & Hdu & He).
  rewrite written_client, written_consultant, written_startTime, written_duration,
    written_endTime.
  destruct (written_fixed cs (Booking.set_this b' (Booking.of_store b))) as (-> & -> & _).
  unfold Booking.isModified, Booking.isModified_by. simpl.
  rewrite Hs, Hdu, !bool_decide_eq_true_2 by done. simpl. auto 10.
Qed.

(** The three shapes of the bookings after a request: as before, one more
    under a fresh id, or the named booking rewritten with its parties and
    slot. *)
Lemma handle_bookings now req st :
  bookings (handle now req st).2 = bookings st
  \/ (exists b1, target req = None /\
        bookings (handle now req st).2 = <[new_ObjectId (bookings st) := b1]> (bookings st))
  \/ (exists rid b0 b1,
        target req = Some rid /\ bookings st !! rid = Some b0 /\
        same_parties_and_slot b0 b1 /\
        bookings (handle now req st).2 = <[rid := b1]> (bookings st)).
Proof.
  assert (forall rid b0 b1 st',
            target req = Some rid -> bookings st !! rid = Some b0 ->
            same_parties_and_slot b0 b1 ->
            Booking_save now rid (Booking.set_this b1 (Booking.of_store b0)) st = Some st' ->
            exists rid b0 b1,
              target req = Some rid /\ bookings st !! rid = Some b0 /\
              same_parties_and_slot b0 b1 /\ bookings st' = <[rid := b1]> (bookings st))
    as Hsave.
  { intros rid b0 b1 st' Ht Hb Hsame (Hbks & _)%save_loaded_frame.
    exists rid, b0. eexists. split; [done|]. split; [done|].
    split; [by apply written_same | exact Hbks]. }
  destruct req as [user body | user id body | user id body
                  | user id body | user id body | user body | user id body]; simpl.
  - unfold create. repeat case_match; simpl; auto.
    match goal with H : Booking_save _ _ _ _ = Some _ |- _ =>
      apply Booking_save_Some in H as (_ & Hb & _) end.
    right. left. eauto.
  - unfold update_status. repeat case_match; simpl; auto.
    right. right. eapply Hsave; eauto using apply_status_same.
  - unfold admin_update_status. repeat case_match; simpl; auto.
    right. right. eapply Hsave; eauto using apply_status_same.
  - unfold cancel. repeat case_match; simpl; auto.
    right. right. eapply Hsave; eauto using apply_cancel_same.
  - unfold rate. repeat case_match; simpl; auto.
    all: right; right.
    all: try match goal with H : Consultant_save _ _ _ = Some _ |- _ =>
      apply Consultant_save_Some in H as (_ & -> & _) end.
    all: eapply Hsave; eauto; unfold same_parties_and_slot; simpl; auto 10.
  - unfold ConsultantRoutes.create. repeat case_match; simpl; auto.
    match goal with H : Consultant_save _ _ _ = Some _ |- _ =>
      apply Consultant_save_Some in H as (_ & Hb & _) end. auto.
  - unfold ConsultantRoutes.update. repeat case_match; simpl; auto.
    match goal with H : Consultant_save _ _ _ = Some _ |- _ =>
      apply Consultant_save_Some in H as (_ & Hb & _) end. auto.
Qed.

(** X7. No request deletes a booking, and none changes the parties or the
    slot of a stored one: after every request the booking is still there
    with the same client, consultant, category, date, start time, duration
    and end time. *)
Theorem booking_parties_and_slot_immutable now req st id b :
  bookings st !! id = Some b ->
  exists b', bookings (handle now req st).2 !! id = Some b' /\ same_parties_and_slot b b'.
Proof.
  intros Hb.
  assert (same_parties_and_slot b b) as Hrefl by (unfold same_parties_and_slot; auto 10).
  destruct (handle_bookings now req st)
    as [-> | [(b1 & _ & ->) | (rid & b0 & b1 & _ & Hb0 & Hsame & ->)]].
  - eauto.
  - exists b. split; [|done]. rewrite lookup_insert_ne; [done|].
    intros Heq. rewrite <- Heq, new_ObjectId_fresh in Hb. done.
  - destruct (decide (rid = id)) as [->|Hne].
    + rewrite Hb in Hb0. injection Hb0 as <-. exists b1. by rewrite lookup_insert_eq.
    + exists b. by rewrite lookup_insert_ne.
Qed.

Lemma booking_parties_and_slot_immutable_witness :
  exists b',
    bookings (handle 5000 (PUT_bookings_status Sample.carl 0 (Sample.to cancelled))
                     Sample.st_pending).2 !! 0%nat = Some b' /\
    same_parties_and_slot Sample.pending_booking b'.
Proof.
  apply (booking_parties_and_slot_immutable 5000
           (PUT_bookings_status Sample.carl 0 (Sample.to cancelled))
           Sample.st_pending 0%nat Sample.pending_booking).
  vm_compute. reflexivity.
Defined.

(** X8. A request that names a booking in its path (status update of the
    consultant or of the admin, cancel, rate) reads and writes that booking
    only: every other booking is left as it was and no booking is added. *)
Theorem named_booking_only now req st id k :
  target req = Some id -> k <> id ->
  bookings (handle now req st).2 !! k = bookings st !! k /\
  (is_Some (bookings (handle now req st).2 !! id) <-> is_Some (bookings st !! id)).
Proof.
  intros Ht Hne.
  destruct (handle_bookings now req st)
    as [-> | [(b1 & Hnone & _) | (rid & b0 & b1 & Hrid & Hb0 & _ & ->)]].
  - done.
  - congruence.
  - rewrite Ht in Hrid. injection Hrid as <-.
    rewrite lookup_insert_ne by done. rewrite lookup_insert_eq, Hb0. split; [done|].
    split; eauto.
Qed.

Lemma named_booking_only_witness :
  bookings (handle 5000 (POST_bookings_rate Sample.alice 0 (Sample.stars 5))
                   Sample.st_two_ratings).2 !! 1%nat
  = bookings Sample.st_two_ratings !! 1%nat /\
  (is_Some (bookings (handle 5000 (POST_bookings_rate Sample.alice 0 (Sample.stars 5))
                             Sample.st_two_ratings).2 !! 0%nat)
   <-> is_Some (bookings Sample.st_two_ratings !! 0%nat)).
Proof.
  apply (named_booking_only 5000 (POST_bookings_rate Sample.alice 0 (Sample.stars 5))
                            Sample.st_two_ratings 0%nat 1%nat).
  - reflexivity.
  - lia.
Defined.

(** ** The counters and the aggregate of a consultant *)

Lemma create_store now user body st :
  ok (create now user body st).1 \/ (create now user body st).2 = st.
Proof. unfold create. repeat case_match; simpl; auto. Qed.

Lemma cancel_keeps_consultants now user id body st :
  consultants (cancel now user id body st).2 = consultants st.
Proof.
  unfold cancel. repeat case_match; simpl; try done.
  by eapply save_loaded_consultants.
Qed.

Lemma Consultant_pre_save_same_categories c c' cats :
  Consultant.categories c' = Consultant.categories c ->
  Consultant.pre_save (Consultant.set_this c' (Consultant.of_store c)) cats = cats.
Proof.
  intros Heq. rewrite Consultant_pre_save_of_store.
  by rewrite (bool_decide_eq_false_2 _ (fun H => H Heq)).
Qed.

(** What [rate] writes besides the booking: nothing, or the rating of the
    profile of the booking's consultant. *)
Lemma rate_consultants now user id body st :
  categories (rate now user id body st).2 = categories st /\
  (consultants (rate now user id body st).2 = consultants st
   \/ exists b c r,
        bookings st !! id = Some b /\
        consultants st !! Booking.consultant b = Some c /\
        consultants (rate now user id body st).2
        = <[Booking.consultant b := Consultant.set_rating r c]> (consultants st)).
Proof.
  unfold rate. repeat case_match; simpl; auto.
  all: repeat match goal with
       | H : Booking_save _ _ _ _ = Some _ |- _ =>
           apply save_loaded_frame in H as (_ & Hc & Hcat)
       | H : Consultant_save _ _ _ = Some _ |- _ =>
           apply Consultant_save_Some in H as (_ & _ & Hc2 & Hcat2)
       end.
  - rewrite Hcat2, Consultant_pre_save_same_categories by done. split; [done|].
    right. do 3 eexists. split; [done|]. rewrite Hc2, Hc. split; [|done]. congruence.
  - rewrite Hcat, Hc. auto.
  - rewrite Hcat, Hc. auto.
Qed.

(** X9. No booking route ever changes [completedBookings] of a consultant:
    creating, updating the status (consultant or admin), cancelling and
    rating all leave it as it was, for every profile. [totalBookings]
    changes at creation only; the status updates and the cancellation
    write no consultant document at all. *)
Theorem booking_routes_keep_completedBookings now user id st :
  (forall body cid,
     Consultant.completedBookings <$> consultants (create now user body st).2 !! cid
     = Consultant.completedBookings <$> consultants st !! cid) /\
  (forall body, consultants (update_status now user id body st).2 = consultants st) /\
  (forall body, consultants (admin_update_status now user id body st).2 = consultants st) /\
  (forall body, consultants (cancel now user id body st).2 = consultants st) /\
  (forall body cid,
     Consultant.completedBookings <$> consultants (rate now user id body st).2 !! cid
     = Consultant.completedBookings <$> consultants st !! cid /\
     Consultant.totalBookings <$> consultants (rate now user id body st).2 !! cid
     = Consultant.totalBookings <$> consultants st !! cid).
Proof.
  split; [|split; [|split; [|split]]].
  - intros body cid. destruct (create_store now user body st) as [Hok | ->]; [|done].
    apply create_consultants in Hok as [-> _].
    destruct (decide (cid = CreateBody.consultant body)) as [->|Hne].
    + rewrite lookup_alter_eq. by destruct (consultants st !! _).
    + by rewrite lookup_alter_ne.
  - intros body. apply update_status_keeps_consultants.
  - intros body. apply admin_update_status_keeps_consultants.
  - intros body. apply cancel_keeps_consultants.
  - intros body cid.
    destruct (rate_consultants now user id body st)
      as [_ [-> | (b & c & r & _ & Hc & ->)]]; [done|].
    destruct (decide (cid = Booking.consultant b)) as [->|Hne].
    + by rewrite lookup_insert_eq, Hc.
    + by rewrite lookup_insert_ne.
Qed.

(** X10. Rating a booking changes, of all consultant documents, at most the
    [rating] of the profile of the booking's consultant: every profile
    stays in the collection with all its other paths, and the profile of
    any other consultant is left as it was. *)
Theorem rate_changes_rating_only now user id body st cid c :
  consultants st !! cid = Some c ->
  exists c',
    consultants (rate now user id body st).2 !! cid = Some c' /\
    c' = Consultant.set_rating (Consultant.rating c') c /\
    (forall b, bookings st !! id = Some b -> cid <> Booking.consultant b -> c' = c).
Proof.
  intros Hc.
  assert (c = Consultant.set_rating (Consultant.rating c) c) as Hid by by destruct c.
  destruct (rate_consultants now user id body st)
    as [_ [-> | (b & c0 & r & Hb & Hc0 & ->)]]; [by eauto|].
  destruct (decide (cid = Booking.consultant b)) as [->|Hne].
  - rewrite Hc in Hc0. injection Hc0 as <-. eexists. rewrite lookup_insert_eq.
    split; [done|]. split; [done|]. intros b' Hb'. rewrite Hb in Hb'. by injection Hb' as <-.
  - exists c. rewrite lookup_insert_ne by done. auto.
Qed.

Lemma rate_changes_rating_only_witness :
  exists c',
    consultants (rate 4000 Sample.alice 0 (Sample.stars 4) Sample.st_completed).2 !! 0%nat
    = Some c' /\
    c' = Consultant.set_rating (Consultant.rating c')
           (Consultant.inc_totalBookings
              (Consultant.this (ConsultantRoutes.new_Consultant Sample.carl
                                  (Sample.profile [1%nat])))) /\
    (forall b, bookings Sample.st_completed !! 0%nat = Some b ->
               0%nat <> Booking.consultant b ->
               c' = Consultant.inc_totalBookings
                      (Consultant.this (ConsultantRoutes.new_Consultant Sample.carl
                                          (Sample.profile [1%nat])))).
Proof.
  apply (rate_changes_rating_only 4000 Sample.alice 0 (Sample.stars 4) Sample.st_completed
           0%nat).
  vm_compute. reflexivity.
Defined.

(** ** Conflict detection with an excluded booking *)

Lemma findOne_Some {A} (P : nat -> A -> bool) (m : gmap nat A) k a :
  findOne P m = Some (k, a) -> m !! k = Some a /\ P k a = true.
Proof.
  unfold findOne. intros Hh.
  destruct (filter _ _) as [|[k' a'] l] eqn:E; [discriminate|].
  injection Hh as -> ->.
  assert ((k, a) ∈ filter (fun kv : nat * A => P kv.1 kv.2 = true) (map_to_list m)) as Hin
    by (rewrite E; left).
  apply list_elem_of_filter in Hin as [HP Hin]. by apply elem_of_map_to_list in Hin.
Qed.

Lemma conflicts_true consultantId date_ startTime_ endTime_ x id b :
  Booking.conflicts consultantId date_ startTime_ endTime_ x id b = true <->
  Booking.consultant b = consultantId /\
  Booking.date b = date_ /\
  Booking.status b <> cancelled /\ Booking.status b <> no_show /\
  Booking.str_lt (Booking.startTime b) endTime_ = true /\
  Booking.str_lt startTime_ (Booking.endTime b) = true /\
  x <> Some id.
Proof.
  unfold Booking.conflicts.
  rewrite !andb_true_iff, negb_true_iff, orb_false_iff, !bool_decide_eq_true,
    !bool_decide_eq_false.
  destruct x as [x|]; rewrite ?negb_true_iff, ?bool_decide_eq_false;
    intuition congruence.
Qed.

(** X11. [checkConflict] with an [excludeBookingId]. The document it
    returns is a stored booking other than the excluded one that satisfies
    the query; it returns one exactly when such a booking exists; and a
    conflict found with an exclusion is also found without. *)
Theorem checkConflict_excluding bks consultantId date_ startTime_ endTime_ x :
  (forall id b,
     Booking.checkConflict bks consultantId date_ startTime_ endTime_ (Some x) = Some (id, b) ->
     bks !! id = Some b /\ id <> x /\
     Booking.consultant b = consultantId /\ Booking.date b = date_ /\
     Booking.status b <> cancelled /\ Booking.status b <> no_show /\
     Booking.str_lt (Booking.startTime b) endTime_ = true /\
     Booking.str_lt startTime_ (Booking.endTime b) = true) /\
  (is_Some (Booking.checkConflict bks consultantId date_ startTime_ endTime_ (Some x)) <->
   exists id b,
     bks !! id = Some b /\ id <> x /\
     Booking.consultant b = consultantId /\ Booking.date b = date_ /\
     Booking.status b <> cancelled /\ Booking.status b <> no_show /\
     Booking.str_lt (Booking.startTime b) endTime_ = true /\
     Booking.str_lt startTime_ (Booking.endTime b) = true) /\
  (is_Some (Booking.checkConflict bks consultantId date_ startTime_ endTime_ (Some x)) ->
   is_Some (Booking.checkConflict bks consultantId date_ startTime_ endTime_ None)).
Proof.
  unfold Booking.checkConflict. split; [|split].
  - intros id b [Hb Hc]%findOne_Some. apply conflicts_true in Hc.
    intuition congruence.
  - rewrite findOne_is_Some. split.
    + intros (id & b & Hb & Hc). apply conflicts_true in Hc. exists id, b.
      intuition congruence.
    + intros (id & b & Hb & Hne & Hc). exists id, b. split; [done|].
      apply conflicts_true. intuition congruence.
  - rewrite !findOne_is_Some. intros (id & b & Hb & Hc). exists id, b. split; [done|].
    apply conflicts_true in Hc. apply conflicts_true. intuition congruence.
Qed.

(** X12. On a collection whose bookings carry ["HH:MM"] clock strings, and
    for a slot given by two such strings, [checkConflict] finds a booking
    exactly when one of that consultant on that date, neither cancelled nor
    no-show and other than the excluded one, overlaps the slot as a
    half-open interval of minutes: it starts before the slot ends and ends
    after the slot starts. Touching slots do not conflict. *)
Theorem checkConflict_interval_overlap bks consultantId date_ startTime_ endTime_ x s' e' :
  (forall id b, bks !! id = Some b ->
     is_Some (JS.minutes_of (Booking.startTime b)) /\
     is_Some (JS.minutes_of (Booking.endTime b))) ->
  JS.minutes_of startTime_ = Some s' -> JS.minutes_of endTime_ = Some e' ->
  is_Some (Booking.checkConflict bks consultantId date_ startTime_ endTime_ x) <->
  exists id b s e,
    bks !! id = Some b /\ x <> Some id /\
    Booking.consultant b = consultantId /\ Booking.date b = date_ /\
    Booking.status b <> cancelled /\ Booking.status b <> no_show /\
    JS.minutes_of (Booking.startTime b) = Some s /\
    JS.minutes_of (Booking.endTime b) = Some e /\
    s < e' /\ s' < e.
Proof.
  intros Hclock Hs' He'. unfold Booking.checkConflict. rewrite findOne_is_Some. split.
  - intros (id & b & Hb & Hc). apply conflicts_true in Hc.
    destruct (Hclock id b Hb) as [[s Hs] [e He]].
    exists id, b, s, e.
    rewrite (str_lt_minutes _ _ _ _ Hs He'), (str_lt_minutes _ _ _ _ Hs' He) in Hc.
    intuition.
  - intros (id & b & s & e & Hb & Hx & Hco & Hd & Hc1 & Hc2 & Hs & He & Hlt1 & Hlt2).
    exists id, b. split; [done|]. apply conflicts_true.
    rewrite (str_lt_minutes _ _ _ _ Hs He'), (str_lt_minutes _ _ _ _ Hs' He).
    intuition.
Qed.

Lemma checkConflict_interval_overlap_witness :
  is_Some (Booking.checkConflict (bookings Sample.st_pending) 0 86400000 "09:30" "10:30" None)
  <->
  exists id b s e,
    bookings Sample.st_pending !! id = Some b /\ None <> Some id /\
    Booking.consultant b = 0%nat /\ Booking.date b = 86400000 /\
    Booking.status b <> cancelled /\ Booking.status b <> no_show /\
    JS.minutes_of (Booking.startTime b) = Some s /\
    JS.minutes_of (Booking.endTime b) = Some e /\
    s < 630 /\ 570 < e.
Proof.
  apply (checkConflict_interval_overlap (bookings Sample.st_pending) 0 86400000
           "09:30" "10:30" None 570 630).
  - intros id b Hb.
    assert (id = 0%nat /\ b = Sample.pending_booking) as [-> ->].
    { destruct id as [|id].
      - split; [done|]. vm_compute in Hb. by injection Hb as <-.
      - exfalso. revert Hb.
        assert (bookings Sample.st_pending = {[ 0%nat := Sample.pending_booking ]}) as ->
          by (vm_compute; reflexivity).
        rewrite lookup_singleton_ne; [done|lia]. }
    split; eexists; vm_compute; reflexivity.
  - reflexivity.
  - reflexivity.
Defined.

(** ** The stored end time and the pattern of the schema *)

Lemma minutes_of_matches t x : JS.minutes_of t = Some x -> JS.matches_time t = true.
Proof.
  unfold JS.minutes_of, JS.Date_2000_01_01T.
  destruct t as [|h1 [|h2 [|c [|m1 [|m2 [|? ?]]]]]]; try discriminate.
  by destruct (JS.matches_time _).
Qed.

Lemma wall_clock_end_Inval t duration :
  JS.minutes_of t = None -> wall_clock_end t duration = "Inval"%string.
Proof.
  unfold JS.minutes_of, wall_clock_end. by destruct (JS.Date_2000_01_01T t).
Qed.

(** X13. In every store that the routes reach, the end time of a booking
    matches the clock pattern of the schema exactly when its start time has
    the two-digit form ["HH:MM"]: then the end time is such a string too;
    for a start time with a one-digit hour, which the validators admit, the
    stored end time is the text ["Inval"]. *)
Theorem stored_endTime_matches_pattern st id b :
  reachable st -> bookings st !! id = Some b ->
  (JS.matches_time (Booking.endTime b) = true <->
   is_Some (JS.minutes_of (Booking.startTime b))) /\
  (JS.minutes_of (Booking.startTime b) = None -> Booking.endTime b = "Inval"%string).
Proof.
  intros Hr Hb. destruct (reachable_inv st Hr id b Hb) as (-> & _ & _).
  destruct (JS.minutes_of (Booking.startTime b)) as [s|] eqn:Hs.
  - split; [|done]. split; [by eauto|]. intros _.
    eapply minutes_of_matches, wall_clock_end_minutes, Hs.
  - rewrite (wall_clock_end_Inval _ _ Hs). split; [|done].
    split; [discriminate|]. by intros [? ?].
Qed.

Lemma stored_endTime_matches_pattern_witness :
  (JS.matches_time (Booking.endTime Sample.pending_booking) = true <->
   is_Some (JS.minutes_of (Booking.startTime Sample.pending_booking))) /\
  (JS.minutes_of (Booking.startTime Sample.pending_booking) = None ->
   Booking.endTime Sample.pending_booking = "Inval"%string).
Proof.
  apply (stored_endTime_matches_pattern Sample.st_pending 0%nat Sample.pending_booking).
  - apply reachable_st_pending.
  - vm_compute. reflexivity.
Defined.

(** ** The normal form of a category name *)

Lemma upper_char_lower_char c : JS.upper_char (JS.lower_char c) = JS.upper_char c.
Proof. by destruct c as [[] [] [] [] [] [] [] []]. Qed.

Lemma upper_char_idemp c : JS.upper_char (JS.upper_char c) = JS.upper_char c.
Proof. by destruct c as [[] [] [] [] [] [] [] []]. Qed.

Lemma lower_char_idemp c : JS.lower_char (JS.lower_char c) = JS.lower_char c.
Proof. by destruct c as [[] [] [] [] [] [] [] []]. Qed.

Lemma lower_char_upper_char c : JS.lower_char (JS.upper_char c) = JS.lower_char c.
Proof. by destruct c as [[] [] [] [] [] [] [] []]. Qed.

Lemma toLowerCase_idemp s : JS.toLowerCase (JS.toLowerCase s) = JS.toLowerCase s.
Proof. induction s as [|c s IH]; simpl; [done|]. by rewrite lower_char_idemp, IH. Qed.

Lemma normalize_cons c s :
  Category.normalize (String c s) = String (JS.upper_char c) (JS.toLowerCase s).
Proof. reflexivity. Qed.

Lemma upper_char_ascii c :
  (JS.code c <? 128) = true -> (JS.code (JS.upper_char c) <? 128) = true.
Proof. by destruct c as [[] [] [] [] [] [] [] []]. Qed.

Lemma lower_char_ascii c :
  (JS.code c <? 128) = true -> (JS.code (JS.lower_char c) <? 128) = true.
Proof. by destruct c as [[] [] [] [] [] [] [] []]. Qed.

Lemma toLowerCase_ascii s : ascii_text s = true -> ascii_text (JS.toLowerCase s) = true.
Proof.
  unfold ascii_text. induction s as [|c s IH]; simpl; [done|].
  rewrite !andb_true_iff. intros [Hc Hs]. split; [by apply lower_char_ascii | by apply IH].
Qed.

(** X14. On a name of ASCII characters, the name that the pre-save hook of
    a category stores is a normal form for the comparison without regard to
    case: it is ASCII text again, normalizing twice is normalizing once,
    the normal form differs from the name by case only, and two such names
    that differ by case only have the same normal form. *)
Theorem normalize_canonical n m :
  ascii_text n = true -> ascii_text m = true ->
  ascii_text (Category.normalize n) = true /\
  Category.normalize (Category.normalize n) = Category.normalize n /\
  JS.toLowerCase (Category.normalize n) = JS.toLowerCase n /\
  (JS.toLowerCase n = JS.toLowerCase m -> Category.normalize n = Category.normalize m).
Proof.
  intros Hn Hm. split; [|split; [|split]].
  - destruct n as [|c s]; [done|]. rewrite normalize_cons.
    unfold ascii_text in *. simpl in *. apply andb_true_iff in Hn as [Hc Hs].
    apply andb_true_iff. split; [by apply upper_char_ascii | by apply toLowerCase_ascii].
  - destruct n as [|c s]; [done|].
    by rewrite !normalize_cons, upper_char_idemp, toLowerCase_idemp.
  - destruct n as [|c s]; [done|].
    rewrite normalize_cons. simpl. by rewrite lower_char_upper_char, toLowerCase_idemp.
  - destruct n as [|c s], m as [|c' s']; try done.
    simpl. intros [= Hc Hs]. rewrite !normalize_cons, Hs.
    by rewrite <- (upper_char_lower_char c), Hc, upper_char_lower_char.
Qed.

Lemma normalize_canonical_witness :
  ascii_text (Category.normalize "hEALTHCARE") = true /\
  Category.normalize (Category.normalize "hEALTHCARE") = Category.normalize "hEALTHCARE" /\
  JS.toLowerCase (Category.normalize "hEALTHCARE") = JS.toLowerCase "hEALTHCARE" /\
  (JS.toLowerCase "hEALTHCARE" = JS.toLowerCase "Healthcare" ->
   Category.normalize "hEALTHCARE" = Category.normalize "Healthcare").
Proof. apply (normalize_canonical "hEALTHCARE" "Healthcare"); reflexivity. Defined.

(** ** Deleting a category *)

(** X15. DELETE /api/categories/:id answers with success exactly when the
    caller is an admin and the category exists with a [consultantCount]
    that is not positive. On success that category is gone, every other
    category, every booking and every consultant profile are as before;
    in every other case the store is left as it was. *)
Theorem delete_category_guard user id st :
  (ok (DELETE_categories user id st).1 <->
   role user = role_admin /\
   exists c, categories st !! id = Some c /\ Category.consultantCount c <= 0) /\
  (ok (DELETE_categories user id st).1 ->
   categories (DELETE_categories user id st).2 !! id = None /\
   (forall k, k <> id ->
      categories (DELETE_categories user id st).2 !! k = categories st !! k) /\
   bookings (DELETE_categories user id st).2 = bookings st /\
   consultants (DELETE_categories user id st).2 = consultants st) /\
  (~ ok (DELETE_categories user id st).1 -> (DELETE_categories user id st).2 = st).
Proof.
  unfold DELETE_categories.
  destruct (bool_decide (role user = role_admin)) eqn:Hrole; simpl.
  2: { apply bool_decide_eq_false in Hrole. repeat split; try done. by intros (? & _). }
  apply bool_decide_eq_true in Hrole.
  destruct (categories st !! id) as [c|] eqn:Hc; simpl.
  2: { repeat split; try done. by intros (_ & ? & ? & _). }
  destruct (0 <? Category.consultantCount c) eqn:Hn; simpl.
  - apply Z.ltb_lt in Hn. repeat split; try done. intros (_ & c' & [= <-] & ?). lia.
  - apply Z.ltb_ge in Hn. repeat split; try done.
    + eauto.
    + apply lookup_delete_eq.
    + intros k Hk. by apply lookup_delete_ne.
Qed.

(** ** The counts of the categories *)

Lemma Consultant_pre_save_new c cats :
  Consultant.pre_save (Consultant.new c) cats
  = if (0 <? length (Consultant.categories c))%nat
    then Category.updateMany_inc (Consultant.categories c) 1 cats
    else cats.
Proof. reflexivity. Qed.

Lemma updateMany_inc_lookup ids delta cats k :
  Category.updateMany_inc ids delta cats !! k
  = (fun c => if bool_decide (k ∈ ids) then Category.inc_consultantCount delta c else c)
      <$> cats !! k.
Proof.
  unfold Category.updateMany_inc. rewrite map_lookup_imap.
  by destruct (cats !! k).
Qed.

(** The categories after a request: as before, or with the consultant
    count of some of them incremented. *)
Lemma handle_categories now req st :
  categories (handle now req st).2 = categories st
  \/ exists ids, categories (handle now req st).2
                 = Category.updateMany_inc ids 1 (categories st).
Proof.
  destruct req as [user body | user id body | user id body
                  | user id body | user id body | user body | user id body]; simpl.
  - destruct (create_store now user body st) as [Hok | ->]; [|by left].
    apply create_consultants in Hok as [_ ->]. by left.
  - unfold update_status. repeat case_match; simpl; auto.
    match goal with H : Booking_save _ _ _ _ = Some _ |- _ =>
      apply save_loaded_frame in H as (_ & _ & ->) end. by left.
  - unfold admin_update_status. repeat case_match; simpl; auto.
    match goal with H : Booking_save _ _ _ _ = Some _ |- _ =>
      apply save_loaded_frame in H as (_ & _ & ->) end. by left.
  - unfold cancel. repeat case_match; simpl; auto.
    match goal with H : Booking_save _ _ _ _ = Some _ |- _ =>
      apply save_loaded_frame in H as (_ & _ & ->) end. by left.
  - left. apply rate_consultants.
  - unfold ConsultantRoutes.create. repeat case_match; simpl; auto.
    match goal with H : Consultant_save _ _ _ = Some _ |- _ =>
      apply Consultant_save_Some in H as (_ & _ & _ & ->) end.
    unfold ConsultantRoutes.new_Consultant. rewrite Consultant_pre_save_new.
    case_match; eauto.
  - unfold ConsultantRoutes.update. repeat case_match; simpl; auto.
    match goal with H : Consultant_save _ _ _ = Some _ |- _ =>
      apply Consultant_save_Some in H as (_ & _ & _ & ->) end.
    rewrite Consultant_pre_save_of_store. case_match; eauto.
Qed.

Lemma after_consultantCount reqs : forall st id c,
  categories st !! id = Some c ->
  exists c', categories (after reqs st) !! id = Some c' /\
             Category.consultantCount c <= Category.consultantCount c'.
Proof.
  induction reqs as [|[now req] reqs IH]; intros st id c Hc; simpl.
  - exists c. split; [done|lia].
  - destruct (handle_categories now req st) as [Heq | [ids Heq]].
    + destruct (IH (handle now req st).2 id c) as (c' & ? & ?); [by rewrite Heq|]. eauto.
    + destruct (IH (handle now req st).2 id
                   (if bool_decide (id ∈ ids) then Category.inc_consultantCount 1 c else c))
        as (c' & ? & Hle).
      { by rewrite Heq, updateMany_inc_lookup, Hc. }
      exists c'. split; [done|]. etrans; [|exact Hle]. case_match; simpl; lia.
Qed.

(** X16. The consultant count of a category never goes down: after any
    sequence of booking and consultant requests, with bodies of the keys
    that the routes validate, it is at least what it was. So a category
    that a consultant profile has once listed (a positive count) can never
    be deleted afterwards, also when no profile lists it any more: DELETE
    is refused and leaves the store as it is. *)
Theorem listed_category_stays_undeletable reqs st user id c :
  categories st !! id = Some c -> 0 < Category.consultantCount c ->
  (exists c', categories (after reqs st) !! id = Some c' /\
              Category.consultantCount c <= Category.consultantCount c') /\
  ~ ok (DELETE_categories user id (after reqs st)).1 /\
  (DELETE_categories user id (after reqs st)).2 = after reqs st.
Proof.
  intros Hc Hpos. destruct (after_consultantCount reqs st id c Hc) as (c' & Hc' & Hle).
  split; [by eauto|].
  unfold DELETE_categories. rewrite Hc'.
  assert ((0 <? Category.consultantCount c') = true) as -> by (apply Z.ltb_lt; lia).
  by destruct (negb _).
Qed.

Lemma listed_category_stays_undeletable_witness :
  (exists c',
     categories (after [(100, PUT_consultants Sample.carl 0 (Sample.only_categories [2%nat]))]
                       Sample.st_profile) !! 1%nat = Some c' /\
     Category.consultantCount (Sample.category "Businesses" 1)
     <= Category.consultantCount c') /\
  ~ ok (DELETE_categories Sample.root 1
          (after [(100, PUT_consultants Sample.carl 0 (Sample.only_categories [2%nat]))]
                 Sample.st_profile)).1 /\
  (DELETE_categories Sample.root 1
     (after [(100, PUT_consultants Sample.carl 0 (Sample.only_categories [2%nat]))]
            Sample.st_profile)).2
  = after [(100, PUT_consultants Sample.carl 0 (Sample.only_categories [2%nat]))]
          Sample.st_profile.
Proof.
  apply (listed_category_stays_undeletable
           [(100, PUT_consultants Sample.carl 0 (Sample.only_categories [2%nat]))]
           Sample.st_profile Sample.root 1%nat (Sample.category "Businesses" 1)).
  - vm_compute. reflexivity.
  - reflexivity.
Defined.

(** X17. No booking or consultant request writes [bookingCount] of a
    category, the number that the virtual [totalBookings] of a category
    reports: creating a booking in a category leaves it as it was, as
    every other request does. *)
Theorem bookingCount_never_written now req st k :
  Category.bookingCount <$> categories (handle now req st).2 !! k
  = Category.bookingCount <$> categories st !! k.
Proof.
  destruct (handle_categories now req st) as [-> | [ids ->]]; [done|].
  rewrite updateMany_inc_lookup. destruct (categories st !! k); [|done].
  simpl. by case_match.
Qed.

(** ** Consultant profiles *)

Lemma findOne_None {A} (P : nat -> A -> bool) (m : gmap nat A) :
  findOne P m = None <-> forall k a, m !! k = Some a -> P k a = false.
Proof.
  rewrite eq_None_not_Some, findOne_is_Some. split.
  - intros Hno k a Hm. destruct (P k a) eqn:HP; [|done]. destruct Hno. eauto.
  - intros Hall (k & a & Hm & HP). by rewrite (Hall k a Hm) in HP.
Qed.

Lemma consultant_create_ok user body st :
  ok (ConsultantRoutes.create user body st).1 ->
  ConsultantRoutes.create_valid body = true /\
  Consultant_save (new_ObjectId (consultants st)) (ConsultantRoutes.new_Consultant user body) st
  = Some (ConsultantRoutes.create user body st).2.
Proof.
  unfold ConsultantRoutes.create. repeat case_match; simpl; try tauto; try discriminate.
  intros _. split; [|done]. by apply negb_false_iff.
Qed.

(** X18. POST /api/consultants answers with success exactly when the caller
    has the role consultant, the body passes the validators of the route,
    every language of the body is, once trimmed, one of the enum of the
    schema, and no stored profile belongs to the caller; otherwise the
    store is left as it was. After a success every further creation by the
    same caller is refused with 'Consultant profile already exists'. *)
Theorem consultant_create_once user body st :
  (ok (ConsultantRoutes.create user body st).1 <->
   role user = role_consultant /\ ConsultantRoutes.create_valid body = true /\
   Consultant.valid_languages (ConsultantRoutes.new_languages body) = true /\
   forall k c, consultants st !! k = Some c -> Consultant.user c <> _id user) /\
  (~ ok (ConsultantRoutes.create user body st).1 ->
   (ConsultantRoutes.create user body st).2 = st) /\
  (ok (ConsultantRoutes.create user body st).1 ->
   forall body', ConsultantRoutes.create_valid body' = true ->
     ConsultantRoutes.create user body' (ConsultantRoutes.create user body st).2
     = (json 400 false "Consultant profile already exists",
        (ConsultantRoutes.create user body st).2)).
Proof.
  split; [|split].
  - unfold ConsultantRoutes.create.
    destruct (bool_decide (role user = role_consultant)) eqn:Hrole; cbn [negb].
    2: { apply bool_decide_eq_false in Hrole. split; [done|]. by intros (? & _). }
    apply bool_decide_eq_true in Hrole.
    destruct (ConsultantRoutes.create_valid body) eqn:Hvalid; cbn [negb].
    2: { split; [done|]. by intros (_ & ? & _). }
    destruct (findOne _ (consultants st)) as [[k c]|] eqn:Hfind.
    + split; [done|]. intros (_ & _ & _ & Hno).
      apply findOne_Some in Hfind as [Hk Hu%bool_decide_eq_true]. by destruct (Hno k c Hk).
    + destruct (Consultant.valid_languages (ConsultantRoutes.new_languages body)) eqn:Hl;
        cbn [negb].
      2: { split; [done|]. by intros (_ & _ & ? & _). }
      split; [|done]. intros _. split; [done|]. split; [done|]. split; [done|].
      intros k c Hk Hu. rewrite findOne_None in Hfind.
      specialize (Hfind k c Hk). by apply bool_decide_eq_false in Hfind.
  - unfold ConsultantRoutes.create. repeat case_match; simpl; done.
  - intros Hok body' Hvalid'.
    pose proof Hok as [_ (_ & _ & Hc & _)%Consultant_save_Some]%consultant_create_ok.
    assert (role user = role_consultant) as Hrole.
    { revert Hok. unfold ConsultantRoutes.create.
      destruct (bool_decide_reflect (role user = role_consultant)); [done|]. simpl. done. }
    unfold ConsultantRoutes.create at 1.
    rewrite (bool_decide_eq_true_2 _ Hrole), Hvalid'. cbn [negb].
    destruct (findOne _ _) as [?|] eqn:Hfind; [done|].
    rewrite findOne_None in Hfind.
    specialize (Hfind (new_ObjectId (consultants st))
                      (Consultant.this (ConsultantRoutes.new_Consultant user body))).
    rewrite Hc, lookup_insert_eq in Hfind. specialize (Hfind eq_refl).
    simpl in Hfind. by rewrite bool_decide_eq_true_2 in Hfind.
Qed.

(** A language outside the enum passes the route and is refused by
    [save]. *)
Example consultant_create_languages :
  let urdu :=
    {| ConsultantRoutes.CreateBody.categories := [1%nat];
       ConsultantRoutes.CreateBody.bio := Sample.bio;
       ConsultantRoutes.CreateBody.experience := 15;
       ConsultantRoutes.CreateBody.hourlyRate := 120;
       ConsultantRoutes.CreateBody.languages := Some ["Urdu"%string] |} in
  ConsultantRoutes.create_valid urdu = true /\
  ConsultantRoutes.create Sample.carl urdu Sample.st_categories
  = (Thrown MongooseValidationError, Sample.st_categories) /\
  ok (ConsultantRoutes.create Sample.carl (Sample.profile [1%nat]) Sample.st_categories).1.
Proof. vm_compute. auto. Qed.

(** X19. A successful POST /api/consultants stores the profile under an id
    that the collection did not hold, with no rating, not verified, active
    and with both counters at zero, and adds one to the consultant count of
    every category that the body lists, once for each category however
    often the list repeats it; a listed id that names no category is
    accepted and creates none. *)
Theorem consultant_create_counts_categories user body st :
  ok (ConsultantRoutes.create user body st).1 ->
  consultants st !! new_ObjectId (consultants st) = None /\
  consultants (ConsultantRoutes.create user body st).2
  = <[new_ObjectId (consultants st) :=
        Consultant.this (ConsultantRoutes.new_Consultant user body)]> (consultants st) /\
  bookings (ConsultantRoutes.create user body st).2 = bookings st /\
  forall k,
    Category.consultantCount <$> categories (ConsultantRoutes.create user body st).2 !! k
    = (fun c => if bool_decide (k ∈ ConsultantRoutes.CreateBody.categories body)
                then Category.consultantCount c + 1
                else Category.consultantCount c) <$> categories st !! k.
Proof.
  intros [Hvalid (_ & Hb & Hc & Hcat)%Consultant_save_Some]%consultant_create_ok.
  split; [apply new_ObjectId_fresh|]. split; [done|]. split; [done|].
  intros k. rewrite Hcat. unfold ConsultantRoutes.new_Consultant.
  rewrite Consultant_pre_save_new. simpl.
  unfold ConsultantRoutes.create_valid in Hvalid.
  rewrite !andb_true_iff in Hvalid. destruct Hvalid as (((Hlen & _) & _) & _).
  apply Nat.leb_le in Hlen.
  assert ((0 <? length (ConsultantRoutes.CreateBody.categories body))%nat = true) as ->
    by (apply Nat.ltb_lt; lia).
  apply updateMany_inc_count.
Qed.

Lemma consultant_create_counts_categories_witness :
  consultants Sample.st_categories !! new_ObjectId (consultants Sample.st_categories) = None /\
  consultants (ConsultantRoutes.create Sample.carl (Sample.profile [1%nat; 1%nat])
                                       Sample.st_categories).2
  = <[new_ObjectId (consultants Sample.st_categories) :=
        Consultant.this (ConsultantRoutes.new_Consultant Sample.carl
                           (Sample.profile [1%nat; 1%nat]))]>
      (consultants Sample.st_categories) /\
  bookings (ConsultantRoutes.create Sample.carl (Sample.profile [1%nat; 1%nat])
                                    Sample.st_categories).2
  = bookings Sample.st_categories /\
  forall k,
    Category.consultantCount <$>
      categories (ConsultantRoutes.create Sample.carl (Sample.profile [1%nat; 1%nat])
                                          Sample.st_categories).2 !! k
    = (fun c => if bool_decide
                     (k ∈ ConsultantRoutes.CreateBody.categories (Sample.profile [1%nat; 1%nat]))
                then Category.consultantCount c + 1
                else Category.consultantCount c) <$> categories Sample.st_categories !! k.
Proof.
  apply (consultant_create_counts_categories Sample.carl (Sample.profile [1%nat; 1%nat])
                                             Sample.st_categories).
  vm_compute. reflexivity.
Defined.

(** X20. PUT /api/consultants/:id is open to the admin and to the user of
    the profile only: a success implies one of the two, and any other
    caller is refused and leaves the store as it was, with 403 'Access
    denied' once the body is valid. *)
Theorem consultant_update_access user id body st c :
  consultants st !! id = Some c ->
  (ok (ConsultantRoutes.update user id body st).1 ->
   role user = role_admin \/ Consultant.user c = _id user) /\
  (role user <> role_admin -> Consultant.user c <> _id user ->
   (ConsultantRoutes.update user id body st).2 = st /\
   (ConsultantRoutes.update_valid body = true ->
    (ConsultantRoutes.update user id body st).1 = json 403 false "Access denied")).
Proof.
  intros Hc. unfold ConsultantRoutes.update. rewrite Hc.
  destruct (ConsultantRoutes.update_valid body); simpl.
  2: { split; [done|]. intros _ _. split; [done|discriminate]. }
  destruct (bool_decide_reflect (role user = role_admin)) as [Hr|Hr];
    destruct (bool_decide_reflect (Consultant.user c = _id user)) as [Hu|Hu]; simpl;
    try (split; [by auto|]; intros; by exfalso; auto).
  split; [done|]. auto.
Qed.

Lemma consultant_update_access_witness :
  (ok (ConsultantRoutes.update Sample.alice 0 (Sample.only_categories [2%nat])
                               Sample.st_profile).1 ->
   role Sample.alice = role_admin
   \/ Consultant.user (Consultant.this (ConsultantRoutes.new_Consultant Sample.carl
                                          (Sample.profile [1%nat])))
      = _id Sample.alice) /\
  (role Sample.alice <> role_admin ->
   Consultant.user (Consultant.this (ConsultantRoutes.new_Consultant Sample.carl
                                       (Sample.profile [1%nat])))
   <> _id Sample.alice ->
   (ConsultantRoutes.update Sample.alice 0 (Sample.only_categories [2%nat])
                            Sample.st_profile).2 = Sample.st_profile /\
   (ConsultantRoutes.update_valid (Sample.only_categories [2%nat]) = true ->
    (ConsultantRoutes.update Sample.alice 0 (Sample.only_categories [2%nat])
                             Sample.st_profile).1 = json 403 false "Access denied")).
Proof.
  apply (consultant_update_access Sample.alice 0 (Sample.only_categories [2%nat])
                                  Sample.st_profile).
  vm_compute. reflexivity.
Defined.

(** X21. The consultant counts of the categories move only when a save
    changes the list of categories of a profile: an update whose body has
    no [categories], or carries the stored list again, the verification by
    the admin and the rating of a booking leave every category as it
    was. *)
Theorem category_counts_move_with_categories_only now user id st :
  (forall body, ConsultantRoutes.UpdateBody.categories body = None ->
     categories (ConsultantRoutes.update user id body st).2 = categories st) /\
  (forall body c, consultants st !! id = Some c ->
     ConsultantRoutes.UpdateBody.categories body = Some (Consultant.categories c) ->
     categories (ConsultantRoutes.update user id body st).2 = categories st) /\
  (forall isVerified,
     categories (PUT_admin_consultants_verify user id isVerified st).2 = categories st) /\
  (forall body, categories (rate now user id body st).2 = categories st).
Proof.
  split; [|split; [|split]].
  - intros body Hnone. unfold ConsultantRoutes.update. repeat case_match; simpl; try done.
    match goal with H : Consultant_save _ _ _ = Some _ |- _ =>
      apply Consultant_save_Some in H as (_ & _ & _ & ->) end.
    apply Consultant_pre_save_same_categories. simpl. by rewrite Hnone.
  - intros body c Hc Hsame. unfold ConsultantRoutes.update. rewrite Hc.
    repeat case_match; simpl; try done.
    match goal with H : Consultant_save _ _ _ = Some _ |- _ =>
      apply Consultant_save_Some in H as (_ & _ & _ & ->) end.
    apply Consultant_pre_save_same_categories. simpl. by rewrite Hsame.
  - intros v. unfold PUT_admin_consultants_verify. repeat case_match; simpl; try done.
    all: match goal with H : Consultant_save _ _ _ = Some _ |- _ =>
           apply Consultant_save_Some in H as (_ & _ & _ & ->) end.
    all: by apply Consultant_pre_save_same_categories.
  - intros body. apply rate_consultants.
Qed.

(** ** Virtual properties of a consultant *)

Lemma Math_round_percentage c t :
  0 < t ->
  Math_round (inject_Z c / inject_Z t * 100) = (200 * c + t) / (2 * t).
Proof.
  intros Ht. destruct t as [|p|p]; try lia.
  unfold Math_round, Qfloor, Qplus, Qmult, Qdiv, Qinv, inject_Z. simpl.
  f_equal; lia.
Qed.

(** X22. [completionRate] of a profile whose completed bookings are between
    zero and its total bookings is a percentage: an integer from 0 to 100,
    0 when nothing is completed (and when there is no booking at all), 100
    when every booking is completed. *)
Theorem completionRate_percentage c :
  0 <= Consultant.completedBookings c <= Consultant.totalBookings c ->
  0 <= completionRate c <= 100 /\
  (Consultant.completedBookings c = 0 -> completionRate c = 0) /\
  (0 < Consultant.totalBookings c ->
   Consultant.completedBookings c = Consultant.totalBookings c -> completionRate c = 100).
Proof.
  intros Hc. unfold completionRate.
  destruct (Z.eqb_spec (Consultant.totalBookings c) 0) as [Hz|Hnz].
  - split; [lia|]. split; [done|]. lia.
  - rewrite Math_round_percentage by lia.
    set (n := Consultant.completedBookings c) in *.
    set (t := Consultant.totalBookings c) in *.
    split; [|split].
    + split.
      * apply Z.div_pos; lia.
      * apply Z.lt_succ_r. apply Z.div_lt_upper_bound; lia.
    + intros ->. apply Z.div_small. lia.
    + intros _ ->. apply Z.le_antisymm.
      * apply Z.lt_succ_r. apply Z.div_lt_upper_bound; lia.
      * apply Z.div_le_lower_bound; lia.
Qed.

Lemma completionRate_percentage_witness :
  0 <= completionRate (Consultant.inc_completedBookings Sample.rated_profile) <= 100 /\
  (Consultant.completedBookings (Consultant.inc_completedBookings Sample.rated_profile) = 0 ->
   completionRate (Consultant.inc_completedBookings Sample.rated_profile) = 0) /\
  (0 < Consultant.totalBookings (Consultant.inc_completedBookings Sample.rated_profile) ->
   Consultant.completedBookings (Consultant.inc_completedBookings Sample.rated_profile)
   = Consultant.totalBookings (Consultant.inc_completedBookings Sample.rated_profile) ->
   completionRate (Consultant.inc_completedBookings Sample.rated_profile) = 100).
Proof.
  apply (completionRate_percentage (Consultant.inc_completedBookings Sample.rated_profile)).
  vm_compute. split; discriminate.
Defined.

Lemma str_le_minutes a b x y :
  JS.minutes_of a = Some x -> JS.minutes_of b = Some y ->
  str_le a b = true <-> x <= y.
Proof.
  intros Ha Hb. unfold str_le. rewrite negb_true_iff.
  pose proof (str_lt_minutes b a y x Hb Ha) as H.
  destruct (Booking.str_lt b a).
  - split; [done|]. intros. assert (y < x) by by apply H. lia.
  - split; [|done]. intros _. destruct (Z.le_gt_cases x y) as [?|Hlt]; [done|].
    assert (false = true) by (apply H; lia). done.
Qed.

(** X23. [isCurrentlyAvailable] for a day whose window is given by two
    ["HH:MM"] strings: the consultant is available exactly when the day is
    marked available and the minute of the clock lies in the window, both
    ends included; a window whose end is before its start admits no
    time. *)
Theorem isCurrentlyAvailable_window a getDay now d s e :
  dayAvailability getDay a = Some d ->
  JS.minutes_of (Availability.startTime d) = Some s ->
  JS.minutes_of (Availability.endTime d) = Some e ->
  (isCurrentlyAvailable a getDay now = true <->
   Availability.isAvailable d = true /\ s <= (now / 60000) mod 1440 <= e) /\
  (e < s -> isCurrentlyAvailable a getDay now = false).
Proof.
  intros Hd Hs He.
  assert (isCurrentlyAvailable a getDay now = true <->
          Availability.isAvailable d = true /\ s <= (now / 60000) mod 1440 <= e) as Hiff.
  { unfold isCurrentlyAvailable. rewrite Hd.
    destruct (Availability.isAvailable d); simpl; [|by split; [|intros [? _]]].
    rewrite andb_true_iff. unfold str_ge.
    change (negb (Booking.str_lt ?x ?y)) with (str_le y x).
    rewrite (str_le_minutes _ _ _ _ Hs (minutes_of_toTimeString now)),
      (str_le_minutes _ _ _ _ (minutes_of_toTimeString now) He).
    tauto. }
  split; [exact Hiff|]. intros Hlt.
  destruct (isCurrentlyAvailable a getDay now); [|done].
  assert (s <= (now / 60000) mod 1440 <= e) by by apply Hiff. lia.
Qed.

Lemma isCurrentlyAvailable_window_witness :
  (isCurrentlyAvailable Week.weekdays 1 61200000 = true <->
   Availability.isAvailable Week.office_hours = true
   /\ 540 <= (61200000 / 60000) mod 1440 <= 1020) /\
  (1020 < 540 -> isCurrentlyAvailable Week.weekdays 1 61200000 = false).
Proof.
  apply (isCurrentlyAvailable_window Week.weekdays 1 61200000 Week.office_hours 540 1020);
    reflexivity.
Defined.

Example isCurrentlyAvailable_examples :
  isCurrentlyAvailable Week.weekdays 1 (9 * 3600000) = true /\
  isCurrentlyAvailable Week.weekdays 1 (17 * 3600000 + 59999) = true /\
  isCurrentlyAvailable Week.weekdays 1 (17 * 3600000 + 60000) = false /\
  isCurrentlyAvailable Week.weekdays 6 (12 * 3600000) = false.
Proof. repeat split; reflexivity. Qed.

(** ** Verification of a consultant by the admin *)

(** X24. PUT /api/admin/consultants/:id/verify on a stored profile whose
    average rating is a number within the bounds of the schema answers with
    success for an admin and stores the profile with [isVerified] set to
    the value of the body and every other path as it was; every other
    profile, the bookings and the categories are untouched. Any other
    caller is refused with 403 and the store is left as it was. *)
Theorem verify_sets_isVerified_only user id isVerified st c :
  consultants st !! id = Some c ->
  Consultant.valid_average (Consultant.average (Consultant.rating c)) = true ->
  (role user = role_admin ->
   ok (PUT_admin_consultants_verify user id isVerified st).1 /\
   (PUT_admin_consultants_verify user id isVerified st).2
   = set_consultants (<[id := set_isVerified isVerified c]> (consultants st)) st) /\
  (role user <> role_admin ->
   status_code (PUT_admin_consultants_verify user id isVerified st).1 = Some 403 /\
   (PUT_admin_consultants_verify user id isVerified st).2 = st).
Proof.
  intros Hc Hv. unfold PUT_admin_consultants_verify. rewrite Hc.
  destruct (bool_decide_reflect (role user = role_admin)) as [Hr|Hr]; simpl.
  2: { split; [done|]. by intros _. }
  split; [|done]. intros _.
  unfold Consultant_save, Consultant.validate. simpl. rewrite Hv.
  rewrite Consultant_pre_save_same_categories by done.
  destruct st as [bks cs cats]. simpl.
  by destruct isVerified.
Qed.

Lemma verify_sets_isVerified_only_witness :
  (role Sample.root = role_admin ->
   ok (PUT_admin_consultants_verify Sample.root 0 true Sample.st_rated).1 /\
   (PUT_admin_consultants_verify Sample.root 0 true Sample.st_rated).2
   = set_consultants (<[0%nat := set_isVerified true Sample.rated_profile]>
                        (consultants Sample.st_rated)) Sample.st_rated) /\
  (role Sample.root <> role_admin ->
   status_code (PUT_admin_consultants_verify Sample.root 0 true Sample.st_rated).1 = Some 403 /\
   (PUT_admin_consultants_verify Sample.root 0 true Sample.st_rated).2 = Sample.st_rated).
Proof.
  apply (verify_sets_isVerified_only Sample.root 0 true Sample.st_rated Sample.rated_profile).
  - vm_compute. reflexivity.
  - vm_compute. reflexivity.
Defined.

(** ** The bookings of the caller *)

#[local] Instance by_date_startTime_total : Total by_date_startTime.
Proof.
  intros x y. unfold by_date_startTime.
  destruct (Z.lt_trichotomy (Booking.date x.2) (Booking.date y.2)) as [?|[Heq|?]];
    [by left; left| |by right; left].
  destruct (Booking.str_lt (Booking.startTime y.2) (Booking.startTime x.2)) eqn:E.
  - right. right. split; [done|]. unfold Booking.str_lt in *.
    rewrite String.compare_antisym.
    by destruct (String.compare (Booking.startTime y.2) (Booking.startTime x.2)).
  - left. right. done.
Qed.

Lemma find_sorted_spec (query : Booking.t -> bool) (bks : gmap nat Booking.t) :
  Sorted by_date_startTime
    (merge_sort by_date_startTime
       (filter (fun kv : nat * Booking.t => query kv.2 = true) (map_to_list bks))) /\
  NoDup (merge_sort by_date_startTime
           (filter (fun kv : nat * Booking.t => query kv.2 = true) (map_to_list bks))) /\
  forall id b,
    (id, b) ∈ merge_sort by_date_startTime
                (filter (fun kv : nat * Booking.t => query kv.2 = true) (map_to_list bks))
    <-> bks !! id = Some b /\ query b = true.
Proof.
  split; [apply Sorted_merge_sort, _|]. split.
  - rewrite merge_sort_Permutation. apply NoDup_filter, NoDup_map_to_list.
  - intros id b. rewrite merge_sort_Permutation, list_elem_of_filter, elem_of_map_to_list.
    simpl. tauto.
Qed.

(** X25. GET /api/bookings/me lists, in the order of date and then start
    time and each once, exactly the stored bookings that concern the
    caller: for a client those whose client is the caller, for a
    consultant those of the profile found for the caller (404 when there
    is none), for an admin all of them. *)
Theorem bookings_me_scope user st :
  (role user = role_client ->
   exists l, GET_bookings_me user st = Listed l /\
     Sorted by_date_startTime l /\ NoDup l /\
     forall id b, (id, b) ∈ l <->
       bookings st !! id = Some b /\ Booking.client b = _id user) /\
  (role user = role_consultant ->
   match findOne (fun _ c => bool_decide (Consultant.user c = _id user)) (consultants st) with
   | Some (cid, _) =>
       exists l, GET_bookings_me user st = Listed l /\
         Sorted by_date_startTime l /\ NoDup l /\
         forall id b, (id, b) ∈ l <->
           bookings st !! id = Some b /\ Booking.consultant b = cid
   | None =>
       GET_bookings_me user st
       = NotListed {| code := 404; success := false;
                      message := "Consultant profile not found" |}
   end) /\
  (role user = role_admin ->
   exists l, GET_bookings_me user st = Listed l /\
     Sorted by_date_startTime l /\ NoDup l /\
     forall id b, (id, b) ∈ l <-> bookings st !! id = Some b).
Proof.
  unfold GET_bookings_me. split; [|split]; intros ->.
  - eexists. split; [reflexivity|].
    destruct (find_sorted_spec (fun b => bool_decide (Booking.client b = _id user))
                               (bookings st)) as (? & ? & Hin).
    split; [done|]. split; [done|]. intros id b. rewrite Hin.
    by rewrite bool_decide_eq_true.
  - destruct (findOne _ _) as [[cid c]|]; [|done].
    eexists. split; [reflexivity|].
    destruct (find_sorted_spec (fun b => bool_decide (Booking.consultant b = cid))
                               (bookings st)) as (? & ? & Hin).
    split; [done|]. split; [done|]. intros id b. rewrite Hin.
    by rewrite bool_decide_eq_true.
  - eexists. split; [reflexivity|].
    destruct (find_sorted_spec (fun _ => true) (bookings st)) as (? & ? & Hin).
    split; [done|]. split; [done|]. intros id b. rewrite Hin. tauto.
Qed.

Example bookings_me_examples :
  GET_bookings_me Sample.bob Sample.st_two_ratings
  = Listed (filter (fun kv : nat * Booking.t => kv.1 = 1%nat)
                   (map_to_list (bookings Sample.st_two_ratings))) /\
  (exists b0 b1 b2,
     GET_bookings_me Sample.carl Sample.st_two_ratings = Listed [(0%nat, b0); (1%nat, b1); (2%nat, b2)]
     /\ Booking.startTime b0 = "09:00"%string
     /\ Booking.startTime b1 = "11:00"%string
     /\ Booking.startTime b2 = "14:00"%string).
Proof.
  split.
  - vm_compute. reflexivity.
  - vm_compute. do 3 eexists. repeat split.
Qed.

(** ** Signing in *)

(** X26. POST /api/auth/login, for a valid body. For the address
    admin@zentro.com the comparison of the password decides nothing:
    whatever the password and whatever the comparison answers, an existing
    active account with that address passes the check of the credentials.
    For every other address the check is passed exactly when the account
    exists and is active and the comparison accepts the password; a
    deactivated account is refused also with the right password. *)
Theorem login_admin_bypass isEmail normalizeEmail User_findOne compare email_ password_ :
  isEmail email_ = true -> password_ <> EmptyString ->
  (forall id user,
     normalizeEmail email_ = "admin@zentro.com"%string ->
     User_findOne "admin@zentro.com"%string = Some (id, user) ->
     Auth.isActive user = true ->
     Auth.login isEmail normalizeEmail User_findOne compare email_ password_
     = Auth.Authenticated id) /\
  (forall id,
     normalizeEmail email_ <> "admin@zentro.com"%string ->
     Auth.login isEmail normalizeEmail User_findOne compare email_ password_
     = Auth.Authenticated id <->
     exists user,
       User_findOne (normalizeEmail email_) = Some (id, user) /\
       Auth.isActive user = true /\
       compare password_ (Auth.password user) = Some true) /\
  (forall id user,
     User_findOne (normalizeEmail email_) = Some (id, user) ->
     Auth.isActive user = false ->
     Auth.login isEmail normalizeEmail User_findOne compare email_ password_
     = Auth.refuse 401 "Account is deactivated").
Proof.
  intros He Hp. unfold Auth.login. rewrite He.
  assert (String.eqb password_ EmptyString = false) as -> by by apply String.eqb_neq.
  simpl. split; [|split].
  - intros id user -> -> ->. simpl. by destruct (default false _).
  - intros id Hne. apply String.eqb_neq in Hne. rewrite Hne.
    destruct (User_findOne (normalizeEmail email_)) as [[id' user]|].
    2: { split; [done|]. by intros (? & ? & _). }
    rewrite andb_false_r.
    destruct (Auth.isActive user) eqn:Ha; simpl.
    2: { split; [done|]. intros (u & [= -> ->] & ? & _). congruence. }
    destruct (compare password_ (Auth.password user)) as [[]|] eqn:Hc; simpl.
    + split.
      * intros [= ->]. eauto.
      * by intros (u & [= -> ->] & _).
    + split; [done|]. intros (u & [= -> ->] & _ & ?). congruence.
    + split; [done|]. intros (u & [= -> ->] & _ & ?). congruence.
  - intros id user -> ->. reflexivity.
Qed.

Lemma login_admin_bypass_witness :
  (forall id user,
     Accounts.as_written "admin@zentro.com" = "admin@zentro.com"%string ->
     Accounts.User_findOne "admin@zentro.com"%string = Some (id, user) ->
     Auth.isActive user = true ->
     Auth.login Accounts.any_address Accounts.as_written Accounts.User_findOne
                Accounts.reject_all "admin@zentro.com" "not the password"
     = Auth.Authenticated id) /\
  (forall id,
     Accounts.as_written "admin@zentro.com" <> "admin@zentro.com"%string ->
     Auth.login Accounts.any_address Accounts.as_written Accounts.User_findOne
                Accounts.reject_all "admin@zentro.com" "not the password"
     = Auth.Authenticated id <->
     exists user,
       Accounts.User_findOne (Accounts.as_written "admin@zentro.com") = Some (id, user) /\
       Auth.isActive user = true /\
       Accounts.reject_all "not the password" (Auth.password user) = Some true) /\
  (forall id user,
     Accounts.User_findOne (Accounts.as_written "admin@zentro.com") = Some (id, user) ->
     Auth.isActive user = false ->
     Auth.login Accounts.any_address Accounts.as_written Accounts.User_findOne
                Accounts.reject_all "admin@zentro.com" "not the password"
     = Auth.refuse 401 "Account is deactivated").
Proof.
  apply (login_admin_bypass Accounts.any_address Accounts.as_written Accounts.User_findOne
                            Accounts.reject_all "admin@zentro.com" "not the password").
  - reflexivity.
  - discriminate.
Defined.

Example login_without_the_password :
  Auth.login Accounts.any_address Accounts.as_written Accounts.User_findOne
             Accounts.reject_all "admin@zentro.com" "not the password"
  = Auth.Authenticated 1.
Proof. reflexivity. Qed.

(** ** Status update by the admin *)

Lemma admin_update_status_ok now user id body st :
  ok (admin_update_status now user id body st).1 ->
  exists b,
    bookings st !! id = Some b /\
    Booking_save now id
      (Booking.set_this
         (apply_status now by_admin (AdminStatusBody.status body) None b)
         (Booking.of_store b)) st = Some (admin_update_status now user id body st).2.
Proof.
  unfold admin_update_status. repeat case_match; simpl; try tauto; try discriminate.
  intros _. eauto.
Qed.

Lemma admin_update_status_store now user id body st :
  ok (admin_update_status now user id body st).1
  \/ (admin_update_status now user id body st).2 = st.
Proof. unfold admin_update_status. repeat case_match; simpl; auto. Qed.

(** X27. PUT /api/admin/bookings/:id/status on a stored booking. When the
    booking still passes the validation of its schema at the clock of the
    request, the handler answers with success exactly when the caller is an
    admin and the note, if any, has at most 500 characters: there is no
    check of ownership nor of the current status, and all five statuses
    are accepted, [pending] included. On success the requested status is
    stored with the stamps of the consultant route and
    [cancelledBy = admin]; the note of the admin is not stored: the notes
    of the booking stay as they were. When the date of the booking is not
    later than the clock, or its stored end time is not a clock time, no
    status update succeeds and the store is left as it was. *)
Theorem admin_update_status_accepts_iff now user id body st b :
  bookings st !! id = Some b ->
  (Booking.valid_at now b = true ->
   (ok (admin_update_status now user id body st).1 <->
    role user = role_admin /\
    when_defined (maxlength 500) (AdminStatusBody.notes_admin body) = true)) /\
  (ok (admin_update_status now user id body st).1 ->
   exists b',
     bookings (admin_update_status now user id body st).2 !! id = Some b' /\
     Booking.status b' = AdminStatusBody.status body /\
     (AdminStatusBody.status body = completed -> Booking.completedAt b' = Some now) /\
     (AdminStatusBody.status body <> completed ->
      Booking.completedAt b' = Booking.completedAt b) /\
     (AdminStatusBody.status body = cancelled ->
      Booking.cancelledBy b' = Some by_admin /\ Booking.cancelledAt b' = Some now) /\
     (AdminStatusBody.status body <> cancelled ->
      Booking.cancelledBy b' = Booking.cancelledBy b /\
      Booking.cancelledAt b' = Booking.cancelledAt b) /\
     Booking.notes b' = Booking.notes b /\
     Booking.rating b' = Booking.rating b) /\
  (Booking.date b <= now \/ JS.matches_time (Booking.endTime b) = false ->
   ~ ok (admin_update_status now user id body st).1 /\
   (admin_update_status now user id body st).2 = st).
Proof.
  intros Hb.
  assert (ok (admin_update_status now user id body st).1 ->
          now < Booking.date b /\ JS.matches_time (Booking.endTime b) = true) as Hstill.
  { intros (b0 & Hb0 & Hsave)%admin_update_status_ok.
    rewrite Hb in Hb0. injection Hb0 as <-.
    eapply save_loaded_still_valid; [exact Hsave | apply apply_status_same]. }
  split; [|split].
  - intros Hvalid. unfold admin_update_status. rewrite Hb.
    destruct (bool_decide_reflect (role user = role_admin)) as [Hr|Hr]; cbn [negb].
    2: { split; [done|]. by intros (? & _). }
    destruct (when_defined (maxlength 500) (AdminStatusBody.notes_admin body)) eqn:Hn;
      cbn [negb].
    2: { split; [done|]. by intros (_ & ?). }
    unfold Booking_save.
    by rewrite (validate_status_doc now by_admin (AdminStatusBody.status body) None b).
  - intros (b0 & Hb0 & (_ & Hbks & _)%Booking_save_Some)%admin_update_status_ok.
    rewrite Hb in Hb0. injection Hb0 as <-.
    eexists. split; [by rewrite Hbks, lookup_insert_eq|].
    rewrite written_status, written_rating.
    destruct (written_fixed (consultants st)
      (Booking.set_this (apply_status now by_admin (AdminStatusBody.status body) None b)
                        (Booking.of_store b)))
      as (_ & _ & _ & -> & ->).
    destruct (written_cancellation (consultants st)
      (Booking.set_this (apply_status now by_admin (AdminStatusBody.status body) None b)
                        (Booking.of_store b)))
      as (_ & -> & ->).
    cbn [Booking.this Booking.set_this].
    destruct (apply_status_stamps now by_admin (AdminStatusBody.status body) None b)
      as (H1 & H2 & H3 & H4 & _ & H6 & H7 & _).
    split; [apply apply_status_status|]. auto 10.
  - intros Hinvalid.
    assert (~ ok (admin_update_status now user id body st).1) as Hno.
    { intros [Hd He]%Hstill. destruct Hinvalid as [?|Hne]; [lia|].
      rewrite He in Hne. discriminate. }
    split; [done|].
    by destruct (admin_update_status_store now user id body st).
Qed.

Lemma admin_update_status_accepts_iff_witness :
  (Booking.valid_at 5000 Sample.completed_booking = true ->
   (ok (admin_update_status 5000 Sample.root 0
          {| AdminStatusBody.status := pending;
             AdminStatusBody.notes_admin := Some "reopened"%string |}
          Sample.st_completed).1 <->
    role Sample.root = role_admin /\
    when_defined (maxlength 500) (Some "reopened"%string) = true)) /\
  (ok (admin_update_status 5000 Sample.root 0
         {| AdminStatusBody.status := pending; AdminStatusBody.notes_admin := Some "reopened"%string |}
         Sample.st_completed).1 ->
   exists b',
     bookings (admin_update_status 5000 Sample.root 0
                 {| AdminStatusBody.status := pending;
                    AdminStatusBody.notes_admin := Some "reopened"%string |}
                 Sample.st_completed).2 !! 0%nat = Some b' /\
     Booking.status b' = pending /\
     (pending = completed -> Booking.completedAt b' = Some 5000) /\
     (pending <> completed ->
      Booking.completedAt b' = Booking.completedAt Sample.completed_booking) /\
     (pending = cancelled ->
      Booking.cancelledBy b' = Some by_admin /\ Booking.cancelledAt b' = Some 5000) /\
     (pending <> cancelled ->
      Booking.cancelledBy b' = Booking.cancelledBy Sample.completed_booking /\
      Booking.cancelledAt b' = Booking.cancelledAt Sample.completed_booking) /\
     Booking.notes b' = Booking.notes Sample.completed_booking /\
     Booking.rating b' = Booking.rating Sample.completed_booking) /\
  (Booking.date Sample.completed_booking <= 5000
   \/ JS.matches_time (Booking.endTime Sample.completed_booking) = false ->
   ~ ok (admin_update_status 5000 Sample.root 0
           {| AdminStatusBody.status := pending;
              AdminStatusBody.notes_admin := Some "reopened"%string |}
           Sample.st_completed).1 /\
   (admin_update_status 5000 Sample.root 0
      {| AdminStatusBody.status := pending;
         AdminStatusBody.notes_admin := Some "reopened"%string |}
      Sample.st_completed).2 = Sample.st_completed).
Proof.
  apply (admin_update_status_accepts_iff 5000 Sample.root 0
           {| AdminStatusBody.status := pending;
              AdminStatusBody.notes_admin := Some "reopened"%string |}
           Sample.st_completed Sample.completed_booking).
  vm_compute. reflexivity.
Defined.

(** ** The stamps of a stored booking *)

Lemma written_stamped cs d : stamped (Booking.this d) -> stamped (written cs d).
Proof.
  unfold stamped. rewrite written_status, written_rating.
  destruct (written_fixed cs d) as (_ & _ & _ & _ & ->).
  by destruct (written_cancellation cs d) as (_ & -> & ->).
Qed.

Lemma apply_status_stamped now who s note b :
  stamped b -> stamped (apply_status now who s note b).
Proof.
  unfold stamped. intros (_ & _ & Hr).
  destruct (apply_status_stamps now who s note b) as (H1 & _ & H3 & _ & _ & _ & -> & _).
  rewrite apply_status_status. split; [|split; [|done]].
  - intros Hs. rewrite (H1 Hs). eauto.
  - intros Hs. destruct (H3 Hs) as [-> ->]. eauto.
Qed.

Lemma apply_cancel_stamped now reason b : stamped b -> stamped (apply_cancel now reason b).
Proof.
  unfold stamped. intros (_ & _ & Hr).
  destruct (apply_cancel_fields now reason b) as (-> & -> & -> & _).
  split; [done|]. split; [by eauto|].
  unfold apply_cancel. by case_match.
Qed.

Lemma handle_stamped now req st :
  (forall id b, bookings st !! id = Some b -> stamped b) ->
  forall id b, bookings (handle now req st).2 !! id = Some b -> stamped b.
Proof.
  intros Hinv.
  assert (forall rid b0 b1 st',
            bookings st !! rid = Some b0 -> stamped b1 ->
            Booking_save now rid (Booking.set_this b1 (Booking.of_store b0)) st = Some st' ->
            forall id b, bookings st' !! id = Some b -> stamped b) as Hsave.
  { intros rid b0 b1 st' Hb0 Hst (-> & _)%save_loaded_frame id b.
    destruct (decide (rid = id)) as [->|Hne].
    - rewrite lookup_insert_eq. intros [= <-]. by apply written_stamped.
    - rewrite lookup_insert_ne by done. apply Hinv. }
  destruct req as [user body | user rid body | user rid body
                  | user rid body | user rid body | user body | user rid body]; simpl.
  - destruct (create_store now user body st) as [Hok | ->]; [|done].
    apply create_ok, Booking_save_Some in Hok as (_ & -> & _). intros id b.
    destruct (decide (new_ObjectId (bookings st) = id)) as [<-|Hne].
    + rewrite lookup_insert_eq. intros [= <-]. apply written_stamped.
      unfold stamped. simpl. split; [done|]. split; [done|]. split; by intros [? ?].
    + rewrite lookup_insert_ne by done. apply Hinv.
  - unfold update_status. repeat case_match; simpl; try exact Hinv.
    eapply Hsave; [eassumption|apply apply_status_stamped; eauto|eassumption].
  - unfold admin_update_status. repeat case_match; simpl; try exact Hinv.
    eapply Hsave; [eassumption|apply apply_status_stamped; eauto|eassumption].
  - unfold cancel. repeat case_match; simpl; try exact Hinv.
    eapply Hsave; [eassumption|apply apply_cancel_stamped; eauto|eassumption].
  - unfold rate. repeat case_match; simpl; try exact Hinv.
    all: try match goal with H : Consultant_save _ _ _ = Some _ |- _ =>
      apply Consultant_save_Some in H as (_ & -> & _) end.
    all: eapply Hsave; [eassumption| |eassumption].
    all: match goal with H : bookings _ !! _ = Some ?b0 |- _ =>
           destruct (Hinv _ _ H) as (? & ? & ?) end.
    all: unfold stamped; simpl; split; [done|]; split; [done|]; split; eauto.
  - unfold ConsultantRoutes.create. repeat case_match; simpl; try exact Hinv.
    match goal with H : Consultant_save _ _ _ = Some _ |- _ =>
      apply Consultant_save_Some in H as (_ & -> & _) end. exact Hinv.
  - unfold ConsultantRoutes.update. repeat case_match; simpl; try exact Hinv.
    match goal with H : Consultant_save _ _ _ = Some _ |- _ =>
      apply Consultant_save_Some in H as (_ & -> & _) end. exact Hinv.
Qed.

(** X28. In every store that the routes reach from one without bookings, a
    booking whose status is completed carries [completedAt], a booking
    whose status is cancelled carries [cancelledAt] and [cancelledBy], and
    a rating has a score exactly when it has its [createdAt]. *)
Theorem reachable_bookings_stamped st id b :
  reachable st -> bookings st !! id = Some b ->
  (Booking.status b = completed -> is_Some (Booking.completedAt b)) /\
  (Booking.status b = cancelled ->
   is_Some (Booking.cancelledAt b) /\ is_Some (Booking.cancelledBy b)) /\
  (is_Some (Booking.score (Booking.rating b))
   <-> is_Some (Booking.createdAt (Booking.rating b))).
Proof.
  intros Hr. revert id b.
  induction Hr as [st Hempty | now req st _ IH | cats st _ IH]; intros id b.
  - by rewrite Hempty, lookup_empty.
  - apply (handle_stamped now req st IH).
  - apply IH.
Qed.

Lemma reachable_bookings_stamped_witness :
  (Booking.status Sample.completed_booking = completed ->
   is_Some (Booking.completedAt Sample.completed_booking)) /\
  (Booking.status Sample.completed_booking = cancelled ->
   is_Some (Booking.cancelledAt Sample.completed_booking)
   /\ is_Some (Booking.cancelledBy Sample.completed_booking)) /\
  (is_Some (Booking.score (Booking.rating Sample.completed_booking))
   <-> is_Some (Booking.createdAt (Booking.rating Sample.completed_booking))).
Proof.
  apply (reachable_bookings_stamped Sample.st_completed 0%nat Sample.completed_booking).
  - apply reachable_st_completed.
  - vm_compute. reflexivity.
Defined.

(** ** Renaming a category *)

Section CategoryRenaming.

Variable RegExp_i : string -> option (string -> bool).

(** As for the creation: on a source without special characters the engine
    compares the whole string, without regard to case. *)
Hypothesis RegExp_i_literal : forall n,
  regexp_literal n = true ->
  exists test, RegExp_i ("^" ++ n ++ "$") = Some test /\
               forall s, test s = String.eqb (JS.toLowerCase s) (JS.toLowerCase n).

Lemma name_changes_Some body c n :
  CategoryRoutes.update_valid body = true ->
  CategoryRoutes.UpdateBody.name body = Some n ->
  JS.trim n <> Category.name c ->
  CategoryRoutes.name_changes body c = Some (JS.trim n).
Proof.
  intros Hvalid Hn Hne. unfold CategoryRoutes.name_changes. rewrite Hn.
  unfold CategoryRoutes.update_valid in Hvalid. rewrite Hn in Hvalid.
  rewrite !andb_true_iff in Hvalid. destruct Hvalid as ((((Hv & _) & _) & _) & _).
  simpl in Hv. unfold CategoryRoutes.valid_name in Hv.
  apply andb_true_iff in Hv as [Hlen _]. apply Nat.leb_le in Hlen.
  assert (String.eqb (JS.trim n) EmptyString = false) as ->.
  { apply String.eqb_neq. intros Heq. rewrite Heq in Hlen. simpl in Hlen. lia. }
  by apply String.eqb_neq in Hne as ->.
Qed.

(** X29. PUT /api/categories/:id by an admin with a valid body that gives
    the category a new name without special characters of regular
    expressions: the update succeeds exactly when no other category has
    that name up to case; it is refused with 400 and the store left as it
    was when one has. The category itself is not compared: on success the
    stored name is the normal form of the new one. *)
Theorem category_rename_guard user id body st c n :
  role user = role_admin ->
  CategoryRoutes.update_valid body = true ->
  categories st !! id = Some c ->
  CategoryRoutes.UpdateBody.name body = Some n ->
  regexp_literal (JS.trim n) = true ->
  JS.trim n <> Category.name c ->
  (ok (CategoryRoutes.update RegExp_i user id body st).1 <->
   forall k c', k <> id -> categories st !! k = Some c' ->
     JS.toLowerCase (Category.name c') <> JS.toLowerCase (JS.trim n)) /\
  (~ ok (CategoryRoutes.update RegExp_i user id body st).1 ->
   CategoryRoutes.update RegExp_i user id body st
   = (json 400 false "Category with this name already exists", st)) /\
  (ok (CategoryRoutes.update RegExp_i user id body st).1 ->
   Category.name <$> categories (CategoryRoutes.update RegExp_i user id body st).2 !! id
   = Some (Category.normalize (JS.trim n))).
Proof.
  intros Hrole Hvalid Hc Hn Hlit Hne.
  unfold CategoryRoutes.update.
  rewrite (bool_decide_eq_true_2 _ Hrole), Hvalid, Hc. cbn [negb].
  rewrite (name_changes_Some body c n Hvalid Hn Hne).
  unfold CategoryRoutes.findOne_by_name.
  destruct (RegExp_i_literal _ Hlit) as (test & -> & Htest).
  destruct (findOne _ (categories st)) as [[k c']|] eqn:Hfind; cbn [fst snd ok json success].
  - apply findOne_Some in Hfind as [Hk HP]. cbn [fst snd] in HP.
    apply andb_true_iff in HP as [Ht Hkid].
    rewrite Htest in Ht. apply String.eqb_eq in Ht.
    apply negb_true_iff, bool_decide_eq_false in Hkid.
    split; [|done]. split; [done|]. intros Hno. by destruct (Hno k c' Hkid Hk).
  - rewrite findOne_None in Hfind. split; [|split; [done|]].
    + split; [|done]. intros _ k c' Hkid Hk Heq.
      specialize (Hfind k c' Hk). cbn [fst snd] in Hfind.
      rewrite Htest, Heq, String.eqb_refl in Hfind.
      by rewrite (bool_decide_eq_false_2 _ Hkid) in Hfind.
    + intros _. rewrite Category_save_name. unfold CategoryRoutes.patch. simpl.
      by rewrite Hn.
Qed.

End CategoryRenaming.

Lemma category_rename_guard_witness :
  (ok (CategoryRoutes.update Sample.RegExp_i_anchored Sample.root 1
         (Catalogue.rename " healthcare") Sample.st_categories).1 <->
   forall k c', k <> 1%nat -> categories Sample.st_categories !! k = Some c' ->
     JS.toLowerCase (Category.name c') <> JS.toLowerCase (JS.trim " healthcare")) /\
  (~ ok (CategoryRoutes.update Sample.RegExp_i_anchored Sample.root 1
           (Catalogue.rename " healthcare") Sample.st_categories).1 ->
   CategoryRoutes.update Sample.RegExp_i_anchored Sample.root 1
     (Catalogue.rename " healthcare") Sample.st_categories
   = (json 400 false "Category with this name already exists", Sample.st_categories)) /\
  (ok (CategoryRoutes.update Sample.RegExp_i_anchored Sample.root 1
         (Catalogue.rename " healthcare") Sample.st_categories).1 ->
   Category.name <$>
     categories (CategoryRoutes.update Sample.RegExp_i_anchored Sample.root 1
                   (Catalogue.rename " healthcare") Sample.st_categories).2 !! 1%nat
   = Some (Category.normalize (JS.trim " healthcare"))).
Proof.
  apply (category_rename_guard Sample.RegExp_i_anchored RegExp_i_anchored_literal
           Sample.root 1 (Catalogue.rename " healthcare") Sample.st_categories
           (Sample.category "Businesses" 0) " healthcare").
  - reflexivity.
  - vm_compute. reflexivity.
  - vm_compute. reflexivity.
  - reflexivity.
  - vm_compute. reflexivity.
  - vm_compute. discriminate.
Defined.

Example category_rename_examples :
  CategoryRoutes.update Sample.RegExp_i_anchored Sample.root 1
    (Catalogue.rename " healthcare") Sample.st_categories
  = (json 400 false "Category with this name already exists", Sample.st_categories) /\
  (let r := CategoryRoutes.update Sample.RegExp_i_anchored Sample.root 1
              (Catalogue.rename "BUSINESSES") Sample.st_categories in
   ok r.1 /\ Category.name <$> categories r.2 !! 1%nat = Some "Businesses"%string).
Proof. split; [|split]; vm_compute; reflexivity. Qed.
